(** * ICN identity validation and signature-trust pipeline

    A shallow embedding of the Python sources

    - [identity/signature.py]      (class [SignatureVerifier])
    - [identity/service.py]        (class [IdentityService])
    - [consensus/validation.py]    (class [Validator])
    - [consensus/engine.py]        (class [ConsensusEngine])
    - [src/blockchain/validation.py] (class [ValidationService])
    - [federation/signature.py]    (class [SignatureVerifier]) and
      [federation/federation.py]   (class [Federation])
    - [src/federation/federation.py] (class [Federation])
    - [src/identity/identity_service.py] (class [IdentityService])
    - [tools/doctools/docmanager.py] (class [DocManager])
    - [tools/doctools/specgen.py]  (class [SpecificationGenerator])

    Python values are an inductive type, exceptions and log records are
    threaded through a small writer/exception monad, and the objects a class
    receives in its constructor are record fields. *)

From Stdlib Require Import String Ascii List ZArith NArith Bool Lia.
From Stdlib Require Import Permutation Sorted DecimalString.
Import ListNotations.

#[local] Set Warnings "-register-all".

Local Open Scope string_scope.
Local Open Scope list_scope.

(* ================================================================== *)
(** * Part I.  Python data and the effects of the code *)
(* ================================================================== *)

(** ** Data

    [value] is the data a JSON document carries: what a DID document, a
    dict-shaped transaction or a payload is made of.  A dict keeps its items
    in insertion order, as a Python dict does; its keys are pairwise distinct
    (see [wf_value]).  A [str] is the sequence of its code points, here the
    code points below 256. *)
Inductive value : Type :=
| VNone
| VBool (b : bool)
| VInt (n : Z)
| VStr (s : string)
| VList (xs : list value)
| VDict (items : list (string * value)).

(** [pyobj] is what the attribute-based code of [consensus/] receives: plain
    data, an object with named attributes, a list of objects, or a bound
    method of no argument (given by what it returns). *)
Inductive pyobj : Type :=
| PData (v : value)
| PObject (attrs : list (string * pyobj))
| PSeq (xs : list pyobj)
| PMethod (returns : pyobj).

(** The exception classes the code can meet; all derive from [Exception]. *)
Inductive exn : Type :=
| AttributeError
| TypeError
| ValueError
| KeyError
| InvalidSignature
| LibraryError.

Inductive result (A : Type) : Type :=
| Ret (a : A)
| Raise (e : exn).
Arguments Ret {A} a.
Arguments Raise {A} e.

Inductive level : Type := INFO | WARNING | ERROR.

(** A log record: the level, the text of the (f-)string as the source has it
    and the values of its placeholders, in order. *)
Record logrec : Type := Log { log_level : level; log_text : string; log_args : list pyobj }.

(** ** The monad: a result or an exception, and the records logged so far *)
Definition M (A : Type) : Type := (result A * list logrec)%type.

Definition ret {A} (a : A) : M A := (Ret a, []).
Definition raise {A} (e : exn) : M A := (Raise e, []).
Definition bind {A B} (m : M A) (k : A -> M B) : M B :=
  match m with
  | (Ret a, l) => let (r, l') := k a in (r, l ++ l')
  | (Raise e, l) => (Raise e, l)
  end.
Definition logger (lvl : level) (text : string) (args : list pyobj) : M unit :=
  (Ret tt, [Log lvl text args]).

(** [try: body / except Exception as e: handler e] *)
Definition try_except {A} (body : M A) (handler : exn -> M A) : M A :=
  match body with
  | (Ret a, l) => (Ret a, l)
  | (Raise e, l) => let (r, l') := handler e in (r, l ++ l')
  end.

Declare Scope py_scope.
Delimit Scope py_scope with py.
Notation "x <- m ;; k" := (bind m (fun x => k))
  (at level 61, m at next level, right associativity) : py_scope.
Notation "m ;;; k" := (bind m (fun _ => k))
  (at level 61, right associativity) : py_scope.
Local Open Scope py_scope.

Definition returned {A} (m : M A) : result A := fst m.
Definition logged {A} (m : M A) : list logrec := snd m.

(** A [for] loop whose body may [return]: [None] means the loop ran to its
    end (or the body fell through), [Some r] that the function returned [r]. *)
Fixpoint for_each {A R} (xs : list A) (body : A -> M (option R)) : M (option R) :=
  match xs with
  | [] => ret None
  | x :: rest =>
      r <- body x ;;
      match r with
      | Some v => ret (Some v)
      | None => for_each rest body
      end
  end.

(** [all(p x for x in xs)]: stops at the first false. *)
Fixpoint py_all {A} (xs : list A) (p : A -> M bool) : M bool :=
  match xs with
  | [] => ret true
  | x :: rest => b <- p x ;; if b then py_all rest p else ret false
  end.

(** ** Python operations on [value] *)

Fixpoint assoc {A} (k : string) (d : list (string * A)) : option A :=
  match d with
  | [] => None
  | (k', v) :: rest => if String.eqb k k' then Some v else assoc k rest
  end.

Definition has_key {A} (k : string) (d : list (string * A)) : bool :=
  match assoc k d with Some _ => true | None => false end.

(** [bool(v)] *)
Definition truthy (v : value) : bool :=
  match v with
  | VNone => false
  | VBool b => b
  | VInt n => negb (n =? 0)%Z
  | VStr s => negb (s =? "")
  | VList xs => match xs with [] => false | _ => true end
  | VDict d => match d with [] => false | _ => true end
  end.

(** [v.get(k, default)]: only a dict has [get]. *)
Definition dict_get (v : value) (k : string) (default : value) : M value :=
  match v with
  | VDict d => ret (match assoc k d with Some x => x | None => default end)
  | _ => raise AttributeError
  end.

(** [v[k]] for a str [k]. *)
Definition getitem (v : value) (k : string) : M value :=
  match v with
  | VDict d => match assoc k d with Some x => ret x | None => raise KeyError end
  | _ => raise TypeError
  end.

Fixpoint is_substring (k s : string) : bool :=
  String.prefix k s ||
  match s with
  | EmptyString => false
  | String _ s' => is_substring k s'
  end.

(** [k in v] for a str [k]: a key of a dict, an element of a list, a
    substring of a str; the other types are not containers. *)
Definition str_in (k : string) (v : value) : M bool :=
  match v with
  | VDict d => ret (has_key k d)
  | VList xs => ret (existsb (fun x => match x with VStr s => String.eqb s k | _ => false end) xs)
  | VStr s => ret (is_substring k s)
  | _ => raise TypeError
  end.

(** [iter(v)]: the elements of a list, the characters of a str, the keys of a
    dict. *)
Definition py_iter (v : value) : M (list value) :=
  match v with
  | VList xs => ret xs
  | VStr s => ret (map (fun c => VStr (String c EmptyString)) (list_ascii_of_string s))
  | VDict d => ret (map (fun kv => VStr (fst kv)) d)
  | _ => raise TypeError
  end.

(** Lists and dicts have no hash. *)
Definition hashable (v : value) : bool :=
  match v with
  | VList _ | VDict _ => false
  | _ => true
  end.

(** [a == b] on hashable data; [True == 1] and [False == 0] as in Python. *)
Definition as_int (v : value) : option Z :=
  match v with
  | VBool b => Some (if b then 1 else 0)%Z
  | VInt n => Some n
  | _ => None
  end.

Definition atom_eq (a b : value) : bool :=
  match a, b with
  | VNone, VNone => true
  | VStr s, VStr t => String.eqb s t
  | _, _ => match as_int a, as_int b with
            | Some x, Some y => (x =? y)%Z
            | _, _ => false
            end
  end.

(** [set(f x for x in xs)] and [{f x for x in xs}]: every element is hashed
    as it is added. *)
Fixpoint py_set {A} (xs : list A) (f : A -> M value) : M (list value) :=
  match xs with
  | [] => ret []
  | x :: rest =>
      v <- f x ;;
      if hashable v then s <- py_set rest f ;; ret (v :: s)
      else raise TypeError
  end.

(** [x in s] for a set [s]: [x] is hashed first. *)
Definition set_contains (x : value) (s : list value) : M bool :=
  if hashable x then ret (existsb (atom_eq x) s) else raise TypeError.

(** [s.startswith('z')], [s[1:]] and [s.lower()].  The lower-case mapping is
    the one of ASCII; the comparisons the code makes with the result, with
    ['ed25519'] and ['rsa'], see no other character. *)
Definition startswith_z (s : string) : bool := String.prefix "z" s.

Definition drop_first (s : string) : string :=
  match s with
  | EmptyString => EmptyString
  | String _ s' => s'
  end.

Definition lower_ascii (c : ascii) : ascii :=
  let n := N_of_ascii c in
  if ((65 <=? n) && (n <=? 90))%N then ascii_of_N (n + 32) else c.

Fixpoint lower (s : string) : string :=
  match s with
  | EmptyString => EmptyString
  | String c s' => String (lower_ascii c) (lower s')
  end.

(** ** Python operations on [pyobj]

    None of the attribute names the code reads ([id], [sender], [signature],
    [get_message_for_signing], [proposer], [transactions], [height],
    [producer], [proposals]) is an attribute of a built-in value, list or
    method, so only a [PObject] ever has them. *)
Definition hasattr (o : pyobj) (name : string) : bool :=
  match o with
  | PObject attrs => has_key name attrs
  | _ => false
  end.

Definition getattr (o : pyobj) (name : string) : M pyobj :=
  match o with
  | PObject attrs =>
      match assoc name attrs with
      | Some v => ret v
      | None => raise AttributeError
      end
  | _ => raise AttributeError
  end.

(** [f()] *)
Definition call0 (f : pyobj) : M pyobj :=
  match f with
  | PMethod r => ret r
  | _ => raise TypeError
  end.

(** [iter(o)] *)
Definition iter_obj (o : pyobj) : M (list pyobj) :=
  match o with
  | PSeq xs => ret xs
  | PData v => vs <- py_iter v ;; ret (map PData vs)
  | _ => raise TypeError
  end.

(* ================================================================== *)
(** * Part II.  [json.dumps] and the canonical form *)
(* ================================================================== *)

Module Json.

Local Open Scope string_scope.

(** The double quote, and the letters of a hexadecimal digit as
    [format(n, 'x')] prints them. *)
Definition dquote : string := String (ascii_of_N 34) EmptyString.

Definition hex_digit (n : N) : ascii :=
  if (n <? 10)%N then ascii_of_N (48 + n) else ascii_of_N (87 + n).

(** [ESCAPE_DCT] of [json.encoder] and the [\uXXXX] form of every other
    character outside [' '..'~'] ([ensure_ascii] is true by default). *)
Definition escape_char (c : ascii) : string :=
  let n := N_of_ascii c in
  if (n =? 34)%N then "\" ++ dquote
  else if (n =? 92)%N then "\\"
  else if (n =? 10)%N then "\n"
  else if (n =? 13)%N then "\r"
  else if (n =? 9)%N then "\t"
  else if (n =? 12)%N then "\f"
  else if (n =? 8)%N then "\b"
  else if ((32 <=? n) && (n <=? 126))%N then String c EmptyString
  else "\u00" ++ String (hex_digit (n / 16)) (String (hex_digit (n mod 16)) EmptyString).

Fixpoint escape (s : string) : string :=
  match s with
  | EmptyString => EmptyString
  | String c s' => escape_char c ++ escape s'
  end.

Definition encode_str (s : string) : string := dquote ++ escape s ++ dquote.

(** [int.__repr__] *)
Definition encode_int (n : Z) : string := NilEmpty.string_of_int (Z.to_int n).

(** [sorted(d.items())]: the keys of a dict are pairwise distinct, so the
    order of two items is the order of their keys, which Python compares
    code point by code point. *)
Fixpoint insert_item {A} (x : string * A) (l : list (string * A)) : list (string * A) :=
  match l with
  | [] => [x]
  | y :: rest => if String.leb (fst x) (fst y) then x :: l else y :: insert_item x rest
  end.

Fixpoint sort_items {A} (l : list (string * A)) : list (string * A) :=
  match l with
  | [] => []
  | x :: rest => insert_item x (sort_items rest)
  end.

(** [json.dumps(v, sort_keys=sort_keys)] with the default separators
    [', '] and [': '].  The items of a dict are put in order by their keys
    alone, so each value is encoded first and the encoded items are
    ordered. *)
Fixpoint dumps (sort_keys : bool) (v : value) {struct v} : string :=
  match v with
  | VNone => "null"
  | VBool true => "true"
  | VBool false => "false"
  | VInt n => encode_int n
  | VStr s => encode_str s
  | VList xs => "[" ++ String.concat ", " (map (dumps sort_keys) xs) ++ "]"
  | VDict items =>
      let encoded := map (fun kv => (fst kv, dumps sort_keys (snd kv))) items in
      let ordered := if sort_keys then sort_items encoded else encoded in
      "{" ++ String.concat ", "
               (map (fun ke => encode_str (fst ke) ++ ": " ++ snd ke) ordered) ++ "}"
  end.

(** [s.encode('utf-8')] for code points below 256. *)
Definition utf8_char (c : ascii) : string :=
  let n := N_of_ascii c in
  if (n <? 128)%N then String c EmptyString
  else String (ascii_of_N (192 + n / 64)) (String (ascii_of_N (128 + n mod 64)) EmptyString).

Fixpoint utf8_encode (s : string) : string :=
  match s with
  | EmptyString => EmptyString
  | String c s' => utf8_char c ++ utf8_encode s'
  end.

(** A dict has pairwise distinct keys, at every depth. *)
Inductive wf_value : value -> Prop :=
| wf_none : wf_value VNone
| wf_bool b : wf_value (VBool b)
| wf_int n : wf_value (VInt n)
| wf_str s : wf_value (VStr s)
| wf_list xs : Forall wf_value xs -> wf_value (VList xs)
| wf_dict items :
    NoDup (map fst items) ->
    Forall (fun kv => wf_value (snd kv)) items ->
    wf_value (VDict items).

(** Two values are the same logical object when they differ at most in the
    order in which their dicts, at any depth, list their items. *)
Inductive same_object : value -> value -> Prop :=
| same_none : same_object VNone VNone
| same_bool b : same_object (VBool b) (VBool b)
| same_int n : same_object (VInt n) (VInt n)
| same_str s : same_object (VStr s) (VStr s)
| same_list xs ys :
    Forall2 same_object xs ys -> same_object (VList xs) (VList ys)
| same_dict items items' reordered :
    Permutation items reordered ->
    Forall2 (fun a b => fst a = fst b /\ same_object (snd a) (snd b)) reordered items' ->
    same_object (VDict items) (VDict items').

End Json.

(* ================================================================== *)
(** * Part III.  [identity/signature.py] *)
(* ================================================================== *)

Module IdentitySignature.

Local Open Scope string_scope.

(** A message, signature or key as the verifier receives it: a [str] or
    [bytes]. *)
Inductive blob : Type :=
| Str (s : string)
| Bytes (b : string).

(** What the code takes from [base64], [hashlib] and [cryptography]: a
    check either returns, raises [InvalidSignature] or raises something
    else. *)
Record Library : Type := {
  b64decode : string -> result string;
  b64encode : string -> string;
  sha256 : string -> string;
  ed25519_check : string -> string -> string -> result unit;
  rsa_check : string -> string -> string -> result unit
}.

Definition lift {A} (r : result A) : M A := (r, []).

Definition as_bytes (lib : Library) (x : blob) : M string :=
  match x with
  | Str s => lift (b64decode lib s)
  | Bytes b => ret b
  end.

Definition as_message (x : blob) : string :=
  match x with
  | Str s => Json.utf8_encode s
  | Bytes b => b
  end.

(** [except InvalidSignature: ... / except Exception as e: ...] *)
Definition on_failure (algorithm : string) (e : exn) : M bool :=
  match e with
  | InvalidSignature =>
      logger WARNING ("Invalid " ++ algorithm ++ " signature") [] ;;; ret false
  | _ =>
      logger ERROR (algorithm ++ " verification error: {str(e)}") [] ;;; ret false
  end.

Definition _verify_ed25519 (lib : Library) (message signature public_key : blob) : M bool :=
  try_except
    (public_key' <- as_bytes lib public_key ;;
     signature' <- as_bytes lib signature ;;
     let message' := as_message message in
     lift (ed25519_check lib public_key' signature' message') ;;;
     ret true)
    (on_failure "Ed25519").

Definition _verify_rsa (lib : Library) (message signature public_key : blob) : M bool :=
  try_except
    (public_key' <- as_bytes lib public_key ;;
     signature' <- as_bytes lib signature ;;
     let message' := as_message message in
     lift (rsa_check lib public_key' signature' message') ;;;
     ret true)
    (on_failure "RSA").

Definition verify (lib : Library) (message signature public_key : blob)
           (key_type : string) : M bool :=
  try_except
    (if String.eqb (lower key_type) "ed25519" then
       _verify_ed25519 lib message signature public_key
     else if String.eqb (lower key_type) "rsa" then
       _verify_rsa lib message signature public_key
     else
       logger ERROR "Unsupported key type: {key_type}" [PData (VStr key_type)] ;;;
       ret false)
    (fun e => logger ERROR "Signature verification error: {str(e)}" [] ;;; ret false).

(** [calculate_fingerprint]: a dict is dumped with sorted keys, a str is
    encoded, anything else is handed to [hashlib.sha256] as it is, which
    takes bytes only. *)
Definition calculate_fingerprint (lib : Library) (data : value) : M string :=
  data_bytes <-
    match data with
    | VDict _ => ret (Json.utf8_encode (Json.dumps true data))
    | VStr s => ret (Json.utf8_encode s)
    | _ => raise TypeError
    end ;;
  ret (b64encode lib (sha256 lib data_bytes)).

(** The attributes the class statement defines.  The class has no base but
    [object], which has no [verify_signature] either. *)
Inductive member : Type :=
| m_init
| m_verify
| m_verify_ed25519
| m_verify_rsa
| m_calculate_fingerprint.

Definition SignatureVerifier : list (string * member) :=
  [ ("__init__", m_init);
    ("verify", m_verify);
    ("_verify_ed25519", m_verify_ed25519);
    ("_verify_rsa", m_verify_rsa);
    ("calculate_fingerprint", m_calculate_fingerprint) ].

(** [SignatureVerifier.name] *)
Definition class_getattr (name : string) : M member :=
  match assoc name SignatureVerifier with
  | Some m => ret m
  | None => raise AttributeError
  end.

(** [f(a, b, c)] for a function [f] taken from the class: the first
    argument binds [self], and none of the five functions takes two more
    positional arguments and no others. *)
Definition call_with_three (m : member) (a b c : pyobj) : M bool :=
  match m with
  | m_init => raise TypeError                  (* takes 1 positional argument *)
  | m_verify => raise TypeError                (* missing [public_key] *)
  | m_verify_ed25519 => raise TypeError        (* missing [public_key] *)
  | m_verify_rsa => raise TypeError            (* missing [public_key] *)
  | m_calculate_fingerprint => raise TypeError (* takes 2 positional arguments *)
  end.

End IdentitySignature.

(* ================================================================== *)
(** * Part IV.  [identity/service.py] *)
(* ================================================================== *)

Module Identity.

Local Open Scope string_scope.

(** [resolve_did] is the one method a deployment supplies; in the source
    its body is [pass], which returns [None] ([unresolved]). *)
Record IdentityService : Type := {
  resolve_did : pyobj -> value
}.

Definition unresolved : IdentityService := {| resolve_did := fun _ => VNone |}.

Definition required_method_fields : list string :=
  ["id"; "type"; "controller"; "publicKeyMultibase"].

Definition validate_did_document (did_document : value) : M bool :=
  id_ <- dict_get did_document "id" VNone ;;
  if negb (truthy id_) then
    logger ERROR "DID document missing required 'id' field" [] ;;;
    ret false
  else
  verification_methods <- dict_get did_document "verificationMethod" (VList []) ;;
  if negb (truthy verification_methods) then
    logger ERROR "DID document has no verification methods" [] ;;;
    ret false
  else
  methods <- py_iter verification_methods ;;
  r <- for_each methods (fun method =>
         ok <- py_all required_method_fields (fun k => str_in k method) ;;
         if negb ok then
           logger ERROR "Verification method missing required fields: {method}"
                  [PData method] ;;;
           ret (Some false)
         else ret None) ;;
  match r with
  | Some b => ret b
  | None =>
  methods <- py_iter verification_methods ;;
  controllers <- py_set methods (fun method => dict_get method "controller" VNone) ;;
  id_ <- dict_get did_document "id" VNone ;;
  known <- set_contains id_ controllers ;;
  (if negb known then
     id_ <- dict_get did_document "id" VNone ;;
     logger WARNING
       "DID document id {did_document.get('id')} is not a controller of any verification method"
       [PData id_]
   else ret tt) ;;;
  services <- dict_get did_document "service" (VList []) ;;
  services <- py_iter services ;;
  service_ids <- py_set services (fun service => dict_get service "id" VNone) ;;
  methods <- py_iter verification_methods ;;
  r <- for_each methods (fun method =>
         service_refs <- dict_get method "serviceEndpoint" (VList []) ;;
         match service_refs with
         | VList refs =>
             for_each refs (fun service_ref =>
               known <- set_contains service_ref service_ids ;;
               if negb known then
                 logger ERROR
                   "Verification method references non-existent service: {service_ref}"
                   [PData service_ref] ;;;
                 ret (Some false)
               else ret None)
         | _ =>
             if truthy service_refs then
               known <- set_contains service_refs service_ids ;;
               if negb known then
                 logger ERROR
                   "Verification method references non-existent service: {service_refs}"
                   [PData service_refs] ;;;
                 ret (Some false)
               else ret None
             else ret None
         end) ;;
  match r with
  | Some b => ret b
  | None => ret true
  end
  end.

Definition get_public_key (self : IdentityService) (did_id : pyobj) : M value :=
  let did_document := resolve_did self did_id in
  acceptable <-
    (if negb (truthy did_document) then ret false
     else validate_did_document did_document) ;;
  if negb acceptable then ret VNone
  else
  methods <- dict_get did_document "verificationMethod" (VList []) ;;
  methods <- py_iter methods ;;
  r <- for_each methods (fun method =>
         present <- str_in "publicKeyMultibase" method ;;
         if present then
           public_key <- getitem method "publicKeyMultibase" ;;
           match public_key with
           | VStr s =>
               if startswith_z s then ret (Some (VStr (drop_first s)))
               else ret (Some public_key)
           | _ => raise AttributeError   (* only a str has [startswith] *)
           end
         else ret None) ;;
  match r with
  | Some key => ret key
  | None => ret VNone
  end.

(** The [SignatureVerifier] of this module is the one its first lines
    import: [from .signature import SignatureVerifier]. *)
Definition verify_signature (self : IdentityService)
           (did_id message signature : pyobj) : M bool :=
  public_key <- get_public_key self did_id ;;
  if negb (truthy public_key) then
    logger ERROR "Unable to retrieve public key for DID: {did_id}" [did_id] ;;;
    ret false
  else
    f <- IdentitySignature.class_getattr "verify_signature" ;;
    IdentitySignature.call_with_three f message signature (PData public_key).

Definition verify_did (self : IdentityService) (did_id : pyobj) : M bool :=
  let did_document := resolve_did self did_id in
  match did_document with
  | VNone => ret false
  | _ => validate_did_document did_document
  end.

End Identity.

(* ================================================================== *)
(** * Part V.  [consensus/validation.py] ([Consensus]) and
      [consensus/engine.py] ([Engine]) *)
(* ================================================================== *)

Module Consensus.

Local Open Scope string_scope.

(** What a [Validator] asks of the identity service it is built with. *)
Record IdentityServiceLike : Type := {
  verify_signature : pyobj -> pyobj -> pyobj -> M bool
}.

(** The service of [identity/service.py], which [engine.py] imports. *)
Definition of_identity_service (s : Identity.IdentityService) : IdentityServiceLike :=
  {| verify_signature := Identity.verify_signature s |}.

Record Validator : Type := {
  identity_service : IdentityServiceLike
}.

Definition _validate_transaction_format (transaction : pyobj) : bool :=
  forallb (hasattr transaction) ["id"; "sender"; "signature"].

Definition _validate_proposal_format (proposal : pyobj) : bool :=
  forallb (hasattr proposal) ["id"; "proposer"; "signature"; "transactions"].

Definition _validate_block_format (block : pyobj) : bool :=
  forallb (hasattr block) ["height"; "producer"; "signature"; "proposals"].

Definition validate_transaction (self : Validator) (transaction : pyobj) : M bool :=
  if negb (_validate_transaction_format transaction) then
    logger ERROR "Invalid transaction format" [] ;;;
    ret false
  else
  sender_did <- getattr transaction "sender" ;;
  get_message <- getattr transaction "get_message_for_signing" ;;
  message <- call0 get_message ;;
  signature <- getattr transaction "signature" ;;
  ok <- verify_signature (identity_service self) sender_did message signature ;;
  if negb ok then
    id_ <- getattr transaction "id" ;;
    logger ERROR "Invalid signature for transaction {transaction.id}" [id_] ;;;
    ret false
  else ret true.

Definition validate_proposal (self : Validator) (proposal : pyobj) : M bool :=
  if negb (_validate_proposal_format proposal) then
    logger ERROR "Invalid proposal format" [] ;;;
    ret false
  else
  proposer_did <- getattr proposal "proposer" ;;
  get_message <- getattr proposal "get_message_for_signing" ;;
  message <- call0 get_message ;;
  signature <- getattr proposal "signature" ;;
  ok <- verify_signature (identity_service self) proposer_did message signature ;;
  if negb ok then
    id_ <- getattr proposal "id" ;;
    logger ERROR "Invalid signature for proposal {proposal.id}" [id_] ;;;
    ret false
  else
  transactions <- getattr proposal "transactions" ;;
  transactions <- iter_obj transactions ;;
  r <- for_each transactions (fun tx =>
         ok <- validate_transaction self tx ;;
         if negb ok then
           tx_id <- getattr tx "id" ;;
           id_ <- getattr proposal "id" ;;
           logger ERROR "Invalid transaction {tx.id} in proposal {proposal.id}"
                  [tx_id; id_] ;;;
           ret (Some false)
         else ret None) ;;
  match r with
  | Some b => ret b
  | None => ret true
  end.

Definition validate_block (self : Validator) (block : pyobj) : M bool :=
  if negb (_validate_block_format block) then
    logger ERROR "Invalid block format" [] ;;;
    ret false
  else
  producer_did <- getattr block "producer" ;;
  get_message <- getattr block "get_message_for_signing" ;;
  message <- call0 get_message ;;
  signature <- getattr block "signature" ;;
  ok <- verify_signature (identity_service self) producer_did message signature ;;
  if negb ok then
    height <- getattr block "height" ;;
    logger ERROR "Invalid signature for block {block.height}" [height] ;;;
    ret false
  else
  proposals <- getattr block "proposals" ;;
  proposals <- iter_obj proposals ;;
  r <- for_each proposals (fun proposal =>
         ok <- validate_proposal self proposal ;;
         if negb ok then
           id_ <- getattr proposal "id" ;;
           height <- getattr block "height" ;;
           logger ERROR "Invalid proposal {proposal.id} in block {block.height}"
                  [id_; height] ;;;
           ret (Some false)
         else ret None) ;;
  match r with
  | Some b => ret b
  | None => ret true
  end.

End Consensus.

Module Engine.

Import Consensus.
Local Open Scope string_scope.

(** The engine: the validator, the two pending pools and the current block.
    The identity service the engine is built with is the one its validator
    holds. *)
Record ConsensusEngine : Type := {
  validator : Validator;
  pending_transactions : list pyobj;
  pending_proposals : list pyobj;
  current_block : pyobj
}.

(** [ConsensusEngine(identity_service)] *)
Definition new (identity : IdentityServiceLike) : ConsensusEngine :=
  {| validator := {| identity_service := identity |};
     pending_transactions := [];
     pending_proposals := [];
     current_block := PData VNone |}.

(** A method of the engine: what it returns or raises and logs, and the
    engine it leaves. *)
Definition add_transaction (self : ConsensusEngine) (transaction : pyobj)
  : M bool * ConsensusEngine :=
  match validate_transaction (validator self) transaction with
  | (Raise e, l) => ((Raise e, l), self)
  | (Ret true, l) =>
      let self' :=
        {| validator := validator self;
           pending_transactions := (pending_transactions self ++ [transaction])%list;
           pending_proposals := pending_proposals self;
           current_block := current_block self |} in
      ((Ret tt, l) ;;;
       id_ <- getattr transaction "id" ;;
       logger INFO "Transaction {transaction.id} validated and added to pending pool"
              [id_] ;;;
       ret true,
       self')
  | (Ret false, l) =>
      ((Ret tt, l) ;;;
       id_ <- getattr transaction "id" ;;
       logger WARNING "Transaction {transaction.id} failed validation" [id_] ;;;
       ret false,
       self)
  end.

Definition add_proposal (self : ConsensusEngine) (proposal : pyobj)
  : M bool * ConsensusEngine :=
  match validate_proposal (validator self) proposal with
  | (Raise e, l) => ((Raise e, l), self)
  | (Ret true, l) =>
      let self' :=
        {| validator := validator self;
           pending_transactions := pending_transactions self;
           pending_proposals := (pending_proposals self ++ [proposal])%list;
           current_block := current_block self |} in
      ((Ret tt, l) ;;;
       id_ <- getattr proposal "id" ;;
       logger INFO "Proposal {proposal.id} validated and added to pending pool"
              [id_] ;;;
       ret true,
       self')
  | (Ret false, l) =>
      ((Ret tt, l) ;;;
       id_ <- getattr proposal "id" ;;
       logger WARNING "Proposal {proposal.id} failed validation" [id_] ;;;
       ret false,
       self)
  end.

Definition validate_block (self : ConsensusEngine) (block : pyobj) : M bool :=
  Consensus.validate_block (validator self) block.

Definition add_block (self : ConsensusEngine) (block : pyobj)
  : M bool * ConsensusEngine :=
  (ok <- validate_block self block ;;
   if ok then
     height <- getattr block "height" ;;
     logger INFO "Block {block.height} validated and added to chain" [height] ;;;
     ret true
   else
     height <- getattr block "height" ;;
     logger WARNING "Block {block.height} failed validation" [height] ;;;
     ret false,
   self).

End Engine.

(* ================================================================== *)
(** * Part VI.  [src/blockchain/validation.py] *)
(* ================================================================== *)

Module Blockchain.

Local Open Scope string_scope.

(** The two services a [ValidationService] is built with, by the methods
    it calls on them, and [bytes.fromhex]. *)
Record ValidationService : Type := {
  federation_verify_signature : string -> string -> value -> M bool;
  get_did_document : value -> M value;
  validate_did_document : value -> M bool;
  bytes_fromhex : string -> result string
}.

Definition fromhex (self : ValidationService) (v : value) : M string :=
  match v with
  | VStr s => (bytes_fromhex self s, [])
  | _ => raise TypeError
  end.

(** [d.items()] *)
Definition dict_items (v : value) : M (list (string * value)) :=
  match v with
  | VDict d => ret d
  | _ => raise AttributeError
  end.

Definition _serialize_for_verification (data : value) : string :=
  Json.utf8_encode (Json.dumps true data).

Definition required_transaction_fields : list string :=
  ["id"; "signer"; "content"; "signature"].

Definition required_block_fields : list string :=
  ["id"; "producer"; "timestamp"; "transactions"; "signature"].

Definition check_fields (what : string) (required_fields : list string)
           (entity : value) : M bool :=
  r <- for_each required_fields (fun field =>
         present <- str_in field entity ;;
         if negb present then
           logger ERROR (what ++ " missing required field: {field}")
                  [PData (VStr field)] ;;;
           ret (Some false)
         else ret None) ;;
  match r with
  | Some b => ret b
  | None => ret true
  end.

Definition _check_required_transaction_fields (transaction : value) : M bool :=
  check_fields "Transaction" required_transaction_fields transaction.

Definition _check_required_block_fields (block : value) : M bool :=
  check_fields "Block" required_block_fields block.

Definition validate_transaction (self : ValidationService) (transaction : value) : M bool :=
  try_except
    (complete <- _check_required_transaction_fields transaction ;;
     if negb complete then ret false
     else
     did <- dict_get transaction "signer" VNone ;;
     did_document <- get_did_document self did ;;
     if negb (truthy did_document) then
       logger ERROR "DID document not found for {did}" [PData did] ;;;
       ret false
     else
     valid <- validate_did_document self did_document ;;
     if negb valid then
       logger ERROR "Invalid DID document for {did}" [PData did] ;;;
       ret false
     else
     content <- dict_get transaction "content" (VDict []) ;;
     let content_bytes := _serialize_for_verification content in
     signature_hex <- dict_get transaction "signature" VNone ;;
     signature <- fromhex self signature_hex ;;
     ok <- federation_verify_signature self content_bytes signature did_document ;;
     if negb ok then
       logger ERROR "Transaction signature verification failed" [] ;;;
       ret false
     else ret true)
    (fun e => logger ERROR "Transaction validation error: {str(e)}" [] ;;; ret false).

Definition validate_block (self : ValidationService) (block : value) : M bool :=
  try_except
    (complete <- _check_required_block_fields block ;;
     if negb complete then ret false
     else
     producer_did <- dict_get block "producer" VNone ;;
     did_document <- get_did_document self producer_did ;;
     if negb (truthy did_document) then
       logger ERROR "DID document not found for block producer {producer_did}"
              [PData producer_did] ;;;
       ret false
     else
     valid <- validate_did_document self did_document ;;
     if negb valid then
       logger ERROR "Invalid DID document for producer {producer_did}"
              [PData producer_did] ;;;
       ret false
     else
     items <- dict_items block ;;
     let block_data :=
       VDict (filter (fun kv => negb (String.eqb (fst kv) "signature")) items) in
     let block_bytes := _serialize_for_verification block_data in
     signature_hex <- dict_get block "signature" VNone ;;
     signature <- fromhex self signature_hex ;;
     ok <- federation_verify_signature self block_bytes signature did_document ;;
     if negb ok then
       logger ERROR "Block signature verification failed" [] ;;;
       ret false
     else
     transactions <- dict_get block "transactions" (VList []) ;;
     transactions <- py_iter transactions ;;
     r <- for_each transactions (fun tx =>
            ok <- validate_transaction self tx ;;
            if negb ok then
              tx_id <- dict_get tx "id" (VStr "unknown") ;;
              logger ERROR "Invalid transaction in block: {tx.get('id', 'unknown')}"
                     [PData tx_id] ;;;
              ret (Some false)
            else ret None) ;;
     match r with
     | Some b => ret b
     | None => ret true
     end)
    (fun e => logger ERROR "Block validation error: {str(e)}" [] ;;; ret false).

Definition validate_proposal (self : ValidationService) (proposal : value) : M bool :=
  try_except
    (complete <- py_all ["proposer"; "blockData"; "signature"]
                        (fun k => str_in k proposal) ;;
     if negb complete then
       logger ERROR "Proposal missing required fields" [] ;;;
       ret false
     else
     proposer_did <- dict_get proposal "proposer" VNone ;;
     did_document <- get_did_document self proposer_did ;;
     if negb (truthy did_document) then
       logger ERROR "DID document not found for proposer {proposer_did}"
              [PData proposer_did] ;;;
       ret false
     else
     valid <- validate_did_document self did_document ;;
     if negb valid then
       logger ERROR "Invalid DID document for proposer {proposer_did}"
              [PData proposer_did] ;;;
       ret false
     else
     block_data <- dict_get proposal "blockData" (VDict []) ;;
     let block_bytes := _serialize_for_verification block_data in
     signature_hex <- dict_get proposal "signature" VNone ;;
     signature <- fromhex self signature_hex ;;
     ok <- federation_verify_signature self block_bytes signature did_document ;;
     if negb ok then
       logger ERROR "Proposal signature verification failed" [] ;;;
       ret false
     else ret true)
    (fun e => logger ERROR "Proposal validation error: {str(e)}" [] ;;; ret false).

End Blockchain.

(* ================================================================== *)
(** * Part VI-b.  [federation/signature.py] and [federation/federation.py] *)
(* ================================================================== *)

Module FederationSignature.

Import IdentitySignature.
Local Open Scope string_scope.

(** What the code takes from [base58] and [cryptography]: decoding,
    loading a DER key, the SHA-256 digest, and the ECDSA check of a signature
    over a digest, which returns, raises [InvalidSignature] or raises
    something else. *)
Record Library : Type := {
  b58decode : string -> result string;
  load_der_public_key : string -> result string;
  digest_sha256 : string -> string;
  ecdsa_verify_prehashed : string -> string -> string -> result unit
}.

Definition decode_signature (lib : Library) (signature : blob) : M string :=
  match signature with
  | Str s => lift (b58decode lib s)
  | Bytes b => ret b
  end.

Definition decode_public_key (lib : Library) (public_key : blob) : M string :=
  match public_key with
  | Str s =>
      if startswith_z s then lift (b58decode lib (drop_first s))
      else lift (b58decode lib s)
  | Bytes b => ret b
  end.

(** [SignatureVerifier.verify_signature], a static method. *)
Definition verify_signature (lib : Library) (message signature public_key : blob)
  : M bool :=
  try_except
    (let message' := as_message message in
     signature' <- decode_signature lib signature ;;
     public_key' <- decode_public_key lib public_key ;;
     pub_key_obj <- lift (load_der_public_key lib public_key') ;;
     let message_digest := digest_sha256 lib message' in
     lift (ecdsa_verify_prehashed lib pub_key_obj signature' message_digest) ;;;
     ret true)
    (fun e =>
       match e with
       | InvalidSignature =>
           logger WARNING "Invalid signature detected" [] ;;; ret false
       | _ =>
           logger ERROR "Error verifying signature: {e}" [] ;;; ret false
       end).

(** [Federation.verify_signature] of [federation/federation.py]. *)
Definition federation_verify_signature (lib : Library)
           (message signature public_key : blob) : M bool :=
  try_except
    (verify_signature lib message signature public_key)
    (fun e => logger ERROR "Signature verification failed: {e}" [] ;;; ret false).

End FederationSignature.

(* ================================================================== *)
(** * Part VI-c.  [src/federation/federation.py] and
      [src/identity/identity_service.py] *)
(* ================================================================== *)

Module Icn.

Local Open Scope string_scope.

(** What the code takes from [icn_crypto]: [keys.PublicKey.from_hex], applied
    to whatever the document holds, and [signatures.verify]. *)
Record Crypto : Type := {
  public_key_from_hex : value -> result string;
  signatures_verify : string -> string -> string -> result bool
}.

(** [v[0]].  It is applied to truthy values only; on an empty list or str
    Python raises [IndexError], for which [LibraryError] stands. *)
Definition first_item (v : value) : M value :=
  match v with
  | VList (x :: _) => ret x
  | VStr (String c _) => ret (VStr (String c EmptyString))
  | VList [] => raise LibraryError
  | VStr EmptyString => raise LibraryError
  | VDict _ => raise KeyError
  | _ => raise TypeError
  end.

(** [a or b] on conditions that may raise: [b] is evaluated only when [a] is
    false. *)
Definition py_or (a : M bool) (b : M bool) : M bool :=
  x <- a ;; if x then ret true else b.

(** [Federation.verify_signature] of [src/federation/federation.py]. *)
Definition verify_signature (lib : Crypto) (message signature : string)
           (did_document : value) : M bool :=
  try_except
    (missing <-
       py_or (present <- str_in "publicKey" did_document ;; ret (negb present))
             (public_keys <- getitem did_document "publicKey" ;;
              ret (negb (truthy public_keys))) ;;
     if missing then
       logger ERROR "DID document missing public key" [] ;;;
       ret false
     else
     public_keys <- getitem did_document "publicKey" ;;
     public_key_info <- first_item public_keys ;;
     present <- str_in "publicKeyHex" public_key_info ;;
     if negb present then
       logger ERROR "Public key not found in expected format" [] ;;;
       ret false
     else
     public_key_hex <- getitem public_key_info "publicKeyHex" ;;
     public_key <- IdentitySignature.lift (public_key_from_hex lib public_key_hex) ;;
     IdentitySignature.lift (signatures_verify lib message signature public_key))
    (fun e => logger ERROR "Signature verification failed: {str(e)}" [] ;;; ret false).

(** [isinstance(v, list)] *)
Definition is_list (v : value) : bool :=
  match v with
  | VList _ => true
  | _ => false
  end.

(** [s.startswith("did:icn:")]: only a str has [startswith]. *)
Definition startswith_did_icn (v : value) : M bool :=
  match v with
  | VStr s => ret (String.prefix "did:icn:" s)
  | _ => raise AttributeError
  end.

(** [IdentityService.validate_did_document] of
    [src/identity/identity_service.py]. *)
Definition validate_did_document (lib : Crypto) (did_document : value) : M bool :=
  try_except
    (r <- for_each ["id"; "publicKey"] (fun field =>
            present <- str_in field did_document ;;
            if negb present then
              logger ERROR "DID document missing required field: {field}"
                     [PData (VStr field)] ;;;
              ret (Some false)
            else ret None) ;;
     match r with
     | Some b => ret b
     | None =>
     did <- getitem did_document "id" ;;
     starts <- startswith_did_icn did ;;
     if negb starts then
       logger ERROR "Invalid DID format: {did}" [PData did] ;;;
       ret false
     else
     malformed <-
       py_or (public_keys <- getitem did_document "publicKey" ;;
              ret (negb (truthy public_keys)))
             (public_keys <- getitem did_document "publicKey" ;;
              ret (negb (is_list public_keys))) ;;
     if malformed then
       logger ERROR "Invalid public key format" [] ;;;
       ret false
     else
     public_keys <- getitem did_document "publicKey" ;;
     public_keys <- py_iter public_keys ;;
     r <- for_each public_keys (fun key =>
            incomplete <-
              py_or (present <- str_in "id" key ;; ret (negb present))
                (py_or (present <- str_in "publicKeyHex" key ;; ret (negb present))
                       (present <- str_in "controller" key ;; ret (negb present))) ;;
            if incomplete then
              logger ERROR "Public key missing required attributes" [] ;;;
              ret (Some false)
            else
              try_except
                (public_key_hex <- getitem key "publicKeyHex" ;;
                 IdentitySignature.lift (public_key_from_hex lib public_key_hex) ;;;
                 ret None)
                (fun _ => logger ERROR "Invalid public key format" [] ;;;
                          ret (Some false))) ;;
     match r with
     | Some b => ret b
     | None => ret true
     end
     end)
    (fun e => logger ERROR "DID document validation error: {str(e)}" [] ;;; ret false).

(** ** The key store

    The files of the key directory, by their paths; a file holds the JSON
    document that [json.dump] wrote to it and [json.load] reads from it.
    Opening a file of the directory for writing succeeds: the constructor
    creates the directory. *)
Definition files : Type := list (string * value).

Record IdentityService : Type := {
  key_storage_path : string
}.

(** [s.replace(':', '_')] *)
Fixpoint replace_colons (s : string) : string :=
  match s with
  | EmptyString => EmptyString
  | String c s' =>
      String (if Ascii.eqb c ":" then "_"%char else c) (replace_colons s')
  end.

Definition ends_with_slash (s : string) : bool :=
  match list_ascii_of_string s with
  | [] => false
  | c :: rest => Ascii.eqb (last rest c) "/"
  end.

(** [os.path.join(a, b)] of [posixpath]: an absolute [b] discards [a]. *)
Definition path_join (a b : string) : string :=
  if String.prefix "/" b then b
  else if String.eqb a "" || ends_with_slash a then a ++ b
  else a ++ "/" ++ b.

Definition key_file (self : IdentityService) (did : string) : string :=
  path_join (key_storage_path self) (replace_colons did ++ ".json").

(** [open(path, 'w')] and [json.dump]: the file is created or replaced. *)
Definition write_file (path : string) (document : value) (fs : files) : files :=
  (path, document) :: filter (fun entry => negb (String.eqb (fst entry) path)) fs.

(** [open(path, 'r')] and [json.load]; [get_private_key] reads a file only
    behind [os.path.exists], so the file is there ([LibraryError] stands for
    [FileNotFoundError]). *)
Definition read_file (path : string) (fs : files) : M value :=
  match assoc path fs with
  | Some document => ret document
  | None => raise LibraryError
  end.

(** [_store_key]: what it logs, and the files it leaves. *)
Definition _store_key (self : IdentityService) (did private_key_hex : string)
           (alias : value) (now : string) (fs : files) : M unit * files :=
  let key_data :=
    VDict [ ("did", VStr did); ("alias", alias);
            ("privateKeyHex", VStr private_key_hex); ("created", VStr now) ] in
  (logger INFO "Stored key for identity: {did}" [PData (VStr did)],
   write_file (key_file self did) key_data fs).

Definition get_private_key (self : IdentityService) (did : string) (fs : files)
  : M value :=
  try_except
    (let path := key_file self did in
     if negb (has_key path fs) then
       logger WARNING "Key not found for DID: {did}" [PData (VStr did)] ;;;
       ret VNone
     else
       key_data <- read_file path fs ;;
       logger INFO "Retrieved key for identity: {did}" [PData (VStr did)] ;;;
       dict_get key_data "privateKeyHex" VNone)
    (fun e =>
       logger ERROR "Failed to retrieve key: {str(e)}" [] ;;;
       logger ERROR "Failed to retrieve key for {did}: {str(e)}" [PData (VStr did)] ;;;
       ret VNone).

(** What [create_identity] takes from [icn_crypto], [uuid] and [datetime]:
    the hexadecimal forms of a fresh key pair, [uuid.uuid4().hex], and the
    two times it reads. *)
Record Fresh : Type := {
  private_key_hex : string;
  public_key_hex : string;
  uuid_hex : string;
  created : string;
  stored : string
}.

(** [s.split(':')[-1]]: what follows the last colon. *)
Fixpoint after_last_colon (s : string) : string :=
  match s with
  | EmptyString => EmptyString
  | String c s' =>
      if existsb (fun x => Ascii.eqb x ":") (list_ascii_of_string s')
      then after_last_colon s'
      else if Ascii.eqb c ":" then s' else s
  end.

(** [create_identity]: the document it returns, what it logs, and the files
    it leaves.  The generation of the key pair and the writing of the key
    file are taken to succeed, so the handler, which raises [IdentityError],
    is not entered. *)
Definition create_identity (self : IdentityService) (fresh : Fresh)
           (alias : value) (fs : files) : M value * files :=
  let did := "did:icn:" ++ uuid_hex fresh in
  let alias := if truthy alias then alias else VStr (after_last_colon did) in
  let did_document :=
    VDict [ ("id", VStr did);
            ("created", VStr (created fresh));
            ("authentication",
             VList [ VDict [ ("type", VStr "Ed25519SignatureAuthentication2018");
                             ("publicKey", VStr (did ++ "#keys-1")) ] ]);
            ("publicKey",
             VList [ VDict [ ("id", VStr (did ++ "#keys-1"));
                             ("type", VStr "Ed25519VerificationKey2018");
                             ("controller", VStr did);
                             ("publicKeyHex", VStr (public_key_hex fresh)) ] ]) ] in
  let (stored_log, fs') :=
    _store_key self did (private_key_hex fresh) alias (stored fresh) fs in
  (stored_log ;;;
   logger INFO "Created new identity: {did}" [PData (VStr did)] ;;;
   ret did_document,
   fs').

End Icn.

(* ================================================================== *)
(** * Part VI-d.  [identity/service.py]: credentials *)
(* ================================================================== *)

Module Credentials.

Local Open Scope string_scope.

(** The identity service with the two further methods a deployment
    supplies; in the source their bodies are [pass]. *)
Record CredentialService : Type := {
  identity : Identity.IdentityService;
  parse_credential : pyobj -> M value;
  get_message_to_verify : value -> M pyobj
}.

Definition placeholders : CredentialService :=
  {| identity := Identity.unresolved;
     parse_credential := fun _ => ret VNone;
     get_message_to_verify := fun _ => ret (PData VNone) |}.

Definition verify_credential (self : CredentialService) (credential : pyobj) : M bool :=
  try_except
    (credential_data <- parse_credential self credential ;;
     complete <- py_all ["issuer"; "subject"; "proof"]
                        (fun k => str_in k credential_data) ;;
     if negb complete then
       logger ERROR "Credential missing required fields" [] ;;;
       ret false
     else
     issuer <- getitem credential_data "issuer" ;;
     known <- Identity.verify_did (identity self) (PData issuer) ;;
     if negb known then
       issuer <- getitem credential_data "issuer" ;;
       logger ERROR "Invalid issuer DID: {credential_data['issuer']}" [PData issuer] ;;;
       ret false
     else
     message <- get_message_to_verify self credential_data ;;
     proof <- getitem credential_data "proof" ;;
     signature <- dict_get proof "jws" VNone ;;
     if negb (truthy signature) then
       logger ERROR "Credential proof missing JWS signature" [] ;;;
       ret false
     else
     issuer <- getitem credential_data "issuer" ;;
     Identity.verify_signature (identity self) (PData issuer) message (PData signature))
    (fun e => logger ERROR "Error verifying credential: {e}" [] ;;; ret false).

End Credentials.

(* ================================================================== *)
(** * Part VI-e.  [tools/doctools/docmanager.py] *)
(* ================================================================== *)

Module DocTools.

Local Open Scope string_scope.

Definition code (c : ascii) : N := N_of_ascii c.

Definition between (lo hi : N) (c : ascii) : bool :=
  ((lo <=? code c) && (code c <=? hi))%N.

(** [s.lower()] on the code points below 256: the capital letters of ASCII
    and of Latin-1 are 32 below their small letters. *)
Definition lower_latin1 (c : ascii) : ascii :=
  if between 65 90 c || between 192 214 c || between 216 222 c
  then ascii_of_N (code c + 32)
  else c.

Fixpoint str_lower (s : string) : string :=
  match s with
  | EmptyString => EmptyString
  | String c s' => String (lower_latin1 c) (str_lower s')
  end.

(** What [\s] matches in a str pattern, below 256: the white space of ASCII
    (9 to 13, 28 to 32), NEL and the no-break space. *)
Definition is_space (c : ascii) : bool :=
  between 9 13 c || between 28 32 c || (code c =? 133)%N || (code c =? 160)%N.

(** The class [[a-zA-Z0-9\s-]]. *)
Definition is_kept (c : ascii) : bool :=
  between 97 122 c || between 65 90 c || between 48 57 c || is_space c
  || (code c =? 45)%N.

(** [re.sub(r'[^a-zA-Z0-9\s-]', '', s)] *)
Fixpoint remove_other (s : string) : string :=
  match s with
  | EmptyString => EmptyString
  | String c s' => if is_kept c then String c (remove_other s') else remove_other s'
  end.

(** [re.sub(r'\s+', '-', s)]: every maximal run of white space becomes one
    hyphen; [in_run] says that the character before was white space. *)
Fixpoint hyphenate (in_run : bool) (s : string) : string :=
  match s with
  | EmptyString => EmptyString
  | String c s' =>
      if is_space c then
        if in_run then hyphenate true s' else String "-" (hyphenate true s')
      else String c (hyphenate false s')
  end.

(** [doc_type in ["specification", "plan"]] *)
Definition versioned (doc_type : string) : bool :=
  String.eqb doc_type "specification" || String.eqb doc_type "plan".

(** [generate_filename]; [today] is [datetime.now().strftime("%Y-%m-%d")]. *)
Definition generate_filename (today : string) (title doc_type : string) : string :=
  let filename := remove_other (str_lower title) in
  let filename := hyphenate false filename in
  if versioned doc_type then today ++ "-" ++ filename ++ ".md"
  else filename ++ ".md".

(** What the code takes from [yaml]. *)
Record Yaml : Type := {
  dump : value -> string;
  safe_load : string -> result value
}.

Definition newline : string := String (ascii_of_N 10) EmptyString.

Definition separator : string := "---" ++ newline.

(** [format_document], given the dumped metadata. *)
Definition format_text (yaml_metadata content : string) : string :=
  separator ++ yaml_metadata ++ newline ++ separator ++ newline ++ content ++ newline.


Fixpoint skip (n : nat) (s : string) : string :=
  match n, s with
  | S n', String _ s' => skip n' s'
  | _, _ => s
  end.

(** [s.partition(sep)] when [sep] occurs in [s]: what precedes and what
    follows its first occurrence. *)
Fixpoint partition (sep s : string) : option (string * string) :=
  if String.prefix sep s then Some (EmptyString, skip (String.length sep) s)
  else
    match s with
    | EmptyString => None
    | String c s' =>
        match partition sep s' with
        | Some (before, rest) => Some (String c before, rest)
        | None => None
        end
    end.

(** [s.split(sep, 2)] *)
Definition split2 (sep s : string) : list string :=
  match partition sep s with
  | None => [s]
  | Some (first, rest) =>
      match partition sep rest with
      | None => [first; rest]
      | Some (second, third) => [first; second; third]
      end
  end.





(** A file under the root directory: the directory it is in, its name and
    its text. *)
Record file : Type := {
  directory : string;
  name : string;
  text : string
}.

(** [metadata.get("type") == doc_type] for a str [doc_type]. *)
Definition has_type (metadata : value) (doc_type : string) : result bool :=
  match metadata with
  | VDict d =>
      Ret match assoc "type" d with
          | Some (VStr s) => String.eqb s doc_type
          | _ => false
          end
  | _ => Raise AttributeError
  end.

(** One round of the loop of [list_documents]: the metadata under which the
    file is listed, if it is.  An exception is caught and printed, and the
    file is not listed. *)
Definition listed (yaml : Yaml) (doc_type : option string) (f : file) : option value :=
  if String.prefix "." (name f) then None
  else
    match split2 separator (text f) with
    | _ :: metadata_text :: _ =>
        match safe_load yaml metadata_text with
        | Raise _ => None
        | Ret metadata =>
            match doc_type with
            | None => Some metadata
            | Some t =>
                match has_type metadata t with
                | Ret true => Some metadata
                | _ => None
                end
            end
        end
    | _ => None
    end.

Definition ends_with (suffix s : string) : bool :=
  String.prefix (string_of_list_ascii (rev (list_ascii_of_string suffix)))
                (string_of_list_ascii (rev (list_ascii_of_string s))).

(** [list_documents]: [files] are the files below the root directory, in
    the order of [rglob], which keeps those that match [*.md]. *)
Definition list_documents (yaml : Yaml) (doc_type : option string) (files : list file)
  : list (file * value) :=
  flat_map (fun f =>
              if ends_with ".md" (name f) then
                match listed yaml doc_type f with
                | Some metadata => [(f, metadata)]
                | None => []
                end
              else [])
           files.


End DocTools.

(* ================================================================== *)
(** * Part VI-f.  [tools/doctools/specgen.py] *)
(* ================================================================== *)

Module SpecGen.

Import DocTools.
Local Open Scope string_scope.

(** [s.split()]: the maximal runs of characters that are no white space;
    [current] is the run being read. *)
Fixpoint words_from (current : string) (s : string) : list string :=
  match s with
  | EmptyString => if String.eqb current "" then [] else [current]
  | String c s' =>
      if is_space c then
        if String.eqb current "" then words_from "" s'
        else current :: words_from "" s'
      else words_from (current ++ String c EmptyString) s'
  end.

Definition split_words (s : string) : list string := words_from "" s.

(** [len(set(a) & set(b))] *)
Definition common_words (a b : list string) : nat :=
  length (filter (fun w => existsb (String.eqb w) b) (nodup string_dec a)).

(** [v.lower()]: only a str has [lower]. *)
Definition lower_value (v : value) : M string :=
  match v with
  | VStr s => ret (str_lower s)
  | _ => raise AttributeError
  end.

(** [str(path.relative_to(root_dir))] *)
Definition relative_path (f : file) : string :=
  if String.eqb (directory f) "" then name f else directory f ++ "/" ++ name f.

Fixpoint related_among (words : list string) (docs : list (file * value))
  : M (list string) :=
  match docs with
  | [] => ret []
  | (f, metadata) :: rest =>
      doc_title <- getitem metadata "title" ;;
      doc_title <- lower_value doc_title ;;
      let doc_words := split_words doc_title in
      related <- related_among words rest ;;
      if (2 <=? common_words words doc_words)%nat
      then ret (relative_path f :: related)
      else ret related
  end.

(** [find_related_docs]; [component_type] is not used. *)
Definition find_related_docs (yaml : Yaml) (title : string) (files : list file)
  : M (list string) :=
  let words := split_words (str_lower title) in
  let all_docs := list_documents yaml None files in
  related_among words all_docs.

End SpecGen.

(* ================================================================== *)
(** * Part VII.  The vocabulary of the statements and the data of the examples *)
(* ================================================================== *)

(** ** Identity services, transactions, proposals and blocks *)

Section ConsensusData.

Import Engine Consensus.
Local Open Scope string_scope.

(** An identity service that accepts every signature, and the objects of
    the examples. *)
Definition accept_all : IdentityServiceLike :=
  {| verify_signature := fun _ _ _ => ret true |}.

Definition str (s : string) : pyobj := PData (VStr s).

Definition tx_signed (id_ : string) : pyobj :=
  PObject [ ("id", str id_); ("sender", str "did:x:1"); ("signature", str "c2ln");
            ("get_message_for_signing", PMethod (str "payload")) ].

Definition tx_without_id : pyobj :=
  PObject [ ("sender", str "did:x:1"); ("signature", str "c2ln");
            ("get_message_for_signing", PMethod (str "payload")) ].

Definition tx_without_method : pyobj :=
  PObject [ ("id", str "tx1"); ("sender", str "did:x:1"); ("signature", str "c2ln") ].

Definition proposal_of (transactions : pyobj) : pyobj :=
  PObject [ ("id", str "p1"); ("proposer", str "did:x:1"); ("signature", str "c2ln");
            ("transactions", transactions);
            ("get_message_for_signing", PMethod (str "proposal payload")) ].

Definition proposal_without_id : pyobj :=
  PObject [ ("proposer", str "did:x:1"); ("signature", str "c2ln");
            ("transactions", PSeq []);
            ("get_message_for_signing", PMethod (str "proposal payload")) ].

Definition block_of (proposals : pyobj) : pyobj :=
  PObject [ ("height", PData (VInt 7)); ("producer", str "did:x:1");
            ("signature", str "c2ln"); ("proposals", proposals);
            ("get_message_for_signing", PMethod (str "block payload")) ].

Definition block_without_height : pyobj :=
  PObject [ ("producer", str "did:x:1"); ("signature", str "c2ln");
            ("proposals", PSeq []);
            ("get_message_for_signing", PMethod (str "block payload")) ].

(** A loop over nested entities whose body, on a nested validator that does
    not say true, does anything but fall through or return true. *)
Definition rejecting {A} (fail : A -> M (option bool)) : Prop :=
  forall x l, fail x <> (Ret None, l) /\ fail x <> (Ret (Some true), l).

(** An identity service that accepts the signatures of one signer only. *)
Definition accept_only (did : string) : IdentityServiceLike :=
  {| verify_signature := fun signer _ _ =>
       match signer with
       | PData (VStr s) => ret (String.eqb s did)
       | _ => ret false
       end |}.

Definition tx_forged : pyobj :=
  PObject [ ("id", str "tx2"); ("sender", str "did:x:2"); ("signature", str "AAAA");
            ("get_message_for_signing", PMethod (str "payload")) ].

Definition engine_with (identity : IdentityServiceLike) (pool : list pyobj)
  : ConsensusEngine :=
  {| validator := {| identity_service := identity |};
     pending_transactions := pool;
     pending_proposals := [];
     current_block := PData VNone |}.

End ConsensusData.

(** ** A library for the signature verifier *)

Section SignatureData.

Import IdentitySignature.
Local Open Scope string_scope.

(** A library whose checks accept nothing, for the examples. *)
Definition strict_library : Library :=
  {| b64decode := fun s => Ret s;
     b64encode := fun s => s;
     sha256 := fun s => s;
     ed25519_check := fun _ _ _ => Raise InvalidSignature;
     rsa_check := fun _ _ _ => Raise LibraryError |}.

End SignatureData.

(** ** DID documents: what the statements read off them, and examples *)

Section IdentityData.

Import Identity.
Local Open Scope string_scope.

(** A resolver that knows one DID, and the documents of the examples. *)
Definition resolver_of (did : string) (document : value) : IdentityService :=
  {| resolve_did := fun d =>
       match d with
       | PData (VStr s) => if String.eqb s did then document else VNone
       | _ => VNone
       end |}.

Definition method_of (id_ key controller : string) : value :=
  VDict [ ("id", VStr id_); ("type", VStr "Ed25519VerificationKey2020");
          ("controller", VStr controller); ("publicKeyMultibase", VStr key) ].

Definition document_two_keys : value :=
  VDict [ ("id", VStr "did:x:1");
          ("verificationMethod",
           VList [ method_of "did:x:1#k1" "zAAA" "did:x:1";
                   method_of "did:x:1#k2" "zBBB" "did:x:1" ]) ].

(** [v.get(k, default)] as a value, for what the statements read off a
    document. *)
Definition field_or (k : string) (default : value) (v : value) : value :=
  match v with
  | VDict d => match assoc k d with Some x => x | None => default end
  | _ => default
  end.

(** A verification method that carries [id], [type], [controller] (a DID,
    which is a str) and the public key. *)
Definition complete_method (m : value) : Prop :=
  exists fields controller,
    m = VDict fields /\
    has_key "id" fields = true /\
    has_key "type" fields = true /\
    assoc "controller" fields = Some (VStr controller) /\
    has_key "publicKeyMultibase" fields = true.

(** A declared service is a dict; its id is hashable data. *)
Definition declared_service (s : value) : Prop :=
  exists fields, s = VDict fields /\ hashable (field_or "id" VNone s) = true.

(** A reference resolves when it equals a declared service id. *)
Definition resolves (service_ids : list value) (ref : value) : Prop :=
  hashable ref = true /\ exists i, In i service_ids /\ atom_eq ref i = true.

(** The references of a method: the elements of a list-valued
    [serviceEndpoint], or its single non-empty value. *)
Definition references_resolve (service_ids : list value) (m : value) : Prop :=
  match field_or "serviceEndpoint" (VList []) m with
  | VList refs => Forall (resolves service_ids) refs
  | ref => truthy ref = false \/ resolves service_ids ref
  end.

Definition controllers_of (methods : list value) : list value :=
  map (field_or "controller" VNone) methods.

Definition controller_warning (did : string) : logrec :=
  Log WARNING
    "DID document id {did_document.get('id')} is not a controller of any verification method"
    [PData (VStr did)].

(** A document controlled by another DID, with a service and a reference to
    it. *)
Definition method_foreign : value :=
  VDict [ ("id", VStr "did:x:1#k1"); ("type", VStr "Ed25519VerificationKey2020");
          ("controller", VStr "did:x:9"); ("publicKeyMultibase", VStr "zAAA");
          ("serviceEndpoint", VList [VStr "did:x:1#inbox"]) ].

Definition service_inbox : value :=
  VDict [ ("id", VStr "did:x:1#inbox"); ("type", VStr "Inbox") ].

Definition document_foreign_controller : list (string * value) :=
  [ ("id", VStr "did:x:1");
    ("verificationMethod", VList [method_foreign]);
    ("service", VList [service_inbox]) ].

(** The public key of the first verification method of a document. *)
Definition first_method_key (document : value) : option value :=
  match field_or "verificationMethod" (VList []) document with
  | VList (VDict fields :: _) => assoc "publicKeyMultibase" fields
  | _ => None
  end.

(** The public key of the verification method with a given id. *)
Definition method_key_by_id (document : value) (key_id : string) : option value :=
  match field_or "verificationMethod" (VList []) document with
  | VList methods =>
      match find (fun m => atom_eq (field_or "id" VNone m) (VStr key_id)) methods with
      | Some m => Some (field_or "publicKeyMultibase" VNone m)
      | None => None
      end
  | _ => None
  end.

(** A key without its multibase prefix. *)
Definition strip_multibase (s : string) : string :=
  match s with
  | String c rest => if Ascii.eqb c "z" then rest else s
  | EmptyString => s
  end.

End IdentityData.

(** ** Payloads *)

Section CanonicalData.

Import Json.
Local Open Scope string_scope.

Definition payload : value :=
  VDict [ ("amount", VInt 100); ("recipient", VStr "user123");
          ("memo", VDict [("b", VList [VNone]); ("a", VBool true)]) ].

Definition payload_reordered : value :=
  VDict [ ("recipient", VStr "user123");
          ("memo", VDict [("a", VBool true); ("b", VList [VNone])]);
          ("amount", VInt 100) ].

End CanonicalData.

(** ** Dict-shaped transactions and their services *)

Section BlockchainData.

Import Blockchain.
Local Open Scope string_scope.

(** Services for the examples: every document is found and valid, and every
    signature verifies; [bytes.fromhex] is taken to accept its input. *)
Definition lenient_service : ValidationService :=
  {| federation_verify_signature := fun _ _ _ => ret true;
     get_did_document := fun _ => ret (VDict [("id", VStr "did:icn:test123")]);
     validate_did_document := fun _ => ret true;
     bytes_fromhex := fun s => Ret s |}.

Definition transaction_complete : list (string * value) :=
  [ ("id", VStr "tx123"); ("signer", VStr "did:icn:test123");
    ("content", VDict [("amount", VInt 100); ("recipient", VStr "user123")]);
    ("signature", VStr "00ff") ].

Definition transaction_without_content : list (string * value) :=
  [ ("id", VStr "tx123"); ("signer", VStr "did:icn:test123");
    ("signature", VStr "00ff") ].

End BlockchainData.

(** ** Computations that return *)

(** A computation that returns, rather than raises. *)
Definition returns_value {A} (m : M A) : Prop := exists a l, m = (Ret a, l).

(** ** A client of the engine *)

Section EngineClients.

Import Engine Consensus.
Local Open Scope string_scope.

(** A call of one of the three admission methods of the engine. *)
Inductive call : Type :=
| AddTransaction (transaction : pyobj)
| AddProposal (proposal : pyobj)
| AddBlock (block : pyobj).

(** The engine after a call, whatever the call returned or raised, and after
    a sequence of calls made one after the other. *)
Definition after (self : ConsensusEngine) (c : call) : ConsensusEngine :=
  match c with
  | AddTransaction transaction => snd (add_transaction self transaction)
  | AddProposal proposal => snd (add_proposal self proposal)
  | AddBlock block => snd (add_block self block)
  end.

Definition after_all (self : ConsensusEngine) (calls : list call) : ConsensusEngine :=
  fold_left after calls self.

(** Whether a validator says true. *)
Definition says_true (m : M bool) : bool :=
  match returned m with
  | Ret true => true
  | _ => false
  end.

(** The transactions, and the proposals, of the calls that the validator
    accepts, in the order of the calls. *)
Fixpoint accepted_transactions (v : Validator) (calls : list call) : list pyobj :=
  match calls with
  | [] => []
  | AddTransaction transaction :: rest =>
      if says_true (validate_transaction v transaction)
      then transaction :: accepted_transactions v rest
      else accepted_transactions v rest
  | _ :: rest => accepted_transactions v rest
  end.

Fixpoint accepted_proposals (v : Validator) (calls : list call) : list pyobj :=
  match calls with
  | [] => []
  | AddProposal proposal :: rest =>
      if says_true (validate_proposal v proposal)
      then proposal :: accepted_proposals v rest
      else accepted_proposals v rest
  | _ :: rest => accepted_proposals v rest
  end.

End EngineClients.

(** ** Documents that [validate_did_document] accepts, and well-typed documents *)

Section DocumentShapes.

Import Identity.
Local Open Scope string_scope.

(** A dict with the four required keys, whose controller can be hashed. *)
Definition method_with_fields (m : value) : Prop :=
  exists fields,
    m = VDict fields /\
    (forall k, In k required_method_fields -> has_key k fields = true) /\
    hashable (field_or "controller" VNone m) = true.

(** A verification method of a well-typed document: a dict whose controller,
    if any, and whose service references, if any, can be hashed. *)
Definition typed_method (m : value) : Prop :=
  exists fields,
    m = VDict fields /\
    hashable (field_or "controller" VNone m) = true /\
    match field_or "serviceEndpoint" (VList []) m with
    | VList refs => Forall (fun ref => hashable ref = true) refs
    | ref => hashable ref = true
    end.

(** A well-typed document: a dict whose [id], if any, can be hashed, whose
    [verificationMethod], if any, is a list of typed methods and whose
    [service], if any, is a list of declared services. *)
Definition typed_document (document : value) : Prop :=
  exists d methods services,
    document = VDict d /\
    hashable (field_or "id" VNone document) = true /\
    field_or "verificationMethod" (VList []) document = VList methods /\
    Forall typed_method methods /\
    field_or "service" (VList []) document = VList services /\
    Forall declared_service services.

End DocumentShapes.

(** ** What the signature verifier of [identity/signature.py] accepts *)

Section VerifierVocabulary.

Import IdentitySignature.
Local Open Scope string_scope.

(** The library check of the algorithm that [key_type] names passes on the
    decoded key and signature and on the bytes of the message. *)
Definition check_passes (lib : Library) (message signature public_key : blob)
           (key_type : string) : Prop :=
  exists public_key' signature',
    returned (as_bytes lib public_key) = Ret public_key' /\
    returned (as_bytes lib signature) = Ret signature' /\
    ((lower key_type = "ed25519" /\
      ed25519_check lib public_key' signature' (as_message message) = Ret tt) \/
     (lower key_type = "rsa" /\
      rsa_check lib public_key' signature' (as_message message) = Ret tt)).

End VerifierVocabulary.

(** ** What the verifier of [federation/signature.py] accepts *)

Section FederationVocabulary.

Import IdentitySignature FederationSignature.
Local Open Scope string_scope.

(** The key loads from its decoded bytes, and the ECDSA check passes on the
    decoded signature and the SHA-256 digest of the bytes of the message. *)
Definition ecdsa_passes (lib : Library) (message signature public_key : blob) : Prop :=
  exists signature' public_key' pub_key_obj,
    returned (decode_signature lib signature) = Ret signature' /\
    returned (decode_public_key lib public_key) = Ret public_key' /\
    load_der_public_key lib public_key' = Ret pub_key_obj /\
    ecdsa_verify_prehashed lib pub_key_obj signature'
      (digest_sha256 lib (as_message message)) = Ret tt.

(** A library for the examples: base58 and DER are taken to be the
    identity, and a signature passes when it is the digest itself. *)
Definition plain_ecdsa : Library :=
  {| b58decode := fun s => Ret s;
     load_der_public_key := fun s => Ret s;
     digest_sha256 := fun s => s;
     ecdsa_verify_prehashed := fun _ signature digest =>
       if String.eqb signature digest then Ret tt else Raise InvalidSignature |}.

End FederationVocabulary.

(** ** Documents of [src/identity/identity_service.py] *)

Section IcnVocabulary.

Import Icn.
Local Open Scope string_scope.

(** The first entry of [publicKey] is a dict whose [publicKeyHex] the
    library parses to [public_key]. *)
Definition first_public_key (lib : Crypto) (document : value) (public_key : string)
  : Prop :=
  exists d fields rest hex,
    document = VDict d /\
    assoc "publicKey" d = Some (VList (VDict fields :: rest)) /\
    assoc "publicKeyHex" fields = Some hex /\
    public_key_from_hex lib hex = Ret public_key.

(** An entry of [publicKey] that the validator accepts: a dict with [id] and
    [controller] whose [publicKeyHex] the library parses. *)
Definition parsed_key (lib : Crypto) (key : value) : Prop :=
  exists fields hex public_key,
    key = VDict fields /\
    has_key "id" fields = true /\
    has_key "controller" fields = true /\
    assoc "publicKeyHex" fields = Some hex /\
    public_key_from_hex lib hex = Ret public_key.

(** A dict whose [id] is a str that starts with [did:icn:] and whose
    [publicKey] is a non-empty list of parsed keys. *)
Definition icn_document (lib : Crypto) (document : value) : Prop :=
  exists d did keys,
    document = VDict d /\
    assoc "id" d = Some (VStr did) /\
    String.prefix "did:icn:" did = true /\
    assoc "publicKey" d = Some (VList keys) /\
    keys <> [] /\
    Forall (parsed_key lib) keys.

(** What [signatures.verify] says, false when it raises. *)
Definition library_accepts (lib : Crypto) (message signature public_key : string) : bool :=
  match signatures_verify lib message signature public_key with
  | Ret b => b
  | Raise _ => false
  end.

(** A library for the examples: a key is its hexadecimal text, and a
    signature passes when it is the message followed by the key. *)
Definition plain_crypto : Crypto :=
  {| public_key_from_hex := fun hex =>
       match hex with
       | VStr s => Ret s
       | _ => Raise TypeError
       end;
     signatures_verify := fun message signature public_key =>
       Ret (String.eqb signature (message ++ public_key)) |}.

Definition fresh_example : Fresh :=
  {| private_key_hex := "5e0c";
     public_key_hex := "a1b2";
     uuid_hex := "0123456789abcdef0123456789abcdef";
     created := "2024-01-01T00:00:00+00:00";
     stored := "2024-01-01T00:00:01+00:00" |}.

(** The document of [tests/test_signature_verification.py], with the key
    of the example. *)
Definition document_test123 : value :=
  VDict [ ("id", VStr "did:icn:test123");
          ("publicKey",
           VList [ VDict [ ("id", VStr "did:icn:test123#keys-1");
                           ("type", VStr "Ed25519VerificationKey2018");
                           ("controller", VStr "did:icn:test123");
                           ("publicKeyHex", VStr "a1b2") ] ]) ].

Definition store_example : IdentityService := {| key_storage_path := "/home/icn/.icn/keys" |}.

(** A [ValidationService] built on the [Federation] and the
    [IdentityService] of [src/]; the identity service is given
    [get_did_document], which its class does not define. *)
Definition service_with (lib : Crypto) (hex : string -> result string)
           (lookup : value -> M value) : Blockchain.ValidationService :=
  {| Blockchain.federation_verify_signature := verify_signature lib;
     Blockchain.get_did_document := lookup;
     Blockchain.validate_did_document := validate_did_document lib;
     Blockchain.bytes_fromhex := hex |}.

(** [identity_service.get_did_document] on an [IdentityService] as the
    class defines it: the attribute is missing. *)
Definition missing_get_did_document (did : value) : M value := raise AttributeError.

End IcnVocabulary.

(** ** File names and documents of [tools/doctools/docmanager.py] *)

Section DocToolsVocabulary.

Import DocTools.
Local Open Scope string_scope.

(** A small letter of ASCII, a digit or a hyphen, and the strings made of
    them. *)
Definition slug_char (c : ascii) : bool :=
  between 97 122 c || between 48 57 c || (code c =? 45)%N.

Fixpoint is_slug (s : string) : bool :=
  match s with
  | EmptyString => true
  | String c s' => slug_char c && is_slug s'
  end.

(** The date prefix of a versioned document. *)
Definition date_prefix (today doc_type : string) : string :=
  if versioned doc_type then today ++ "-" else "".


(** A YAML library for the examples: the metadata are dumped as a fixed
    line, and every text loads as the same metadata. *)
Definition plain_yaml : Yaml :=
  {| dump := fun _ => "title: Notes" ++ newline;
     safe_load := fun _ => Ret (VDict [("title", VStr "Notes")]) |}.

End DocToolsVocabulary.

(* ================================================================== *)
(** * Part VIII.  Properties *)
(* ================================================================== *)

(** ** The monad and the loops *)

Section MonadFacts.

Context {A B : Type}.

Lemma bind_ret_l (a : A) (k : A -> M B) : bind (ret a) k = k a.
Proof. unfold bind, ret. destruct (k a); reflexivity. Qed.

Lemma bind_raise (e : exn) (k : A -> M B) : bind (raise e) k = raise e.
Proof. reflexivity. Qed.

Lemma bind_returns (m : M A) (k : A -> M B) (b : B) (l : list logrec) :
  bind m k = (Ret b, l) ->
  exists a l1 l2, m = (Ret a, l1) /\ k a = (Ret b, l2) /\ l = (l1 ++ l2)%list.
Proof.
  unfold bind. destruct m as [[a|e] l1]; [|discriminate].
  destruct (k a) as [r l2] eqn:E. intros H. inversion H; subst.
  exists a, l1, l2. auto.
Qed.

Lemma bind_step (m : M A) (k : A -> M B) (a : A) (l1 : list logrec) :
  m = (Ret a, l1) ->
  bind m k = (fst (k a), (l1 ++ snd (k a))%list).
Proof. intros ->. unfold bind. destruct (k a); reflexivity. Qed.

Lemma bind_fails (m : M A) (k : A -> M B) (e : exn) (l1 : list logrec) :
  m = (Raise e, l1) -> bind m k = (Raise e, l1).
Proof. intros ->. reflexivity. Qed.

End MonadFacts.

Lemma try_except_returns {A} (body : M A) (handler : exn -> M A) :
  (forall e, exists a l, handler e = (Ret a, l)) ->
  exists a l, try_except body handler = (Ret a, l).
Proof.
  intros Hh. unfold try_except. destruct body as [[a|e] l].
  - eauto.
  - destruct (Hh e) as (a & l' & ->). eauto.
Qed.

(** A loop that runs to its end ran its body to the end on every element. *)
Lemma for_each_completes {A R} (xs : list A) (body : A -> M (option R)) (l : list logrec) :
  for_each xs body = (Ret None, l) ->
  forall x, In x xs -> exists l', body x = (Ret None, l').
Proof.
  revert l. induction xs as [|y ys IH]; intros l H x Hin; [destruct Hin|].
  simpl in H. apply bind_returns in H as (r & l1 & l2 & Hy & Hk & _).
  destruct r as [v|]; [discriminate|].
  destruct Hin as [<-|Hin]; eauto.
Qed.

Lemma for_each_all_continue {A R} (xs : list A) (body : A -> M (option R)) :
  (forall x, In x xs -> body x = ret None) ->
  for_each xs body = ret None.
Proof.
  induction xs as [|y ys IH]; intros H; [reflexivity|].
  simpl. rewrite (H y (or_introl eq_refl)), bind_ret_l.
  apply IH. intros x Hx. apply H. now right.
Qed.

Lemma py_all_true {A} (xs : list A) (p : A -> M bool) :
  (forall x, In x xs -> p x = ret true) -> py_all xs p = ret true.
Proof.
  induction xs as [|y ys IH]; intros H; [reflexivity|].
  simpl. rewrite (H y (or_introl eq_refl)), bind_ret_l.
  apply IH. intros x Hx. apply H. now right.
Qed.


Lemma has_key_In {A} (k : string) (d : list (string * A)) :
  has_key k d = true <-> In k (map fst d).
Proof.
  unfold has_key. induction d as [|[k' v] d IH]; simpl.
  - split; [discriminate | tauto].
  - destruct (String.eqb_spec k k') as [->|Hne].
    + split; auto.
    + rewrite IH. split; [auto | intros [H|H]; [congruence | exact H]].
Qed.

Lemma getattr_hasattr (o : pyobj) (name : string) :
  hasattr o name = true -> exists v, getattr o name = ret v.
Proof.
  destruct o; simpl; try discriminate.
  unfold has_key. destruct (assoc name attrs); [eauto | discriminate].
Qed.

Lemma getattr_missing (o : pyobj) (name : string) :
  hasattr o name = false -> getattr o name = raise AttributeError.
Proof.
  destruct o; simpl; try reflexivity.
  unfold has_key. destruct (assoc name attrs); [discriminate | reflexivity].
Qed.

(** ** The consensus engine and its validator *)

Section ConsensusFacts.

Import Engine Consensus.
Local Open Scope string_scope.

(** *** The format checks *)

Lemma transaction_format_fields (o : pyobj) :
  _validate_transaction_format o = true <->
  hasattr o "id" = true /\ hasattr o "sender" = true /\ hasattr o "signature" = true.
Proof.
  unfold _validate_transaction_format. simpl.
  rewrite !andb_true_iff. tauto.
Qed.

Lemma proposal_format_fields (o : pyobj) :
  _validate_proposal_format o = true <->
  hasattr o "id" = true /\ hasattr o "proposer" = true /\
  hasattr o "signature" = true /\ hasattr o "transactions" = true.
Proof.
  unfold _validate_proposal_format. simpl.
  rewrite !andb_true_iff. tauto.
Qed.

Lemma block_format_fields (o : pyobj) :
  _validate_block_format o = true <->
  hasattr o "height" = true /\ hasattr o "producer" = true /\
  hasattr o "signature" = true /\ hasattr o "proposals" = true.
Proof.
  unfold _validate_block_format. simpl.
  rewrite !andb_true_iff. tauto.
Qed.

Lemma transaction_format_needs_id (o : pyobj) :
  hasattr o "id" = false -> _validate_transaction_format o = false.
Proof.
  intros H. destruct (_validate_transaction_format o) eqn:E; [|reflexivity].
  apply transaction_format_fields in E. destruct E as (E & _). congruence.
Qed.

Lemma proposal_format_needs_id (o : pyobj) :
  hasattr o "id" = false -> _validate_proposal_format o = false.
Proof.
  intros H. destruct (_validate_proposal_format o) eqn:E; [|reflexivity].
  apply proposal_format_fields in E. destruct E as (E & _). congruence.
Qed.

Lemma block_format_needs_height (o : pyobj) :
  hasattr o "height" = false -> _validate_block_format o = false.
Proof.
  intros H. destruct (_validate_block_format o) eqn:E; [|reflexivity].
  apply block_format_fields in E. destruct E as (E & _). congruence.
Qed.

(** A validator that returns true has seen the format check pass. *)
Lemma validate_transaction_true_format (v : Validator) (tx : pyobj) (l : list logrec) :
  validate_transaction v tx = (Ret true, l) -> _validate_transaction_format tx = true.
Proof.
  unfold validate_transaction.
  destruct (_validate_transaction_format tx); [reflexivity|].
  simpl. discriminate.
Qed.

Lemma validate_proposal_true_format (v : Validator) (p : pyobj) (l : list logrec) :
  validate_proposal v p = (Ret true, l) -> _validate_proposal_format p = true.
Proof.
  unfold validate_proposal.
  destruct (_validate_proposal_format p); [reflexivity|].
  simpl. discriminate.
Qed.

(** *** Admission: what [add_transaction] and [add_proposal] do when the
    entity carries the [id] their log lines read *)

Lemma add_transaction_accepts (self : ConsensusEngine) (tx : pyobj) (l : list logrec) :
  validate_transaction (validator self) tx = (Ret true, l) ->
  exists l',
    fst (add_transaction self tx) = (Ret true, l') /\
    pending_transactions (snd (add_transaction self tx))
      = (pending_transactions self ++ [tx])%list /\
    pending_proposals (snd (add_transaction self tx)) = pending_proposals self.
Proof.
  intros H. pose proof (validate_transaction_true_format _ _ _ H) as F.
  apply transaction_format_fields in F as (Hid & _).
  destruct (getattr_hasattr _ _ Hid) as (i & Hi).
  unfold add_transaction. rewrite H. cbn [fst snd pending_transactions pending_proposals].
  rewrite Hi. unfold ret, bind, logger. cbn. eauto.
Qed.

Lemma add_transaction_rejects (self : ConsensusEngine) (tx : pyobj) (l : list logrec) :
  validate_transaction (validator self) tx = (Ret false, l) ->
  hasattr tx "id" = true ->
  exists l',
    fst (add_transaction self tx) = (Ret false, l') /\
    snd (add_transaction self tx) = self.
Proof.
  intros H Hid. destruct (getattr_hasattr _ _ Hid) as (i & Hi).
  unfold add_transaction. rewrite H. cbn [fst snd].
  rewrite Hi. unfold ret, bind, logger. cbn. eauto.
Qed.

Lemma add_proposal_accepts (self : ConsensusEngine) (p : pyobj) (l : list logrec) :
  validate_proposal (validator self) p = (Ret true, l) ->
  exists l',
    fst (add_proposal self p) = (Ret true, l') /\
    pending_proposals (snd (add_proposal self p))
      = (pending_proposals self ++ [p])%list /\
    pending_transactions (snd (add_proposal self p)) = pending_transactions self.
Proof.
  intros H. pose proof (validate_proposal_true_format _ _ _ H) as F.
  apply proposal_format_fields in F as (Hid & _).
  destruct (getattr_hasattr _ _ Hid) as (i & Hi).
  unfold add_proposal. rewrite H. cbn [fst snd pending_transactions pending_proposals].
  rewrite Hi. unfold ret, bind, logger. cbn. eauto.
Qed.

Lemma add_proposal_rejects (self : ConsensusEngine) (p : pyobj) (l : list logrec) :
  validate_proposal (validator self) p = (Ret false, l) ->
  hasattr p "id" = true ->
  exists l',
    fst (add_proposal self p) = (Ret false, l') /\
    snd (add_proposal self p) = self.
Proof.
  intros H Hid. destruct (getattr_hasattr _ _ Hid) as (i & Hi).
  unfold add_proposal. rewrite H. cbn [fst snd].
  rewrite Hi. unfold ret, bind, logger. cbn. eauto.
Qed.

(** C10.  When the entity lacks the attribute its failure log line reads
    ([id] for a transaction and for a proposal, [height] for a block), the
    format check fails, validation returns false, and [add_transaction],
    [add_proposal] and [add_block] raise [AttributeError] from that log
    line instead of returning false; the engine is left as it was. *)
Theorem add_raises_on_missing_logged_attribute
        (self : ConsensusEngine) (transaction proposal block : pyobj) :
  hasattr transaction "id" = false ->
  hasattr proposal "id" = false ->
  hasattr block "height" = false ->
  (returned (validate_transaction (validator self) transaction) = Ret false /\
   add_transaction self transaction
     = ((Raise AttributeError, [Log ERROR "Invalid transaction format" []]), self)) /\
  (returned (validate_proposal (validator self) proposal) = Ret false /\
   add_proposal self proposal
     = ((Raise AttributeError, [Log ERROR "Invalid proposal format" []]), self)) /\
  (returned (Engine.validate_block self block) = Ret false /\
   add_block self block
     = ((Raise AttributeError, [Log ERROR "Invalid block format" []]), self)).
Proof.
  intros Ht Hp Hb.
  unfold add_transaction, add_proposal, add_block, Engine.validate_block,
    validate_transaction, validate_proposal, validate_block.
  rewrite (transaction_format_needs_id _ Ht), (proposal_format_needs_id _ Hp),
    (block_format_needs_height _ Hb).
  rewrite (getattr_missing _ _ Ht), (getattr_missing _ _ Hp), (getattr_missing _ _ Hb).
  repeat split.
Qed.

Lemma add_raises_on_missing_logged_attribute_witness :
  add_transaction (new accept_all) tx_without_id
    = ((Raise AttributeError, [Log ERROR "Invalid transaction format" []]), new accept_all) /\
  add_proposal (new accept_all) proposal_without_id
    = ((Raise AttributeError, [Log ERROR "Invalid proposal format" []]), new accept_all) /\
  add_block (new accept_all) block_without_height
    = ((Raise AttributeError, [Log ERROR "Invalid block format" []]), new accept_all).
Proof.
  destruct (add_raises_on_missing_logged_attribute (new accept_all)
              tx_without_id proposal_without_id block_without_height
              eq_refl eq_refl eq_refl) as ((_ & H1) & (_ & H2) & (_ & H3)).
  exact (conj H1 (conj H2 H3)).
Defined.

End ConsensusFacts.

(** ** The cascade block, proposal, transaction *)

Tactic Notation "bind_inv" hyp(H) "as" ident(a) ident(Hm) :=
  let l1 := fresh "l" in
  let l2 := fresh "l" in
  let Hl := fresh "Hl" in
  apply bind_returns in H as (a & l1 & l2 & Hm & H & Hl).

Tactic Notation "bind_inv" hyp(H) :=
  let a := fresh "a" in
  let Hm := fresh "Hm" in
  bind_inv H as a Hm.

Section CascadeFacts.

Import Consensus.
Local Open Scope string_scope.

Variable v : Validator.

Lemma nested_loop_never_returns_true {A} (validate : A -> M bool)
      (fail : A -> M (option bool)) (xs : list A) (l : list logrec) :
  rejecting fail ->
  for_each xs (fun x => ok <- validate x ;; if negb ok then fail x else ret None)
  <> (Ret (Some true), l).
Proof.
  intros Hf. revert l. induction xs as [|x xs IH]; intros l H; [discriminate|].
  simpl in H. bind_inv H as r Hr.
  destruct r as [b|].
  - bind_inv Hr as ok Hok. destruct ok; cbn [negb] in Hr.
    + discriminate.
    + inversion H; subst. exact (proj2 (Hf _ _) Hr).
  - eapply IH, H.
Qed.

Lemma nested_loop_completes {A} (validate : A -> M bool)
      (fail : A -> M (option bool)) (xs : list A) (l : list logrec) :
  rejecting fail ->
  for_each xs (fun x => ok <- validate x ;; if negb ok then fail x else ret None)
  = (Ret None, l) ->
  forall x, In x xs -> returned (validate x) = Ret true.
Proof.
  intros Hf H x Hin.
  destruct (for_each_completes _ _ _ H x Hin) as (l' & Hb).
  bind_inv Hb as ok Hok. destruct ok; cbn [negb] in Hb.
  - rewrite Hok. reflexivity.
  - exfalso. exact (proj1 (Hf _ _) Hb).
Qed.

Lemma report_two_rejecting {A} (first second : A -> M pyobj)
      (text : string) :
  rejecting (fun x =>
    a <- first x ;; b <- second x ;; logger ERROR text [a; b] ;;; ret (Some false)).
Proof.
  intros x l. split; intros H; do 3 bind_inv H; discriminate.
Qed.

(** A proposal is accepted only when every transaction it iterates over is
    accepted. *)
Lemma validate_proposal_true_transactions (p : pyobj) (l : list logrec) :
  validate_proposal v p = (Ret true, l) ->
  exists ts txs,
    returned (getattr p "transactions") = Ret ts /\
    returned (iter_obj ts) = Ret txs /\
    forall tx, In tx txs -> returned (validate_transaction v tx) = Ret true.
Proof.
  unfold validate_proposal.
  destruct (_validate_proposal_format p); [|simpl; discriminate].
  cbn [negb]. intros H.
  bind_inv H as did Hdid. bind_inv H as gm Hgm. bind_inv H as msg Hmsg.
  bind_inv H as sg Hsg. bind_inv H as ok Hok.
  destruct ok; cbn [negb] in H.
  2:{ bind_inv H as i Hi. bind_inv H as u Hu. discriminate. }
  bind_inv H as ts Hts. bind_inv H as txs Htxs. bind_inv H as r Hr.
  exists ts, txs. rewrite Hts, Htxs. repeat split.
  pose proof (report_two_rejecting (fun tx => getattr tx "id") (fun _ => getattr p "id")
                "Invalid transaction {tx.id} in proposal {proposal.id}") as Hrej.
  destruct r as [b|].
  - inversion H; subst. exfalso.
    eapply (nested_loop_never_returns_true (validate_transaction v)), Hr. exact Hrej.
  - eapply (nested_loop_completes (validate_transaction v)), Hr. exact Hrej.
Qed.

(** A block is accepted only when every proposal it iterates over is
    accepted. *)
Lemma validate_block_true_proposals (b : pyobj) (l : list logrec) :
  validate_block v b = (Ret true, l) ->
  exists ps proposals,
    returned (getattr b "proposals") = Ret ps /\
    returned (iter_obj ps) = Ret proposals /\
    forall p, In p proposals -> returned (validate_proposal v p) = Ret true.
Proof.
  unfold validate_block.
  destruct (_validate_block_format b); [|simpl; discriminate].
  cbn [negb]. intros H.
  bind_inv H as did Hdid. bind_inv H as gm Hgm. bind_inv H as msg Hmsg.
  bind_inv H as sg Hsg. bind_inv H as ok Hok.
  destruct ok; cbn [negb] in H.
  2:{ bind_inv H as i Hi. bind_inv H as u Hu. discriminate. }
  bind_inv H as ps Hps. bind_inv H as proposals Hproposals. bind_inv H as r Hr.
  exists ps, proposals. rewrite Hps, Hproposals. repeat split.
  pose proof (report_two_rejecting (fun p => getattr p "id") (fun _ => getattr b "height")
                "Invalid proposal {proposal.id} in block {block.height}") as Hrej.
  destruct r as [c|].
  - inversion H; subst. exfalso.
    eapply (nested_loop_never_returns_true (validate_proposal v)), Hr. exact Hrej.
  - eapply (nested_loop_completes (validate_proposal v)), Hr. exact Hrej.
Qed.

(** No partial acceptance: a block one of whose proposals holds a
    transaction that [validate_transaction] does not accept (it returns false
    or raises) is never accepted, and neither is that proposal. *)
Lemma validate_block_never_accepts_bad_transaction
      (b ps p ts tx : pyobj) (proposals txs : list pyobj) :
  returned (getattr b "proposals") = Ret ps ->
  returned (iter_obj ps) = Ret proposals ->
  In p proposals ->
  returned (getattr p "transactions") = Ret ts ->
  returned (iter_obj ts) = Ret txs ->
  In tx txs ->
  returned (validate_transaction v tx) <> Ret true ->
  returned (validate_proposal v p) <> Ret true /\
  returned (validate_block v b) <> Ret true.
Proof.
  intros Hps Hit Hp Hts Hitx Htx Hbad.
  assert (Hprop : returned (validate_proposal v p) <> Ret true).
  { intros Hacc. destruct (validate_proposal v p) as [r l] eqn:E.
    simpl in Hacc. subst r.
    destruct (validate_proposal_true_transactions _ _ E) as (ts' & txs' & H1 & H2 & H3).
    rewrite Hts in H1. inversion H1; subst ts'.
    rewrite Hitx in H2. inversion H2; subst txs'.
    apply Hbad, H3, Htx. }
  split; [exact Hprop|].
  intros Hacc. destruct (validate_block v b) as [r l] eqn:E.
  simpl in Hacc. subst r.
  destruct (validate_block_true_proposals _ _ E) as (ps' & proposals' & H1 & H2 & H3).
  rewrite Hps in H1. inversion H1; subst ps'.
  rewrite Hit in H2. inversion H2; subst proposals'.
  apply Hprop, H3, Hp.
Qed.

End CascadeFacts.

(** ** Where the contracts of the validator and of the engine break *)

Section ConsensusDefects.

Import Engine Consensus.
Local Open Scope string_scope.

(** C3.  The contract of [add_transaction] and [add_proposal] holds for a
    valid transaction and for a rejected one that has an [id] (the pool of
    the scenario grows to one entry, then stays at one), and breaks for a
    rejected entity without [id]: [validate_transaction] returns false, yet
    [add_transaction] raises [AttributeError] instead of returning false;
    [add_proposal] does the same. *)
Theorem add_transaction_contract_on_scenario :
  let engine0 := engine_with (accept_only "did:x:1") [] in
  let engine1 := engine_with (accept_only "did:x:1") [tx_signed "tx1"] in
  (returned (fst (add_transaction engine0 (tx_signed "tx1"))) = Ret true /\
   snd (add_transaction engine0 (tx_signed "tx1")) = engine1) /\
  (returned (fst (add_transaction engine1 tx_forged)) = Ret false /\
   snd (add_transaction engine1 tx_forged) = engine1) /\
  (returned (validate_transaction (validator engine1) tx_without_id) = Ret false /\
   returned (fst (add_transaction engine1 tx_without_id)) = Raise AttributeError /\
   snd (add_transaction engine1 tx_without_id) = engine1) /\
  (returned (validate_proposal (validator engine1) proposal_without_id) = Ret false /\
   returned (fst (add_proposal engine1 proposal_without_id)) = Raise AttributeError /\
   snd (add_proposal engine1 proposal_without_id) = engine1).
Proof. cbv zeta. repeat split. Qed.

(** C4.  A block whose proposal holds a transaction that fails validation is
    rejected with false when the failing transaction has an [id]; when it
    has none, [validate_transaction] returns false for it but the log line
    of [validate_proposal] that reads [tx.id] raises [AttributeError], and
    so [validate_proposal] and [validate_block] raise instead of returning
    false. *)
Theorem validate_block_cascade_on_scenario :
  let v := {| identity_service := accept_only "did:x:1" |} in
  let rejected := proposal_of (PSeq [tx_signed "tx1"; tx_forged; tx_signed "tx3"]) in
  let crashing := proposal_of (PSeq [tx_signed "tx1"; tx_without_id; tx_signed "tx3"]) in
  (returned (validate_transaction v tx_forged) = Ret false /\
   returned (validate_proposal v rejected) = Ret false /\
   returned (validate_block v (block_of (PSeq [rejected]))) = Ret false) /\
  (returned (validate_transaction v tx_without_id) = Ret false /\
   returned (validate_proposal v crashing) = Raise AttributeError /\
   returned (validate_block v (block_of (PSeq [crashing]))) = Raise AttributeError).
Proof. cbv zeta. repeat split. Qed.

End ConsensusDefects.

(** ** The signature verifier of [identity/signature.py] *)

Section SignatureFacts.

Import IdentitySignature.
Local Open Scope string_scope.

(** The two private verifiers catch every exception. *)
Lemma _verify_ed25519_returns (lib : Library) (message signature public_key : blob) :
  exists b l, _verify_ed25519 lib message signature public_key = (Ret b, l).
Proof.
  unfold _verify_ed25519. apply try_except_returns.
  intros e. destruct e; cbn; eauto.
Qed.

Lemma _verify_rsa_returns (lib : Library) (message signature public_key : blob) :
  exists b l, _verify_rsa lib message signature public_key = (Ret b, l).
Proof.
  unfold _verify_rsa. apply try_except_returns.
  intros e. destruct e; cbn; eauto.
Qed.

(** [verify] returns a boolean on every input. *)
Lemma verify_returns (lib : Library) (message signature public_key : blob)
      (key_type : string) :
  exists b l, verify lib message signature public_key key_type = (Ret b, l).
Proof.
  unfold verify. apply try_except_returns. intros e. cbn. eauto.
Qed.

(** C5.  For a key type that is neither Ed25519 nor RSA (the comparison is
    made on the lower-cased tag), [verify] returns false, logs the
    unsupported key type at error level and nothing else, and does not
    raise, whatever the message, the signature and the key are. *)
Theorem verify_unsupported_key_type
        (lib : Library) (message signature public_key : blob) (key_type : string) :
  lower key_type <> "ed25519" ->
  lower key_type <> "rsa" ->
  verify lib message signature public_key key_type
    = (Ret false, [Log ERROR "Unsupported key type: {key_type}" [PData (VStr key_type)]]).
Proof.
  intros Hed Hrsa. unfold verify.
  apply String.eqb_neq in Hed. apply String.eqb_neq in Hrsa.
  rewrite Hed, Hrsa. reflexivity.
Qed.

Lemma verify_unsupported_key_type_witness :
  verify strict_library (Bytes "message") (Str "c2ln") (Str "a2V5") "unknown"
    = (Ret false, [Log ERROR "Unsupported key type: {key_type}" [PData (VStr "unknown")]]).
Proof.
  apply (verify_unsupported_key_type strict_library (Bytes "message") (Str "c2ln")
           (Str "a2V5") "unknown"); discriminate.
Defined.

End SignatureFacts.

(** ** The identity service of [identity/service.py] *)

Section IdentityFacts.

Import Identity.
Local Open Scope string_scope.

(** [SignatureVerifier.verify_signature] does not exist. *)
Lemma class_has_no_verify_signature :
  IdentitySignature.class_getattr "verify_signature" = raise AttributeError.
Proof. reflexivity. Qed.

(** Whenever a key is found, [verify_signature] raises. *)
Lemma verify_signature_raises_with_key
      (self : IdentityService) (did_id message signature : pyobj)
      (public_key : value) (l : list logrec) :
  get_public_key self did_id = (Ret public_key, l) ->
  truthy public_key = true ->
  verify_signature self did_id message signature = (Raise AttributeError, l).
Proof.
  intros Hk Ht. unfold verify_signature. rewrite Hk. cbn [bind].
  rewrite Ht. cbn. rewrite app_nil_r. reflexivity.
Qed.

(** Without a key it returns false and logs the cause. *)
Lemma verify_signature_false_without_key
      (self : IdentityService) (did_id message signature : pyobj)
      (public_key : value) (l : list logrec) :
  get_public_key self did_id = (Ret public_key, l) ->
  truthy public_key = false ->
  verify_signature self did_id message signature
    = (Ret false,
       (l ++ [Log ERROR "Unable to retrieve public key for DID: {did_id}" [did_id]])%list).
Proof.
  intros Hk Ht. unfold verify_signature. rewrite Hk. cbn [bind].
  rewrite Ht. reflexivity.
Qed.

(** With the resolver of the source, whose body is [pass], no key is ever
    found. *)
Lemma verify_signature_unresolved (did_id message signature : pyobj) :
  verify_signature unresolved did_id message signature
    = (Ret false, [Log ERROR "Unable to retrieve public key for DID: {did_id}" [did_id]]).
Proof. reflexivity. Qed.

(** [verify_signature] never returns true. *)
Lemma verify_signature_never_true
      (self : IdentityService) (did_id message signature : pyobj) (l : list logrec) :
  verify_signature self did_id message signature <> (Ret true, l).
Proof.
  unfold verify_signature. intros H.
  bind_inv H as public_key Hk.
  destruct (truthy public_key); cbn [negb] in H.
  - bind_inv H as f Hf. discriminate.
  - bind_inv H as u Hu. discriminate.
Qed.

(** C1.  For a DID that resolves to a valid document with a key,
    [get_public_key] returns the key and [verify_signature] then raises
    [AttributeError], for every message and signature: the class
    [SignatureVerifier] it calls has no [verify_signature], and no key type
    is read from the document.  For a DID that does not resolve it returns
    false and logs the cause. *)
Theorem verify_signature_raises_on_resolved_did (message signature : pyobj) :
  let service := resolver_of "did:x:1" document_two_keys in
  get_public_key service (str "did:x:1") = (Ret (VStr "AAA"), []) /\
  verify_signature service (str "did:x:1") message signature
    = (Raise AttributeError, []) /\
  verify_signature service (str "did:x:2") message signature
    = (Ret false,
       [Log ERROR "Unable to retrieve public key for DID: {did_id}" [str "did:x:2"]]).
Proof. cbv zeta. repeat split. Qed.

End IdentityFacts.

(** ** DID documents *)

Section DocumentFacts.

Import Identity.
Local Open Scope string_scope.

Lemma py_set_map {A} (xs : list A) (f : A -> M value) (g : A -> value) :
  (forall x, In x xs -> f x = ret (g x) /\ hashable (g x) = true) ->
  py_set xs f = ret (map g xs).
Proof.
  induction xs as [|x xs IH]; intros H; [reflexivity|].
  simpl. destruct (H x (or_introl eq_refl)) as (-> & Hh).
  rewrite bind_ret_l, Hh, IH, bind_ret_l; [reflexivity|].
  intros y Hy. apply H. now right.
Qed.

Lemma atom_eq_str (s : string) (x : value) :
  atom_eq (VStr s) x = true <-> x = VStr s.
Proof.
  destruct x; simpl; split; intros H; try discriminate; try (inversion H; fail).
  - apply String.eqb_eq in H. now subst.
  - inversion H. apply String.eqb_refl.
Qed.

Lemma existsb_atom_eq_str (s : string) (vs : list value) :
  existsb (atom_eq (VStr s)) vs = true <-> In (VStr s) vs.
Proof.
  rewrite existsb_exists. split.
  - intros (x & Hin & Heq). apply atom_eq_str in Heq. now subst.
  - intros Hin. exists (VStr s). split; [exact Hin | now apply atom_eq_str].
Qed.

Lemma set_contains_resolves (ids : list value) (ref : value) :
  resolves ids ref -> set_contains ref ids = ret true.
Proof.
  intros (Hh & i & Hin & Heq). unfold set_contains. rewrite Hh.
  f_equal. f_equal. apply existsb_exists. eauto.
Qed.

Lemma complete_method_fields (m : value) :
  complete_method m ->
  py_all required_method_fields (fun k => str_in k m) = ret true.
Proof.
  intros (fields & c & -> & Hid & Hty & Hc & Hpk).
  apply py_all_true. intros k Hk. unfold str_in.
  assert (Hco : has_key "controller" fields = true)
    by (unfold has_key; now rewrite Hc).
  simpl in Hk. destruct Hk as [<-|[<-|[<-|[<-|[]]]]]; congruence.
Qed.

Lemma complete_method_controller (m : value) :
  complete_method m ->
  dict_get m "controller" VNone = ret (field_or "controller" VNone m) /\
  hashable (field_or "controller" VNone m) = true.
Proof.
  intros (fields & c & -> & _ & _ & Hc & _). simpl. rewrite Hc. split; reflexivity.
Qed.

Lemma declared_service_id (s : value) :
  declared_service s ->
  dict_get s "id" VNone = ret (field_or "id" VNone s) /\
  hashable (field_or "id" VNone s) = true.
Proof.
  intros (fields & -> & Hh). split; [reflexivity | exact Hh].
Qed.

Lemma references_checked (ids : list value) (m : value) :
  complete_method m ->
  references_resolve ids m ->
  (service_refs <- dict_get m "serviceEndpoint" (VList []) ;;
   match service_refs with
   | VList refs =>
       for_each refs (fun service_ref =>
         known <- set_contains service_ref ids ;;
         if negb known then
           logger ERROR
             "Verification method references non-existent service: {service_ref}"
             [PData service_ref] ;;;
           ret (Some false)
         else ret None)
   | _ =>
       if truthy service_refs then
         known <- set_contains service_refs ids ;;
         if negb known then
           logger ERROR
             "Verification method references non-existent service: {service_refs}"
             [PData service_refs] ;;;
           ret (Some false)
         else ret None
       else ret None
   end) = ret (@None bool).
Proof.
  intros (fields & c & -> & _) Hr. unfold references_resolve in Hr.
  cbn [dict_get]. rewrite bind_ret_l. cbn [field_or] in Hr.
  destruct (match assoc "serviceEndpoint" fields with
            | Some x => x
            | None => VList []
            end) as [| b | n | s | refs | d] eqn:E.
  1-4,6:
    destruct Hr as [Hf | Hres];
    [ rewrite Hf; reflexivity
    | match goal with
      | |- context [truthy ?x] => destruct (truthy x)
      end; [rewrite (set_contains_resolves _ _ Hres), bind_ret_l|]; reflexivity ].
  apply for_each_all_continue. intros ref Hin.
  rewrite Forall_forall in Hr.
  rewrite (set_contains_resolves _ _ (Hr ref Hin)), bind_ret_l. reflexivity.
Qed.

Lemma set_contains_str (s : string) (ids : list value) :
  set_contains (VStr s) ids = ret (existsb (atom_eq (VStr s)) ids).
Proof. reflexivity. Qed.

Lemma bind_result {A B} (m : M A) (k : A -> M B) (a : A) (b : B) (l : list logrec) :
  m = (Ret a, l) -> k a = ret b -> bind m k = (Ret b, l).
Proof. intros -> H. cbn. rewrite H. cbn. now rewrite app_nil_r. Qed.

Lemma bind_const {A B} (m : M A) (k : M B) (a : A) (b : B) (l : list logrec) :
  m = (Ret a, l) -> k = ret b -> bind m (fun _ => k) = (Ret b, l).
Proof. intros -> ->. cbn. now rewrite app_nil_r. Qed.

(** The result of [validate_did_document] on a document that meets the four
    checks, with what it logs. *)
Lemma validate_did_document_accepts
      (document : list (string * value)) (did : string)
      (methods services : list value) :
  assoc "id" document = Some (VStr did) ->
  did <> "" ->
  assoc "verificationMethod" document = Some (VList methods) ->
  methods <> [] ->
  Forall complete_method methods ->
  field_or "service" (VList []) (VDict document) = VList services ->
  Forall declared_service services ->
  Forall (references_resolve (map (field_or "id" VNone) services)) methods ->
  validate_did_document (VDict document)
    = (Ret true,
       if existsb (atom_eq (VStr did)) (controllers_of methods) then []
       else [controller_warning did]).
Proof.
  intros Hid Hne Hvm Hms Hcomplete Hsvc Hdecl Hrefs.
  rewrite Forall_forall in Hcomplete, Hdecl, Hrefs.
  unfold validate_did_document.
  cbn [dict_get]. rewrite Hid, Hvm. rewrite !bind_ret_l.
  apply String.eqb_neq in Hne.
  cbn [truthy]. rewrite Hne. cbn [negb].
  replace (match methods with [] => false | _ :: _ => true end) with true
    by (destruct methods; [congruence | reflexivity]).
  cbn [negb py_iter]. rewrite !bind_ret_l.
  rewrite for_each_all_continue.
  2:{ intros m Hm. rewrite (complete_method_fields _ (Hcomplete m Hm)), bind_ret_l.
      reflexivity. }
  rewrite bind_ret_l.
  rewrite (py_set_map methods _ (field_or "controller" VNone)).
  2:{ intros m Hm. apply complete_method_controller, Hcomplete, Hm. }
  rewrite !bind_ret_l, set_contains_str, !bind_ret_l.
  fold (controllers_of methods).
  apply bind_const with (a := tt).
  - destruct (existsb (atom_eq (VStr did)) (controllers_of methods)); reflexivity.
  - cbn [field_or] in Hsvc. rewrite Hsvc. cbn [py_iter]. rewrite !bind_ret_l.
    rewrite (py_set_map services _ (field_or "id" VNone)).
    2:{ intros s Hs. apply declared_service_id, Hdecl, Hs. }
    rewrite !bind_ret_l.
    rewrite for_each_all_continue; [now rewrite bind_ret_l|].
    intros m Hm. apply references_checked; auto.
Qed.

(** C6.  A document with a non-empty [id], at least one verification
    method, verification methods that all carry [id], [type], [controller]
    and the public key, and service references that all resolve to a declared
    service id is valid: [validate_did_document] returns true.  When the
    document's [id] is not the controller of any verification method it
    still returns true and logs exactly one warning; when it is, it logs
    nothing. *)
Theorem validate_did_document_controller_mismatch_is_warning
        (document : list (string * value)) (did : string)
        (methods services : list value) :
  assoc "id" document = Some (VStr did) ->
  did <> "" ->
  assoc "verificationMethod" document = Some (VList methods) ->
  methods <> [] ->
  Forall complete_method methods ->
  field_or "service" (VList []) (VDict document) = VList services ->
  Forall declared_service services ->
  Forall (references_resolve (map (field_or "id" VNone) services)) methods ->
  returned (validate_did_document (VDict document)) = Ret true /\
  (~ In (VStr did) (controllers_of methods) ->
   validate_did_document (VDict document) = (Ret true, [controller_warning did])) /\
  (In (VStr did) (controllers_of methods) ->
   validate_did_document (VDict document) = (Ret true, [])).
Proof.
  intros Hid Hne Hvm Hms Hcomplete Hsvc Hdecl Hrefs.
  rewrite (validate_did_document_accepts document did methods services) by assumption.
  split; [reflexivity|]. split; intros H.
  - destruct (existsb _ _) eqn:E; [|reflexivity].
    apply existsb_atom_eq_str in E. contradiction.
  - apply existsb_atom_eq_str in H. rewrite H. reflexivity.
Qed.

End DocumentFacts.

Section DocumentExamples.

Import Identity.
Local Open Scope string_scope.

Lemma validate_did_document_controller_mismatch_is_warning_witness :
  validate_did_document (VDict document_foreign_controller)
    = (Ret true, [controller_warning "did:x:1"]).
Proof.
  assert (Hm : complete_method method_foreign).
  { eexists _, _. repeat split; reflexivity. }
  assert (Hs : declared_service service_inbox).
  { eexists. split; reflexivity. }
  assert (Hr : references_resolve
                 (map (field_or "id" VNone) [service_inbox]) method_foreign).
  { constructor; [|constructor]. split; [reflexivity|].
    exists (VStr "did:x:1#inbox"). split; [now left | reflexivity]. }
  destruct (validate_did_document_controller_mismatch_is_warning
              document_foreign_controller "did:x:1" [method_foreign] [service_inbox]
              eq_refl ltac:(discriminate) eq_refl ltac:(discriminate)
              (Forall_cons _ Hm (Forall_nil _)) eq_refl
              (Forall_cons _ Hs (Forall_nil _))
              (Forall_cons _ Hr (Forall_nil _))) as (_ & Hwarn & _).
  apply Hwarn. intros [H|[]]. discriminate.
Defined.

End DocumentExamples.

(** ** Key lookup *)

Section KeyFacts.

Import Identity.
Local Open Scope string_scope.

Lemma strip_multibase_code (s : string) :
  (if startswith_z s then VStr (drop_first s) else VStr s) = VStr (strip_multibase s).
Proof.
  destruct s as [|c rest]; [reflexivity|].
  unfold startswith_z, strip_multibase.
  change (String.prefix "z" (String c rest))
    with (if ascii_dec "z" c then String.prefix "" rest else false).
  destruct (ascii_dec "z" c) as [<-|Hne].
  - destruct rest; reflexivity.
  - destruct (Ascii.eqb_spec c "z") as [->|_]; [congruence | reflexivity].
Qed.

Lemma py_all_returns_true {A} (xs : list A) (p : A -> M bool) (l : list logrec) :
  py_all xs p = (Ret true, l) ->
  forall x, In x xs -> exists l', p x = (Ret true, l').
Proof.
  revert l. induction xs as [|y ys IH]; intros l H x Hin; [destruct Hin|].
  simpl in H. bind_inv H as b Hb.
  destruct b; [|discriminate].
  destruct Hin as [<-|Hin]; eauto.
Qed.


Lemma dict_get_returns (v : value) (k : string) (default x : value) (l : list logrec) :
  dict_get v k default = (Ret x, l) ->
  exists d, v = VDict d /\ x = match assoc k d with Some y => y | None => default end.
Proof.
  destruct v; try discriminate. intros H. inversion H. eauto.
Qed.


(** C7 (as the code has it).  [get_public_key] takes a DID and nothing
    else.  When the DID resolves to a document that validates and whose first
    verification method's public key is a str, it returns that key without
    its leading [z], if it has one; it returns [None] when the DID resolves
    to nothing and when the document does not validate. *)
Theorem get_public_key_first_method (self : IdentityService) (did_id : pyobj) :
  (forall l key,
      validate_did_document (resolve_did self did_id) = (Ret true, l) ->
      first_method_key (resolve_did self did_id) = Some (VStr key) ->
      get_public_key self did_id = (Ret (VStr (strip_multibase key)), l)) /\
  (truthy (resolve_did self did_id) = false ->
   get_public_key self did_id = (Ret VNone, [])) /\
  (forall l,
      validate_did_document (resolve_did self did_id) = (Ret false, l) ->
      returned (get_public_key self did_id) = Ret VNone).
Proof.
  unfold get_public_key. repeat split.
  - intros l key Hv Hk.
    destruct (resolve_did self did_id) as [| | | |xs|d] eqn:Ed; try discriminate.
    unfold first_method_key in Hk. cbn [field_or] in Hk.
    destruct (assoc "verificationMethod" d) as [vm|] eqn:Evm; [|discriminate].
    destruct vm as [| | | |ms|]; try discriminate.
    destruct ms as [|m ms]; [discriminate|].
    destruct m as [| | | | |fields]; try discriminate.
    assert (Ht : truthy (VDict d) = true) by (destruct d; [discriminate | reflexivity]).
    rewrite Ht. cbn [negb]. rewrite Hv.
    apply bind_result with (a := true); [reflexivity|].
    cbn [negb dict_get]. rewrite Evm, !bind_ret_l.
    cbn [py_iter]. rewrite bind_ret_l.
    cbn [for_each str_in]. unfold has_key. rewrite Hk, bind_ret_l.
    cbn [getitem]. rewrite Hk, bind_ret_l.
    pose proof (strip_multibase_code key) as Hs.
    destruct (startswith_z key); rewrite !bind_ret_l, Hs; reflexivity.
  - intros Ht. rewrite Ht. reflexivity.
  - intros l Hv. destruct (truthy (resolve_did self did_id)); [|reflexivity].
    cbn [negb]. rewrite Hv. reflexivity.
Qed.

Lemma get_public_key_first_method_witness :
  get_public_key (resolver_of "did:x:1" document_two_keys) (str "did:x:1")
    = (Ret (VStr "AAA"), []) /\
  get_public_key (resolver_of "did:x:1" document_two_keys) (str "did:x:2")
    = (Ret VNone, []) /\
  returned (get_public_key (resolver_of "did:x:1" (VDict [("id", VStr "did:x:1")]))
                           (str "did:x:1")) = Ret VNone.
Proof.
  split; [|split].
  - exact (proj1 (get_public_key_first_method
                    (resolver_of "did:x:1" document_two_keys) (str "did:x:1"))
                 [] "zAAA" eq_refl eq_refl).
  - exact (proj1 (proj2 (get_public_key_first_method
                    (resolver_of "did:x:1" document_two_keys) (str "did:x:2")))
                 eq_refl).
  - exact (proj2 (proj2 (get_public_key_first_method
                    (resolver_of "did:x:1" (VDict [("id", VStr "did:x:1")]))
                    (str "did:x:1")))
                 [Log ERROR "DID document has no verification methods" []] eq_refl).
Defined.

(** C7 as stated fails: [get_public_key] does not select a key by its id;
    for the second key of a document with two keys it still answers with the
    first. *)
Lemma get_public_key_not_by_key_id :
  let document := document_two_keys in
  let service := resolver_of "did:x:1" document in
  returned (validate_did_document document) = Ret true /\
  ~ (forall key_id key,
       method_key_by_id document key_id = Some (VStr key) ->
       returned (get_public_key service (str "did:x:1"))
         = Ret (VStr (strip_multibase key))).
Proof.
  cbv zeta. split; [reflexivity|].
  intros H. specialize (H "did:x:1#k2" "zBBB" eq_refl). discriminate H.
Qed.

End KeyFacts.

(** ** The canonical form *)

Section CanonicalFacts.

Import Json.
Local Open Scope string_scope.

Lemma value_ind_nested (P : value -> Prop) :
  P VNone ->
  (forall b, P (VBool b)) ->
  (forall n, P (VInt n)) ->
  (forall s, P (VStr s)) ->
  (forall xs, Forall P xs -> P (VList xs)) ->
  (forall items, Forall (fun kv => P (snd kv)) items -> P (VDict items)) ->
  forall v, P v.
Proof.
  intros Hnone Hbool Hint Hstr Hlist Hdict.
  fix IH 1. intros [ | b | n | s | xs | items].
  - exact Hnone.
  - apply Hbool.
  - apply Hint.
  - apply Hstr.
  - apply Hlist. induction xs as [|x xs IHxs]; constructor; [apply IH | exact IHxs].
  - apply Hdict. induction items as [|[k x] items IHitems]; constructor;
      [apply IH | exact IHitems].
Qed.

(** The order of the keys is a total order. *)
Lemma string_leb_trans (a b c : string) :
  String.leb a b = true -> String.leb b c = true -> String.leb a c = true.
Proof.
  unfold String.leb. revert b c.
  induction a as [|x a IH]; intros [|y b] [|z c]; simpl; try congruence; auto.
  unfold Ascii.compare.
  destruct (N.compare_spec (N_of_ascii x) (N_of_ascii y)) as [Hxy|Hxy|Hxy];
    destruct (N.compare_spec (N_of_ascii y) (N_of_ascii z)) as [Hyz|Hyz|Hyz];
    destruct (N.compare_spec (N_of_ascii x) (N_of_ascii z)) as [Hxz|Hxz|Hxz];
    try congruence; try lia; eauto.
Qed.

Lemma string_leb_false (a b : string) :
  String.leb a b = false -> String.leb b a = true.
Proof.
  intros H. destruct (String.leb_total a b) as [H'|H']; congruence.
Qed.

(** Closing a goal from contradictory comparisons of keys. *)
Ltac leb_flip :=
  match goal with
  | H : String.leb ?a ?b = false |- _ =>
      lazymatch goal with
      | _ : String.leb b a = true |- _ => fail
      | _ => pose proof (string_leb_false _ _ H)
      end
  end.

Ltac leb_chain :=
  match goal with
  | H1 : String.leb ?a ?b = true, H2 : String.leb ?b ?c = true |- _ =>
      lazymatch goal with
      | _ : String.leb a c = true |- _ => fail
      | _ => pose proof (string_leb_trans _ _ _ H1 H2)
      end
  end.

Ltac leb_order Hne :=
  repeat leb_flip; repeat leb_chain;
  first [ congruence
        | apply Hne; apply String.leb_antisym; assumption ].

Section Sorting.

Context {A : Type}.
Implicit Types (x y : string * A) (l : list (string * A)).

(** Two items with different keys are inserted in either order with the
    same result. *)
Lemma insert_item_comm x y l :
  fst x <> fst y ->
  insert_item x (insert_item y l) = insert_item y (insert_item x l).
Proof.
  intros Hne. induction l as [|z l IH].
  - simpl. destruct (String.leb (fst x) (fst y)) eqn:Exy,
             (String.leb (fst y) (fst x)) eqn:Eyx;
      first [ reflexivity | exfalso; leb_order Hne ].
  - simpl.
    destruct (String.leb (fst y) (fst z)) eqn:Eyz,
             (String.leb (fst x) (fst z)) eqn:Exz; simpl;
      rewrite ?Eyz, ?Exz;
      destruct (String.leb (fst x) (fst y)) eqn:Exy,
               (String.leb (fst y) (fst x)) eqn:Eyx; simpl;
      rewrite ?Eyz, ?Exz;
      first [ reflexivity | now rewrite IH | exfalso; leb_order Hne ].
Qed.

(** Sorting by key forgets the order in which the items came. *)
Lemma sort_items_permutation l l' :
  Permutation l l' -> NoDup (map fst l) -> sort_items l = sort_items l'.
Proof.
  induction 1 as [| x l l' Hp IH | x y l | l l' l'' Hp1 IH1 Hp2 IH2]; intros Hnd.
  - reflexivity.
  - simpl. inversion Hnd; subst. now rewrite IH.
  - simpl. apply insert_item_comm.
    simpl in Hnd. inversion Hnd as [|? ? Hnotin _]; subst.
    intros Heq. apply Hnotin. left. now symmetry.
  - rewrite IH1 by exact Hnd. apply IH2.
    eapply Permutation_NoDup; [|exact Hnd]. now apply Permutation_map.
Qed.

End Sorting.

(** [json.dumps(_, sort_keys=True)] gives the same text for the same logical
    object. *)
Lemma dumps_sorted_same_object (a : value) :
  forall b, wf_value a -> same_object a b -> dumps true a = dumps true b.
Proof.
  induction a as [ | c | n | s | xs IH | items IH] using value_ind_nested;
    intros b Hwf Hsame; inversion Hsame; subst; try reflexivity.
  - (* lists *)
    simpl. do 3 f_equal.
    inversion Hwf as [| | | | ? Hwfs |]; subst.
    match goal with H : Forall2 same_object xs _ |- _ => rename H into Hall end.
    clear Hwf Hsame. revert IH Hwfs.
    induction Hall as [|x y xs ys Hxy Hall IHall]; intros IH Hwfs; [reflexivity|].
    inversion IH; subst. inversion Hwfs; subst.
    simpl. f_equal; auto.
  - (* dicts *)
    simpl. do 3 f_equal.
    inversion Hwf as [| | | | | ? Hnd Hwfs]; subst.
    match goal with
    | Hp : Permutation items ?r, Hf : Forall2 _ ?r _ |- _ =>
        rename Hp into Hperm; rename Hf into Hall
    end.
    set (enc := fun kv : string * value => (fst kv, dumps true (snd kv))).
    assert (Henc : map enc reordered = map enc items').
    { assert (IH' : Forall (fun kv => forall b, wf_value (snd kv) ->
                        same_object (snd kv) b ->
                        dumps true (snd kv) = dumps true b) reordered).
      { rewrite Forall_forall in IH |- *. intros kv Hin. apply IH.
        eapply Permutation_in; [apply Permutation_sym, Hperm | exact Hin]. }
      assert (Hwfs' : Forall (fun kv => wf_value (snd kv)) reordered).
      { rewrite Forall_forall in Hwfs |- *. intros kv Hin. apply Hwfs.
        eapply Permutation_in; [apply Permutation_sym, Hperm | exact Hin]. }
      clear - Hall IH' Hwfs'.
      induction Hall as [|x y xs ys [Hk Hv] Hall IHall]; [reflexivity|].
      inversion IH'; subst. inversion Hwfs'; subst.
      simpl. f_equal; [|auto].
      unfold enc. rewrite Hk. f_equal. auto. }
    rewrite <- Henc. f_equal. apply sort_items_permutation.
    + now apply Permutation_map.
    + rewrite map_map. unfold enc. simpl. exact Hnd.
Qed.

(** Without [sort_keys] the text follows the order of the fields. *)
Example dumps_unsorted_follows_field_order :
  dumps false (VDict [("recipient", VStr "user123"); ("amount", VInt 100)])
  <> dumps false (VDict [("amount", VInt 100); ("recipient", VStr "user123")]).
Proof. discriminate. Qed.

(** C8.  Two objects that are equal as maps, whatever the order of their
    fields at any depth, have the same serialization for signature
    verification, byte for byte, and the same fingerprint. *)
Theorem canonicalization_ignores_field_order
        (lib : IdentitySignature.Library) (a b : value) :
  wf_value a ->
  same_object a b ->
  Blockchain._serialize_for_verification a = Blockchain._serialize_for_verification b /\
  IdentitySignature.calculate_fingerprint lib a
    = IdentitySignature.calculate_fingerprint lib b.
Proof.
  intros Hwf Hsame.
  pose proof (dumps_sorted_same_object a b Hwf Hsame) as Hd.
  split.
  - unfold Blockchain._serialize_for_verification. now rewrite Hd.
  - unfold IdentitySignature.calculate_fingerprint.
    inversion Hsame; subst; try reflexivity. now rewrite Hd.
Qed.

Lemma payload_wf : wf_value payload.
Proof.
  constructor.
  - repeat constructor; simpl; intuition discriminate.
  - repeat constructor; simpl; intuition discriminate.
Qed.

Lemma payload_same_object : same_object payload payload_reordered.
Proof.
  apply same_dict with
    (reordered := [ ("recipient", VStr "user123");
                    ("memo", VDict [("b", VList [VNone]); ("a", VBool true)]);
                    ("amount", VInt 100) ]).
  - eapply perm_trans; [apply perm_swap|]. apply perm_skip.
    eapply perm_trans; [apply perm_swap|]. apply Permutation_refl.
  - repeat constructor.
    apply same_dict with (reordered := [("a", VBool true); ("b", VList [VNone])]).
    + apply perm_swap.
    + repeat constructor.
Qed.

Lemma canonicalization_ignores_field_order_witness :
  Blockchain._serialize_for_verification payload
    = Blockchain._serialize_for_verification payload_reordered /\
  IdentitySignature.calculate_fingerprint strict_library payload
    = IdentitySignature.calculate_fingerprint strict_library payload_reordered.
Proof.
  exact (canonicalization_ignores_field_order strict_library payload payload_reordered
           payload_wf payload_same_object).
Defined.

End CanonicalFacts.

(** ** The validation service of [src/blockchain/validation.py] *)

Section BlockchainFacts.

Import Blockchain.
Local Open Scope string_scope.

(** The three validators catch every exception: they return a boolean on
    every input, whatever the two services do. *)
Lemma validation_service_returns (self : ValidationService) (entity : value) :
  (exists b l, validate_transaction self entity = (Ret b, l)) /\
  (exists b l, validate_block self entity = (Ret b, l)) /\
  (exists b l, validate_proposal self entity = (Ret b, l)).
Proof.
  repeat split; apply try_except_returns; intros e; cbn; eauto.
Qed.

(** On a dict, the field check answers whether every required field is a
    key, and logs the first one that is not. *)
Lemma check_fields_dict (what : string) (required : list string)
      (d : list (string * value)) :
  returned (check_fields what required (VDict d))
    = Ret (forallb (fun field => has_key field d) required).
Proof.
  unfold check_fields.
  induction required as [|f fs IH]; [reflexivity|].
  cbn [for_each forallb].
  change (str_in f (VDict d)) with (ret (has_key f d)).
  rewrite bind_ret_l. destruct (has_key f d); cbn [negb andb].
  - rewrite bind_ret_l. exact IH.
  - reflexivity.
Qed.

Lemma check_fields_dict_complete (what : string) (required : list string)
      (d : list (string * value)) :
  forallb (fun field => has_key field d) required = true ->
  check_fields what required (VDict d) = ret true.
Proof.
  unfold check_fields. intros H.
  rewrite for_each_all_continue; [now rewrite bind_ret_l|].
  intros f Hf. rewrite forallb_forall in H.
  cbn [str_in]. rewrite bind_ret_l, (H f Hf). reflexivity.
Qed.

Lemma required_fields_present (required : list string) (d : list (string * value)) :
  forallb (fun field => has_key field d) required = true <->
  (forall f, In f required -> In f (map fst d)).
Proof.
  rewrite forallb_forall. split; intros H f Hf; apply has_key_In, H, Hf.
Qed.

Lemma validate_transaction_incomplete (self : ValidationService)
      (d : list (string * value)) :
  forallb (fun field => has_key field d) required_transaction_fields = false ->
  returned (validate_transaction self (VDict d)) = Ret false.
Proof.
  intros H. unfold validate_transaction, _check_required_transaction_fields.
  pose proof (check_fields_dict "Transaction" required_transaction_fields d) as Hc.
  rewrite H in Hc.
  destruct (check_fields "Transaction" required_transaction_fields (VDict d))
    as [r l] eqn:E.
  simpl in Hc. subst r. reflexivity.
Qed.

(** C9 (as the code has it).  The dict-based [validate_transaction] of the
    validation service requires exactly the keys [id], [signer], [content]
    and [signature] and returns false when one is missing.  The
    attribute-based [validate_transaction] of the consensus validator
    requires exactly the attributes [id], [sender] and [signature] and
    returns false when one is missing. *)
Theorem required_transaction_fields_checked :
  (forall d,
      returned (_check_required_transaction_fields (VDict d)) = Ret true <->
      (forall f, In f ["id"; "signer"; "content"; "signature"] -> In f (map fst d))) /\
  (forall self d f,
      In f ["id"; "signer"; "content"; "signature"] ->
      ~ In f (map fst d) ->
      returned (validate_transaction self (VDict d)) = Ret false) /\
  (forall o,
      Consensus._validate_transaction_format o = true <->
      (forall f, In f ["id"; "sender"; "signature"] -> hasattr o f = true)) /\
  (forall v o f,
      In f ["id"; "sender"; "signature"] ->
      hasattr o f = false ->
      Consensus.validate_transaction v o
        = (Ret false, [Log ERROR "Invalid transaction format" []])).
Proof.
  split; [|split; [|split]].
  - intros d. unfold _check_required_transaction_fields.
    rewrite check_fields_dict, <- required_fields_present.
    unfold required_transaction_fields.
    split; [intros H; injection H as H; exact H | intros H; now rewrite H].
  - intros self d f Hf Hmiss. apply validate_transaction_incomplete.
    destruct (forallb _ _) eqn:E; [|reflexivity].
    exfalso. apply Hmiss.
    exact (proj1 (required_fields_present required_transaction_fields d) E f Hf).
  - intros o. unfold Consensus._validate_transaction_format.
    now rewrite forallb_forall.
  - intros v o f Hf Hmiss. unfold Consensus.validate_transaction.
    replace (Consensus._validate_transaction_format o) with false; [reflexivity|].
    symmetry. destruct (Consensus._validate_transaction_format o) eqn:E; [|reflexivity].
    unfold Consensus._validate_transaction_format in E.
    rewrite forallb_forall in E. rewrite (E f Hf) in Hmiss. discriminate.
Qed.

Lemma required_transaction_fields_checked_witness :
  returned (_check_required_transaction_fields (VDict transaction_complete)) = Ret true /\
  returned (validate_transaction lenient_service (VDict transaction_without_content))
    = Ret false /\
  Consensus._validate_transaction_format (tx_signed "tx1") = true /\
  Consensus.validate_transaction {| Consensus.identity_service := accept_all |}
                                 tx_without_id
    = (Ret false, [Log ERROR "Invalid transaction format" []]).
Proof.
  destruct required_transaction_fields_checked as (H1 & H2 & H3 & H4).
  split; [|split; [|split]].
  - apply (proj2 (H1 transaction_complete)).
    intros f [<-|[<-|[<-|[<-|[]]]]]; simpl; tauto.
  - apply (H2 lenient_service transaction_without_content "content").
    + simpl; tauto.
    + simpl. intros [H|[H|[H|[]]]]; discriminate H.
  - apply (proj2 (H3 (tx_signed "tx1"))).
    intros f [<-|[<-|[<-|[]]]]; reflexivity.
  - apply (H4 _ tx_without_id "id"); [simpl; tauto | reflexivity].
Defined.

(** C9 as stated fails for the consensus validator: it does not ask for
    [signer] or [content], and accepts a transaction that has neither. *)
Lemma validator_does_not_require_signer_and_content :
  hasattr (tx_signed "tx1") "signer" = false /\
  hasattr (tx_signed "tx1") "content" = false /\
  Consensus._validate_transaction_format (tx_signed "tx1") = true /\
  Consensus.validate_transaction {| Consensus.identity_service := accept_all |}
                                 (tx_signed "tx1")
    = (Ret true, []).
Proof. repeat split. Qed.

(** C2.  The three validators of the validation service return a boolean on
    every input.  The three validators of the consensus validator do not:
    a transaction without [get_message_for_signing] raises
    [AttributeError] whatever the identity service is, a proposal whose
    [transactions] is [None] and a block whose [proposals] is a number raise
    [TypeError], and with the identity service of [identity/service.py]
    a well-formed transaction of a resolvable signer raises
    [AttributeError]. *)
Theorem validators_and_exceptions :
  (forall self entity,
      (exists b l, validate_transaction self entity = (Ret b, l)) /\
      (exists b l, validate_block self entity = (Ret b, l)) /\
      (exists b l, validate_proposal self entity = (Ret b, l))) /\
  (forall v, Consensus.validate_transaction v tx_without_method
             = (Raise AttributeError, [])) /\
  Consensus.validate_proposal {| Consensus.identity_service := accept_all |}
                              (proposal_of (PData VNone))
    = (Raise TypeError, []) /\
  Consensus.validate_block {| Consensus.identity_service := accept_all |}
                           (block_of (PData (VInt 3)))
    = (Raise TypeError, []) /\
  Consensus.validate_transaction
    {| Consensus.identity_service :=
         Consensus.of_identity_service (resolver_of "did:x:1" document_two_keys) |}
    (tx_signed "tx1")
    = (Raise AttributeError, []).
Proof.
  split; [exact validation_service_returns|].
  repeat split.
Qed.

End BlockchainFacts.

(* ================================================================== *)
(** * Part IX.  Further properties of the code *)
(* ================================================================== *)

(** ** The pools of the engine *)

Section EngineRuns.

Import Engine Consensus.
Local Open Scope string_scope.

Lemma add_transaction_state (self : ConsensusEngine) (tx : pyobj) :
  snd (add_transaction self tx)
    = if says_true (validate_transaction (validator self) tx)
      then {| validator := validator self;
              pending_transactions := (pending_transactions self ++ [tx])%list;
              pending_proposals := pending_proposals self;
              current_block := current_block self |}
      else self.
Proof.
  unfold add_transaction, says_true, returned.
  destruct (validate_transaction (validator self) tx) as [[[|]|e] l]; reflexivity.
Qed.

Lemma add_proposal_state (self : ConsensusEngine) (p : pyobj) :
  snd (add_proposal self p)
    = if says_true (validate_proposal (validator self) p)
      then {| validator := validator self;
              pending_transactions := pending_transactions self;
              pending_proposals := (pending_proposals self ++ [p])%list;
              current_block := current_block self |}
      else self.
Proof.
  unfold add_proposal, says_true, returned.
  destruct (validate_proposal (validator self) p) as [[[|]|e] l]; reflexivity.
Qed.

(** X1.  After any sequence of calls of [add_transaction], [add_proposal]
    and [add_block], each pool is the pool before followed by the entities of
    the calls the validator accepted, in the order of the calls and with
    their repetitions: nothing is lost, reordered, removed or deduplicated.
    The validator and the current block are as before. *)
Theorem pools_after_calls (self : ConsensusEngine) (calls : list call) :
  pending_transactions (after_all self calls)
    = (pending_transactions self ++ accepted_transactions (validator self) calls)%list /\
  pending_proposals (after_all self calls)
    = (pending_proposals self ++ accepted_proposals (validator self) calls)%list /\
  validator (after_all self calls) = validator self /\
  current_block (after_all self calls) = current_block self.
Proof.
  unfold after_all. revert self.
  induction calls as [|c calls IH]; intros self.
  - simpl. now rewrite !app_nil_r.
  - cbn [fold_left]. destruct (IH (after self c)) as (Ht & Hp & Hv & Hb).
    rewrite Ht, Hp, Hv, Hb. clear IH Ht Hp Hv Hb.
    destruct c as [tx | p | b]; cbn [after accepted_transactions accepted_proposals].
    + rewrite add_transaction_state.
      destruct (says_true (validate_transaction (validator self) tx));
        cbn [pending_transactions pending_proposals validator current_block];
        rewrite <- ?app_assoc; auto.
    + rewrite add_proposal_state.
      destruct (says_true (validate_proposal (validator self) p));
        cbn [pending_transactions pending_proposals validator current_block];
        rewrite <- ?app_assoc; auto.
    + unfold add_block. cbn [snd]. auto.
Qed.

End EngineRuns.

(** ** The validator with the identity service of [identity/service.py] *)

Section RepositoryIdentityService.

Import Engine Consensus.
Local Open Scope string_scope.

Variable s : Identity.IdentityService.

Let v : Validator := {| identity_service := of_identity_service s |}.

Lemma repository_validator_rejects_transaction (tx : pyobj) (l : list logrec) :
  validate_transaction v tx <> (Ret true, l).
Proof.
  unfold validate_transaction. intros H.
  destruct (_validate_transaction_format tx); cbn [negb] in H;
    [|bind_inv H as u Hu; discriminate].
  bind_inv H as did Hdid. bind_inv H as gm Hgm. bind_inv H as msg Hmsg.
  bind_inv H as sg Hsg. bind_inv H as ok Hok.
  destruct ok.
  - eapply verify_signature_never_true, Hok.
  - cbn [negb] in H. bind_inv H as i Hi. bind_inv H as u Hu. discriminate.
Qed.

Lemma repository_validator_rejects_proposal (p : pyobj) (l : list logrec) :
  validate_proposal v p <> (Ret true, l).
Proof.
  unfold validate_proposal. intros H.
  destruct (_validate_proposal_format p); cbn [negb] in H;
    [|bind_inv H as u Hu; discriminate].
  bind_inv H as did Hdid. bind_inv H as gm Hgm. bind_inv H as msg Hmsg.
  bind_inv H as sg Hsg. bind_inv H as ok Hok.
  destruct ok.
  - eapply verify_signature_never_true, Hok.
  - cbn [negb] in H. bind_inv H as i Hi. bind_inv H as u Hu. discriminate.
Qed.

Lemma repository_validator_rejects_block (b : pyobj) (l : list logrec) :
  validate_block v b <> (Ret true, l).
Proof.
  unfold validate_block. intros H.
  destruct (_validate_block_format b); cbn [negb] in H;
    [|bind_inv H as u Hu; discriminate].
  bind_inv H as did Hdid. bind_inv H as gm Hgm. bind_inv H as msg Hmsg.
  bind_inv H as sg Hsg. bind_inv H as ok Hok.
  destruct ok.
  - eapply verify_signature_never_true, Hok.
  - cbn [negb] in H. bind_inv H as i Hi. bind_inv H as u Hu. discriminate.
Qed.

Lemma says_true_false (m : M bool) :
  (forall l, m <> (Ret true, l)) -> says_true m = false.
Proof.
  intros H. unfold says_true, returned. destruct m as [[[|]|e] l]; try reflexivity.
  exfalso. now apply (H l).
Qed.

(** X2.  A validator built on the identity service of
    [identity/service.py], whatever its resolver, accepts no transaction, no
    proposal and no block; an engine built on it is left exactly as it was
    by every sequence of calls, so its pools never grow. *)
Theorem repository_identity_service_admits_nothing
        (entity : pyobj) (l : list logrec)
        (transactions proposals : list pyobj) (block : pyobj) (calls : list call) :
  validate_transaction v entity <> (Ret true, l) /\
  validate_proposal v entity <> (Ret true, l) /\
  validate_block v entity <> (Ret true, l) /\
  after_all {| validator := v;
               pending_transactions := transactions;
               pending_proposals := proposals;
               current_block := block |} calls
    = {| validator := v;
         pending_transactions := transactions;
         pending_proposals := proposals;
         current_block := block |}.
Proof.
  split; [apply repository_validator_rejects_transaction|].
  split; [apply repository_validator_rejects_proposal|].
  split; [apply repository_validator_rejects_block|].
  unfold after_all.
  induction calls as [|c calls IH]; [reflexivity|].
  cbn [fold_left]. rewrite <- IH at 2. f_equal.
  destruct c as [tx | p | b]; cbn [after].
  - rewrite add_transaction_state. cbn [validator].
    rewrite says_true_false; [reflexivity|].
    intros l'. apply repository_validator_rejects_transaction.
  - rewrite add_proposal_state. cbn [validator].
    rewrite says_true_false; [reflexivity|].
    intros l'. apply repository_validator_rejects_proposal.
  - reflexivity.
Qed.

End RepositoryIdentityService.

(** ** Fail-fast *)

Section FailFast.

Import Consensus.
Local Open Scope string_scope.

Lemma has_key_app {A} (name : string) (a1 a2 : list (string * A)) :
  has_key name (a1 ++ a2) = has_key name a1 || has_key name a2.
Proof.
  unfold has_key. induction a1 as [|[k x] a1 IH]; simpl.
  - destruct (assoc name a2); reflexivity.
  - destruct (String.eqb name k); [reflexivity | exact IH].
Qed.

Lemma assoc_app {A} (name : string) (a1 a2 : list (string * A)) :
  assoc name (a1 ++ a2)
    = match assoc name a1 with Some x => Some x | None => assoc name a2 end.
Proof.
  induction a1 as [|[k x] a1 IH]; simpl; [reflexivity|].
  destruct (String.eqb name k); [reflexivity | exact IH].
Qed.

(** Replacing the value of one attribute leaves the others as they are. *)
Lemma getattr_other {k name : string} (a1 a2 : list (string * pyobj)) (x y : pyobj) :
  name <> k ->
  getattr (PObject (a1 ++ (k, x) :: a2)) name
    = getattr (PObject (a1 ++ (k, y) :: a2)) name.
Proof.
  intros Hne. apply String.eqb_neq in Hne.
  cbn [getattr]. rewrite !assoc_app. cbn [assoc]. now rewrite Hne.
Qed.

Lemma hasattr_replaced (k name : string) (a1 a2 : list (string * pyobj)) (x y : pyobj) :
  hasattr (PObject (a1 ++ (k, x) :: a2)) name
    = hasattr (PObject (a1 ++ (k, y) :: a2)) name.
Proof.
  cbn [hasattr]. rewrite !has_key_app. unfold has_key at 2 4. cbn [assoc].
  destruct (String.eqb name k); reflexivity.
Qed.

Lemma getattr_replaced (k : string) (a1 a2 : list (string * pyobj)) (x : pyobj) :
  has_key k a1 = false ->
  getattr (PObject (a1 ++ (k, x) :: a2)) k = ret x.
Proof.
  intros H. cbn [getattr]. rewrite assoc_app. unfold has_key in H.
  destruct (assoc k a1); [discriminate|].
  cbn [assoc]. now rewrite String.eqb_refl.
Qed.

Lemma iter_obj_seq (xs : list pyobj) : iter_obj (PSeq xs) = ret xs.
Proof. reflexivity. Qed.

(** A loop that does not run past one of its elements does not depend on
    the elements after it. *)
Lemma for_each_stops {A R} (body : A -> M (option R)) (pre post post' : list A) (bad : A) :
  (forall l, body bad <> (Ret None, l)) ->
  for_each (pre ++ bad :: post) body = for_each (pre ++ bad :: post') body.
Proof.
  intros Hbad. induction pre as [|x pre IH]; cbn [app for_each].
  - destruct (body bad) as [[[r|]|e] l] eqn:E; try reflexivity.
    exfalso. now apply (Hbad l).
  - now rewrite IH.
Qed.

Lemma nested_body_stops {A} (validate : A -> M bool) (fail : A -> M (option bool))
      (bad : A) :
  rejecting fail ->
  says_true (validate bad) = false ->
  forall l, (ok <- validate bad ;; if negb ok then fail bad else ret None) <> (Ret None, l).
Proof.
  intros Hrej Hbad l H. bind_inv H as ok Hok.
  destruct ok; cbn [negb] in H.
  - unfold says_true, returned in Hbad. rewrite Hok in Hbad. discriminate.
  - exact (proj1 (Hrej _ _) H).
Qed.

(** X3.  Validation stops at the first nested entity that is not accepted:
    when a transaction of a proposal is not accepted (its validation returns
    false or raises), what [validate_proposal] returns, raises and logs does
    not depend on the transactions that come after it; likewise
    [validate_block] and the proposals after a proposal that is not
    accepted. *)
Theorem validation_stops_at_first_failure
        (v : Validator) (a1 a2 : list (string * pyobj))
        (pre post post' : list pyobj) (bad : pyobj) :
  (has_key "transactions" a1 = false ->
   says_true (validate_transaction v bad) = false ->
   validate_proposal v (PObject (a1 ++ ("transactions", PSeq (pre ++ bad :: post)) :: a2))
     = validate_proposal v (PObject (a1 ++ ("transactions", PSeq (pre ++ bad :: post')) :: a2))) /\
  (has_key "proposals" a1 = false ->
   says_true (validate_proposal v bad) = false ->
   validate_block v (PObject (a1 ++ ("proposals", PSeq (pre ++ bad :: post)) :: a2))
     = validate_block v (PObject (a1 ++ ("proposals", PSeq (pre ++ bad :: post')) :: a2))).
Proof.
  split; intros Hkey Hbad.
  - unfold validate_proposal, _validate_proposal_format.
    cbn [forallb].
    pose proof (fun name => hasattr_replaced "transactions" name a1 a2
                  (PSeq (pre ++ bad :: post)) (PSeq (pre ++ bad :: post'))) as Hhas.
    pose proof (fun name => @getattr_other "transactions" name a1 a2
                  (PSeq (pre ++ bad :: post)) (PSeq (pre ++ bad :: post'))) as Hget.
    rewrite (Hhas "id"), (Hhas "proposer"), (Hhas "signature"), (Hhas "transactions").
    rewrite (Hget "id"), (Hget "proposer"), (Hget "signature"),
      (Hget "get_message_for_signing") by discriminate.
    rewrite !getattr_replaced by exact Hkey.
    rewrite !bind_ret_l, !iter_obj_seq, !bind_ret_l.
    rewrite (for_each_stops _ pre post post' bad); [reflexivity|].
    apply (nested_body_stops (validate_transaction v)
             (fun tx => tx_id <- getattr tx "id" ;;
                        id_ <- getattr _ "id" ;;
                        logger ERROR "Invalid transaction {tx.id} in proposal {proposal.id}"
                               [tx_id; id_] ;;;
                        ret (Some false))).
    + apply (report_two_rejecting (fun tx => getattr tx "id") (fun _ => getattr _ "id")).
    + exact Hbad.
  - unfold validate_block, _validate_block_format.
    cbn [forallb].
    pose proof (fun name => hasattr_replaced "proposals" name a1 a2
                  (PSeq (pre ++ bad :: post)) (PSeq (pre ++ bad :: post'))) as Hhas.
    pose proof (fun name => @getattr_other "proposals" name a1 a2
                  (PSeq (pre ++ bad :: post)) (PSeq (pre ++ bad :: post'))) as Hget.
    rewrite (Hhas "height"), (Hhas "producer"), (Hhas "signature"), (Hhas "proposals").
    rewrite (Hget "height"), (Hget "producer"), (Hget "signature"),
      (Hget "get_message_for_signing") by discriminate.
    rewrite !getattr_replaced by exact Hkey.
    rewrite !bind_ret_l, !iter_obj_seq, !bind_ret_l.
    rewrite (for_each_stops _ pre post post' bad); [reflexivity|].
    apply (nested_body_stops (validate_proposal v)
             (fun p => id_ <- getattr p "id" ;;
                       height <- getattr _ "height" ;;
                       logger ERROR "Invalid proposal {proposal.id} in block {block.height}"
                              [id_; height] ;;;
                       ret (Some false))).
    + apply (report_two_rejecting (fun p => getattr p "id") (fun _ => getattr _ "height")).
    + exact Hbad.
Qed.

Lemma validation_stops_at_first_failure_witness :
  let v := {| identity_service := accept_only "did:x:1" |} in
  validate_proposal v (proposal_of (PSeq [tx_signed "tx1"; tx_forged; tx_signed "tx3"]))
  = validate_proposal v (proposal_of (PSeq [tx_signed "tx1"; tx_forged])) /\
  validate_block v (block_of (PSeq [proposal_of (PSeq [tx_forged]);
                                    proposal_of (PSeq [tx_signed "tx1"])]))
  = validate_block v (block_of (PSeq [proposal_of (PSeq [tx_forged])])).
Proof.
  intros v. split.
  - exact (proj1 (validation_stops_at_first_failure v
                    [ ("id", str "p1"); ("proposer", str "did:x:1");
                      ("signature", str "c2ln") ]
                    [ ("get_message_for_signing", PMethod (str "proposal payload")) ]
                    [tx_signed "tx1"] [tx_signed "tx3"] [] tx_forged)
                 eq_refl eq_refl).
  - exact (proj2 (validation_stops_at_first_failure v
                    [ ("height", PData (VInt 7)); ("producer", str "did:x:1");
                      ("signature", str "c2ln") ]
                    [ ("get_message_for_signing", PMethod (str "block payload")) ]
                    [] [proposal_of (PSeq [tx_signed "tx1"])] []
                    (proposal_of (PSeq [tx_forged])))
                 eq_refl eq_refl).
Defined.

End FailFast.

(** ** What [validate_did_document] accepts *)

Section AcceptedDocuments.

Import Identity.
Local Open Scope string_scope.

Lemma for_each_returns_some {A R} (xs : list A) (body : A -> M (option R))
      (r : R) (l : list logrec) :
  for_each xs body = (Ret (Some r), l) ->
  exists x l', In x xs /\ body x = (Ret (Some r), l').
Proof.
  revert l. induction xs as [|y ys IH]; intros l H; [discriminate|].
  simpl in H. bind_inv H as o Ho. destruct o as [r'|].
  - inversion H; subst. exists y, l0. split; [now left | exact Ho].
  - destruct (IH _ H) as (x & l' & Hin & Hx). exists x, l'. split; [now right | exact Hx].
Qed.

Lemma py_set_values {A} (xs : list A) (f : A -> M value) (vs : list value)
      (l : list logrec) :
  py_set xs f = (Ret vs, l) ->
  Forall2 (fun x v => exists l', f x = (Ret v, l') /\ hashable v = true) xs vs.
Proof.
  revert vs l. induction xs as [|y ys IH]; intros vs l H.
  - inversion H. constructor.
  - simpl in H. bind_inv H as v Hv.
    destruct (hashable v) eqn:Hh; [|discriminate].
    bind_inv H as vs' Hvs'. inversion H; subst.
    constructor; eauto.
Qed.

Lemma set_contains_true (x : value) (ids : list value) (l : list logrec) :
  set_contains x ids = (Ret true, l) -> resolves ids x.
Proof.
  unfold set_contains, resolves. destruct (hashable x); [|discriminate].
  intros H. injection H as H _. apply existsb_exists in H. auto.
Qed.

(** The body of the loop over service references: it falls through only on
    a reference that resolves, and never returns true. *)
Lemma reference_body (ids : list value) (text : string) (ref : value)
      (r : option bool) (l : list logrec) :
  (known <- set_contains ref ids ;;
   if negb known then
     logger ERROR text [PData ref] ;;; ret (Some false)
   else ret None) = (Ret r, l) ->
  r = Some false \/ (r = None /\ resolves ids ref).
Proof.
  intros H. bind_inv H as known Hk. destruct known; cbn [negb] in H.
  - right. inversion H; subst. split; [reflexivity|].
    eapply set_contains_true, Hk.
  - left. bind_inv H as u Hu. now inversion H.
Qed.

Lemma references_body (ids : list value) (m : value) (r : option bool)
      (l : list logrec) :
  (service_refs <- dict_get m "serviceEndpoint" (VList []) ;;
   match service_refs with
   | VList refs =>
       for_each refs (fun service_ref =>
         known <- set_contains service_ref ids ;;
         if negb known then
           logger ERROR
             "Verification method references non-existent service: {service_ref}"
             [PData service_ref] ;;;
           ret (Some false)
         else ret None)
   | _ =>
       if truthy service_refs then
         known <- set_contains service_refs ids ;;
         if negb known then
           logger ERROR
             "Verification method references non-existent service: {service_refs}"
             [PData service_refs] ;;;
           ret (Some false)
         else ret None
       else ret None
   end) = (Ret r, l) ->
  r = Some false \/ (r = None /\ references_resolve ids m).
Proof.
  intros H. bind_inv H as refs Hrefs.
  apply dict_get_returns in Hrefs as (fields & -> & Hrefs).
  unfold references_resolve. cbn [field_or]. rewrite <- Hrefs. clear Hrefs.
  destruct refs as [| b | n | s | refs | d].
  5:{ destruct r as [[|]|].
      - apply for_each_returns_some in H as (x & l' & _ & Hx).
        apply reference_body in Hx as [Hx | (Hx & _)]; discriminate.
      - now left.
      - right. split; [reflexivity|]. apply Forall_forall. intros ref Hin.
        destruct (for_each_completes _ _ _ H ref Hin) as (l' & Hb).
        apply reference_body in Hb as [Hb | (_ & Hb)]; [discriminate | exact Hb]. }
  all: match type of H with
       | (if truthy ?x then _ else _) = _ => destruct (truthy x) eqn:Ht
       end;
    [ apply reference_body in H as [H | (H & Hres)]; [now left | right; auto]
    | inversion H; subst; right; auto ].
Qed.

(** X4.  [validate_did_document] returns true only for a dict with a
    non-empty [id], whose [verificationMethod] is a non-empty list of dicts
    that all carry [id], [type], [controller] and [publicKeyMultibase], whose
    services are dicts, and all of whose service references resolve to a
    declared service id. *)
Theorem validate_did_document_accepts_only_checked
        (document : value) (l : list logrec) :
  validate_did_document document = (Ret true, l) ->
  exists d id_ methods services,
    document = VDict d /\
    assoc "id" d = Some id_ /\ truthy id_ = true /\
    assoc "verificationMethod" d = Some (VList methods) /\ methods <> [] /\
    Forall method_with_fields methods /\
    returned (py_iter (field_or "service" (VList []) document)) = Ret services /\
    Forall declared_service services /\
    Forall (references_resolve (map (field_or "id" VNone) services)) methods.
Proof.
  unfold validate_did_document. intros H.
  bind_inv H as id_ Hid.
  apply dict_get_returns in Hid as (d & -> & Hid).
  destruct (truthy id_) eqn:Hidt; cbn [negb] in H; [|bind_inv H as u Hu; discriminate].
  bind_inv H as vm Hvm.
  apply dict_get_returns in Hvm as (d' & Hd & Hvm). inversion Hd; subst d'; clear Hd.
  destruct (truthy vm) eqn:Htruthy; cbn [negb] in H; [|bind_inv H as u Hu; discriminate].
  bind_inv H as methods Hiter. bind_inv H as r Hr.
  assert (Hrej : rejecting (fun method : value =>
            logger ERROR "Verification method missing required fields: {method}"
                   [PData method] ;;; ret (Some false))).
  { intros x l'. split; intros Hx; bind_inv Hx as u Hu; discriminate. }
  destruct r as [b|].
  { exfalso. inversion H; subst.
    eapply (nested_loop_never_returns_true
              (fun method => py_all required_method_fields (fun k => str_in k method))),
      Hr.
    exact Hrej. }
  bind_inv H as methods' Hiter'. rewrite Hiter in Hiter'. inversion Hiter'; subst methods'.
  bind_inv H as controllers Hset.
  bind_inv H as id' Hid'. bind_inv H as known Hknown. bind_inv H as u Hwarn.
  bind_inv H as sv Hsv. apply dict_get_returns in Hsv as (d' & Hd & Hsv).
  inversion Hd; subst d'; clear Hd.
  bind_inv H as services Hsiter. bind_inv H as ids Hids.
  bind_inv H as methods' Hiter''. rewrite Hiter in Hiter''.
  inversion Hiter''; subst methods'.
  bind_inv H as r Hloop.
  (* every method is a dict with the four keys and a hashable controller *)
  assert (Hfields : forall m, In m methods -> method_with_fields m).
  { intros m Hm.
    assert (Hc : exists c lc, dict_get m "controller" VNone = (Ret c, lc) /\
                              hashable c = true).
    { pose proof (py_set_values _ _ _ _ Hset) as Hall.
      clear - Hall Hm. induction Hall as [|y c ys cs Hy Hall IH]; [destruct Hm|].
      destruct Hm as [<-|Hm]; [|auto].
      destruct Hy as (lc & Hy & Hh). eauto. }
    destruct Hc as (c & lc & Hc & Hh).
    apply dict_get_returns in Hc as (fields & -> & Hc).
    exists fields. split; [reflexivity|]. split.
    - intros k Hk.
      destruct (for_each_completes _ _ _ Hr (VDict fields) Hm) as (l' & Hb).
      bind_inv Hb as ok Hok. destruct ok; cbn [negb] in Hb.
      + destruct (py_all_returns_true _ _ _ Hok k Hk) as (l'' & Hin).
        injection Hin as Hin _. exact Hin.
      + bind_inv Hb as w Hw. discriminate.
    - cbn [field_or]. now rewrite <- Hc. }
  (* the services are dicts with hashable ids, and [ids] is their ids *)
  assert (Hservices : Forall declared_service services /\
                      ids = map (field_or "id" VNone) services).
  { pose proof (py_set_values _ _ _ _ Hids) as Hall.
    clear - Hall. induction Hall as [|y c ys cs Hy Hall IH].
    - split; [constructor | reflexivity].
    - destruct Hy as (lc & Hy & Hh). destruct IH as (Hd & ->).
      apply dict_get_returns in Hy as (fields & -> & Hy).
      split; [|simpl; now rewrite <- Hy].
      constructor; [|exact Hd].
      exists fields. split; [reflexivity|]. cbn [field_or]. now rewrite <- Hy. }
  destruct Hservices as (Hdecl & ->).
  (* the list of methods is the value of [verificationMethod] *)
  assert (Hlist : vm = VList methods /\ methods <> []).
  { destruct vm as [| | | s | ms | items]; try discriminate.
    - destruct s as [|c s]; [discriminate|].
      inversion Hiter; subst methods.
      destruct (Hfields (VStr (String c EmptyString))) as (fields & Hf & _);
        [now left | discriminate].
    - inversion Hiter; subst methods.
      split; [reflexivity|]. destruct ms; [discriminate | congruence].
    - destruct items as [|[k x] items]; [discriminate|].
      inversion Hiter; subst methods.
      destruct (Hfields (VStr k)) as (fields & Hf & _); [now left | discriminate]. }
  destruct Hlist as (-> & Hne).
  exists d, id_, methods, services.
  split; [reflexivity|].
  split.
  { destruct (assoc "id" d); [now subst | subst; discriminate]. }
  split; [exact Hidt|].
  split.
  { destruct (assoc "verificationMethod" d); [now subst | congruence]. }
  split; [exact Hne|].
  split; [now apply Forall_forall|].
  split.
  { cbn [field_or]. rewrite <- Hsv. now rewrite Hsiter. }
  split; [exact Hdecl|].
  apply Forall_forall. intros m Hm.
  destruct r as [[|]|].
  - apply for_each_returns_some in Hloop as (x & l' & _ & Hx).
    apply references_body in Hx as [Hx | (Hx & _)]; discriminate.
  - discriminate.
  - destruct (for_each_completes _ _ _ Hloop m Hm) as (l' & Hb).
    apply references_body in Hb as [Hb | (_ & Hb)]; [discriminate | exact Hb].
Qed.

Lemma validate_did_document_accepts_only_checked_witness :
  exists d id_ methods services,
    document_two_keys = VDict d /\
    assoc "id" d = Some id_ /\ truthy id_ = true /\
    assoc "verificationMethod" d = Some (VList methods) /\ methods <> [] /\
    Forall method_with_fields methods /\
    returned (py_iter (field_or "service" (VList []) document_two_keys)) = Ret services /\
    Forall declared_service services /\
    Forall (references_resolve (map (field_or "id" VNone) services)) methods.
Proof.
  exact (validate_did_document_accepts_only_checked document_two_keys [] eq_refl).
Defined.

End AcceptedDocuments.

(** ** Documents on which [validate_did_document] cannot raise *)

Section TypedDocuments.

Import Identity.
Local Open Scope string_scope.

Lemma returns_ret {A} (a : A) : returns_value (ret a).
Proof. now exists a, []. Qed.

Lemma returns_bind {A B} (m : M A) (k : A -> M B) :
  returns_value m ->
  (forall a l, m = (Ret a, l) -> returns_value (k a)) ->
  returns_value (bind m k).
Proof.
  intros (a & l & Hm) Hk. destruct (Hk a l Hm) as (b & l' & Hb).
  exists b, (l ++ l')%list. rewrite Hm. cbn. now rewrite Hb.
Qed.

Lemma returns_logger {B} (lvl : level) (text : string) (args : list pyobj) (k : M B) :
  returns_value k -> returns_value (logger lvl text args ;;; k).
Proof.
  intros Hk. apply returns_bind; [now exists tt, [Log lvl text args] | auto].
Qed.

Lemma returns_for_each {A R} (xs : list A) (body : A -> M (option R)) :
  (forall x, In x xs -> returns_value (body x)) ->
  returns_value (for_each xs body).
Proof.
  induction xs as [|x xs IH]; intros H; [apply returns_ret|].
  cbn [for_each]. apply returns_bind; [apply H; now left|].
  intros [r|] l _; [apply returns_ret|].
  apply IH. intros y Hy. apply H. now right.
Qed.

Lemma returns_py_all {A} (xs : list A) (p : A -> M bool) :
  (forall x, In x xs -> returns_value (p x)) ->
  returns_value (py_all xs p).
Proof.
  induction xs as [|x xs IH]; intros H; [apply returns_ret|].
  cbn [py_all]. apply returns_bind; [apply H; now left|].
  intros [|] l _; [|apply returns_ret].
  apply IH. intros y Hy. apply H. now right.
Qed.

Lemma returns_set_contains (x : value) (ids : list value) :
  hashable x = true -> returns_value (set_contains x ids).
Proof. intros H. unfold set_contains. rewrite H. apply returns_ret. Qed.

Lemma returns_reference_check (ids : list value) (text : string) (ref : value) :
  hashable ref = true ->
  returns_value
    (known <- set_contains ref ids ;;
     if negb known then logger ERROR text [PData ref] ;;; ret (Some false)
     else ret (@None bool)).
Proof.
  intros Hh. apply returns_bind; [now apply returns_set_contains|].
  intros [|] l _; cbn [negb]; [apply returns_ret|].
  apply returns_logger, returns_ret.
Qed.

(** X5.  On a well-typed document (a dict whose [id] can be hashed, whose
    verification methods are dicts with hashable controllers and service
    references, and whose services are dicts with hashable ids)
    [validate_did_document] returns true or false: it does not raise. *)
Theorem validate_did_document_returns_on_typed (document : value) :
  typed_document document ->
  exists b l, validate_did_document document = (Ret b, l).
Proof.
  intros (d & methods & services & -> & Hid & Hvm & Hmethods & Hsv & Hservices).
  rewrite Forall_forall in Hmethods, Hservices.
  change (returns_value (validate_did_document (VDict d))).
  unfold validate_did_document. cbn [field_or] in Hid, Hvm, Hsv.
  cbn [dict_get]. rewrite Hvm, Hsv, !bind_ret_l.
  destruct (truthy _); cbn [negb]; [|apply returns_logger, returns_ret].
  destruct (truthy (VList methods)); cbn [negb]; [|apply returns_logger, returns_ret].
  cbn [py_iter]. rewrite !bind_ret_l.
  apply returns_bind.
  { apply returns_for_each. intros m Hm.
    destruct (Hmethods m Hm) as (fields & -> & _).
    apply returns_bind.
    - apply returns_py_all. intros k _. apply returns_ret.
    - intros [|] l _; cbn [negb]; [apply returns_ret|].
      apply returns_logger, returns_ret. }
  intros [b|] l _; [apply returns_ret|].
  rewrite (py_set_map methods _ (field_or "controller" VNone)).
  2:{ intros m Hm. destruct (Hmethods m Hm) as (fields & -> & Hc & _).
      split; [reflexivity | exact Hc]. }
  rewrite !bind_ret_l.
  apply returns_bind; [now apply returns_set_contains|].
  intros known l' _.
  apply returns_bind.
  { destruct known; cbn [negb]; [apply returns_ret|].
    exists tt. eexists. reflexivity. }
  intros _ l'' _.
  rewrite (py_set_map services _ (field_or "id" VNone)).
  2:{ intros sv Hs. apply declared_service_id, Hservices, Hs. }
  rewrite !bind_ret_l.
  apply returns_bind.
  { apply returns_for_each. intros m Hm.
    destruct (Hmethods m Hm) as (fields & -> & _ & Hrefs).
    cbn [dict_get field_or] in *. rewrite bind_ret_l.
    destruct (match assoc "serviceEndpoint" fields with
              | Some x => x
              | None => VList []
              end) as [| b | n | s | refs | items].
    5:{ apply returns_for_each. intros ref Hin.
        rewrite Forall_forall in Hrefs.
        apply returns_reference_check, Hrefs, Hin. }
    all: match goal with
         | |- context [truthy ?x] => destruct (truthy x)
         end; [now apply returns_reference_check | apply returns_ret]. }
  intros [b|] l3 _; apply returns_ret.
Qed.

Lemma validate_did_document_returns_on_typed_witness :
  typed_document document_two_keys /\
  exists b l, validate_did_document document_two_keys = (Ret b, l).
Proof.
  assert (Htyped : typed_document document_two_keys).
  { eexists _, _, _. split; [reflexivity|].
    split; [reflexivity|]. split; [reflexivity|].
    split; [|split; [reflexivity | constructor]].
    apply Forall_cons; [|apply Forall_cons; [|apply Forall_nil]];
      (eexists; split; [reflexivity|]; split; [reflexivity | apply Forall_nil]). }
  split; [exact Htyped|].
  exact (validate_did_document_returns_on_typed document_two_keys Htyped).
Defined.

End TypedDocuments.

(** ** [verify_did] and [get_public_key] *)

Section DidAndKey.

Import Identity.
Local Open Scope string_scope.





End DidAndKey.

(** ** What the signature verifier accepts *)

Section VerifierAccepts.

Import IdentitySignature.
Local Open Scope string_scope.

Lemma verify_body_true (lib : Library) (message signature public_key : blob)
      (check : string -> string -> string -> result unit) (algorithm : string)
      (l : list logrec) :
  try_except
    (public_key' <- as_bytes lib public_key ;;
     signature' <- as_bytes lib signature ;;
     let message' := as_message message in
     lift (check public_key' signature' message') ;;;
     ret true)
    (on_failure algorithm) = (Ret true, l) <->
  l = [] /\
  exists public_key' signature',
    returned (as_bytes lib public_key) = Ret public_key' /\
    returned (as_bytes lib signature) = Ret signature' /\
    check public_key' signature' (as_message message) = Ret tt.
Proof.
  set (decoded := fun x : blob =>
          match x with Str s0 => b64decode lib s0 | Bytes b0 => Ret b0 end).
  assert (Hdec : forall x, as_bytes lib x = (decoded x, [])).
  { intros [s0|b0]; reflexivity. }
  rewrite !Hdec. unfold returned, lift. cbn [fst].
  destruct (decoded public_key) as [pk'|e1] eqn:E1.
  2:{ cbn -[on_failure]. split.
      - destruct e1; cbn; discriminate.
      - intros (_ & pk0 & sg0 & H1 & _). discriminate. }
  destruct (decoded signature) as [sg'|e2] eqn:E2.
  2:{ cbn -[on_failure]. split.
      - destruct e2; cbn; discriminate.
      - intros (_ & pk0 & sg0 & _ & H2 & _). discriminate. }
  cbn -[on_failure].
  destruct (check pk' sg' (as_message message)) as [[]|e3] eqn:E3.
  - cbn. split.
    + intros H. inversion H. split; [reflexivity|]. exists pk', sg'. auto.
    + intros (-> & _). reflexivity.
  - cbn -[on_failure]. split.
    + destruct e3; cbn; discriminate.
    + intros (_ & pk0 & sg0 & H1 & H2 & H3).
      inversion H1; inversion H2; subst. congruence.
Qed.

(** X7.  [verify] returns a boolean on every input, and the boolean is true
    exactly when the selected library check (Ed25519 or RSA, by the
    lower-cased key type) passes on the decoded key, the decoded signature
    and the bytes of the message; in that case nothing is logged. *)
Theorem verify_true_iff_check_passes
        (lib : Library) (message signature public_key : blob) (key_type : string) :
  exists b l,
    verify lib message signature public_key key_type = (Ret b, l) /\
    (b = true <-> check_passes lib message signature public_key key_type) /\
    (b = true -> l = []).
Proof.
  destruct (verify_returns lib message signature public_key key_type) as (b & l & H).
  exists b, l. split; [exact H|].
  assert (Hiff : forall l0,
             verify lib message signature public_key key_type = (Ret true, l0) <->
             l0 = [] /\ check_passes lib message signature public_key key_type).
  { intros l0. unfold verify, check_passes.
    destruct (String.eqb_spec (lower key_type) "ed25519") as [He|He].
    - assert (Hin : _verify_ed25519 lib message signature public_key = (Ret true, l0) <->
                    try_except (_verify_ed25519 lib message signature public_key)
                      (fun e => logger ERROR "Signature verification error: {str(e)}" [] ;;;
                                ret false) = (Ret true, l0)).
      { destruct (_verify_ed25519_returns lib message signature public_key)
          as (b' & l' & ->). reflexivity. }
      rewrite <- Hin. unfold _verify_ed25519. rewrite verify_body_true.
      split.
      + intros (-> & pk' & sg' & H1 & H2 & H3). split; [reflexivity|].
        exists pk', sg'. auto.
      + intros (-> & pk' & sg' & H1 & H2 & [(_ & H3) | (Hr & _)]).
        * split; [reflexivity|]. exists pk', sg'. auto.
        * rewrite He in Hr. discriminate.
    - destruct (String.eqb_spec (lower key_type) "rsa") as [Hr|Hr].
      + assert (Hin : _verify_rsa lib message signature public_key = (Ret true, l0) <->
                      try_except (_verify_rsa lib message signature public_key)
                        (fun e => logger ERROR "Signature verification error: {str(e)}" [] ;;;
                                  ret false) = (Ret true, l0)).
        { destruct (_verify_rsa_returns lib message signature public_key)
            as (b' & l' & ->). reflexivity. }
        rewrite <- Hin. unfold _verify_rsa. rewrite verify_body_true.
        split.
        * intros (-> & pk' & sg' & H1 & H2 & H3). split; [reflexivity|].
          exists pk', sg'. auto.
        * intros (-> & pk' & sg' & H1 & H2 & [(He' & _) | (_ & H3)]).
          -- congruence.
          -- split; [reflexivity|]. exists pk', sg'. auto.
      + split; [discriminate|].
        intros (_ & pk' & sg' & _ & _ & [(He' & _) | (Hr' & _)]); congruence. }
  split; [split|].
  - intros ->. apply Hiff in H. tauto.
  - intros Hc. destruct b; [reflexivity|].
    exfalso.
    assert (Ht : exists l', verify lib message signature public_key key_type
                            = (Ret true, l')).
    { exists []. apply Hiff. auto. }
    destruct Ht as (l' & Ht). rewrite H in Ht. discriminate.
  - intros ->. apply Hiff in H. tauto.
Qed.

End VerifierAccepts.

(** ** The validation service: what it accepts and what it does not look at *)

Section ValidationServiceFacts.

Import Blockchain.
Local Open Scope string_scope.

Lemma for_each_ext {A R} (xs : list A) (f g : A -> M (option R)) :
  (forall x, f x = g x) -> for_each xs f = for_each xs g.
Proof.
  intros H. induction xs as [|x xs IH]; [reflexivity|].
  cbn [for_each]. now rewrite H, IH.
Qed.

Lemma bind_ext {A B} (m : M A) (k k' : A -> M B) :
  (forall a, k a = k' a) -> bind m k = bind m k'.
Proof.
  intros H. unfold bind. destruct m as [[a|e] l]; [now rewrite H | reflexivity].
Qed.

(** A handler that answers false leaves only one way to true. *)
Lemma try_except_true (body : M bool) (handler : exn -> M bool) (l : list logrec) :
  (forall e l', handler e <> (Ret true, l')) ->
  try_except body handler = (Ret true, l) ->
  body = (Ret true, l).
Proof.
  intros Hh. unfold try_except. destruct body as [[b|e] l0].
  - auto.
  - destruct (handler e) as [r l'] eqn:E. intros H. inversion H; subst.
    exfalso. eapply Hh, E.
Qed.

Lemma log_and_false_not_true (text : string) (l : list logrec) :
  (logger ERROR text [] ;;; ret false) <> (Ret true, l).
Proof. discriminate. Qed.

(** Looking a key up does not depend on the order of the items. *)
Lemma assoc_permutation {A} (k : string) (d d' : list (string * A)) :
  NoDup (map fst d) -> Permutation d d' -> assoc k d = assoc k d'.
Proof.
  intros Hnd Hp. induction Hp as [| [k1 x] l l' Hp IH | [k1 x] [k2 y] l | l l' l'' Hp1 IH1 Hp2 IH2].
  - reflexivity.
  - cbn [assoc]. inversion Hnd; subst. now rewrite IH.
  - cbn [assoc]. cbn [map fst] in Hnd. inversion Hnd as [|? ? Hnotin _]; subst.
    destruct (String.eqb_spec k k2) as [E2|H2], (String.eqb_spec k k1) as [E1|H1];
      try reflexivity.
    exfalso. apply Hnotin. left. congruence.
  - rewrite IH1 by exact Hnd. apply IH2.
    eapply Permutation_NoDup; [|exact Hnd]. now apply Permutation_map.
Qed.

(** The validator reads a transaction through its keys only. *)
Lemma validate_transaction_by_lookup (self : ValidationService)
      (d d' : list (string * value)) :
  (forall k, assoc k d = assoc k d') ->
  validate_transaction self (VDict d) = validate_transaction self (VDict d').
Proof.
  intros H.
  assert (Hin : forall k, str_in k (VDict d) = str_in k (VDict d')).
  { intros k. cbn [str_in]. unfold has_key. now rewrite H. }
  assert (Hget : forall k default,
             dict_get (VDict d) k default = dict_get (VDict d') k default).
  { intros k default. cbn [dict_get]. now rewrite H. }
  unfold validate_transaction, _check_required_transaction_fields, check_fields.
  rewrite (for_each_ext _ _ (fun field =>
             present <- str_in field (VDict d') ;;
             if negb present then
               logger ERROR ("Transaction" ++ " missing required field: {field}")
                      [PData (VStr field)] ;;;
               ret (Some false)
             else ret None)).
  2:{ intros field. now rewrite Hin. }
  now rewrite !Hget.
Qed.

(** X8.  The validation of a dict-shaped transaction does not depend on the
    order of the transaction's fields, nor on the order of the fields of its
    content at any depth: what [validate_transaction] returns and logs is the
    same. *)
Theorem validate_transaction_ignores_field_order (self : ValidationService) :
  (forall d d',
      NoDup (map fst d) ->
      Permutation d d' ->
      validate_transaction self (VDict d) = validate_transaction self (VDict d')) /\
  (forall pre post content content',
      has_key "content" pre = false ->
      Json.wf_value content ->
      Json.same_object content content' ->
      validate_transaction self (VDict (pre ++ ("content", content) :: post))
        = validate_transaction self (VDict (pre ++ ("content", content') :: post))).
Proof.
  split.
  - intros d d' Hnd Hp. apply validate_transaction_by_lookup.
    intros k. now apply assoc_permutation.
  - intros pre post c c' Hpre Hwf Hsame.
    set (d := (pre ++ ("content", c) :: post)%list).
    set (d' := (pre ++ ("content", c') :: post)%list).
    assert (Hother : forall k, k <> "content" -> assoc k d = assoc k d').
    { intros k Hk. unfold d, d'. rewrite !assoc_app. cbn [assoc].
      apply String.eqb_neq in Hk. now rewrite Hk. }
    assert (Hhas : forall k, has_key k d = has_key k d').
    { intros k. unfold d, d'. rewrite !has_key_app. unfold has_key at 2 4.
      cbn [assoc]. destruct (String.eqb k "content"); reflexivity. }
    assert (Hc : assoc "content" d = Some c /\ assoc "content" d' = Some c').
    { unfold d, d'. rewrite !assoc_app. unfold has_key in Hpre.
      destruct (assoc "content" pre); [discriminate|]. now cbn. }
    destruct Hc as (Hc & Hc').
    assert (Hser : _serialize_for_verification c = _serialize_for_verification c').
    { unfold _serialize_for_verification.
      now rewrite (dumps_sorted_same_object c c' Hwf Hsame). }
    unfold validate_transaction, _check_required_transaction_fields, check_fields.
    rewrite (for_each_ext _ _ (fun field =>
               present <- str_in field (VDict d') ;;
               if negb present then
                 logger ERROR ("Transaction" ++ " missing required field: {field}")
                        [PData (VStr field)] ;;;
                 ret (Some false)
               else ret None)).
    2:{ intros field. cbn [str_in]. now rewrite Hhas. }
    cbn [dict_get]. rewrite (Hother "signer"), (Hother "signature") by discriminate.
    rewrite Hc, Hc'. f_equal.
    apply bind_ext. intros complete. destruct (negb complete); [reflexivity|].
    apply bind_ext. intros did. apply bind_ext. intros document.
    destruct (negb (truthy document)); [reflexivity|].
    apply bind_ext. intros valid. destruct (negb valid); [reflexivity|].
    rewrite !bind_ret_l. now rewrite Hser.
Qed.

Lemma validate_transaction_ignores_field_order_witness :
  validate_transaction lenient_service
    (VDict [ ("id", VStr "tx123"); ("signer", VStr "did:icn:test123");
             ("content", payload); ("signature", VStr "00ff") ])
  = validate_transaction lenient_service
    (VDict [ ("signer", VStr "did:icn:test123"); ("id", VStr "tx123");
             ("content", payload); ("signature", VStr "00ff") ]) /\
  validate_transaction lenient_service
    (VDict ([ ("id", VStr "tx123"); ("signer", VStr "did:icn:test123") ]
            ++ ("content", payload) :: [ ("signature", VStr "00ff") ]))
  = validate_transaction lenient_service
    (VDict ([ ("id", VStr "tx123"); ("signer", VStr "did:icn:test123") ]
            ++ ("content", payload_reordered) :: [ ("signature", VStr "00ff") ])).
Proof.
  destruct (validate_transaction_ignores_field_order lenient_service) as (H1 & H2).
  split.
  - apply H1.
    + repeat constructor; simpl; intuition discriminate.
    + apply perm_swap.
  - apply H2; [reflexivity | exact payload_wf | exact payload_same_object].
Defined.

(** X9.  A transaction that [validate_transaction] accepts is a dict with
    the four required keys; a document was found for its signer and
    validated; its signature is a str that [bytes.fromhex] decodes; and the
    federation verified the decoded signature over the canonical bytes of the
    content against that document. *)
Theorem validate_transaction_accepts_only_verified
        (self : ValidationService) (transaction : value) (l : list logrec) :
  validate_transaction self transaction = (Ret true, l) ->
  exists d document hex signature,
    transaction = VDict d /\
    (forall f, In f required_transaction_fields -> In f (map fst d)) /\
    returned (get_did_document self (field_or "signer" VNone transaction))
      = Ret document /\
    truthy document = true /\
    returned (validate_did_document self document) = Ret true /\
    field_or "signature" VNone transaction = VStr hex /\
    bytes_fromhex self hex = Ret signature /\
    returned (federation_verify_signature self
                (_serialize_for_verification
                   (field_or "content" (VDict []) transaction))
                signature document) = Ret true.
Proof.
  intros H. unfold validate_transaction in H.
  apply try_except_true in H; [|intros e l'; apply log_and_false_not_true].
  bind_inv H as complete Hcomplete.
  destruct complete; cbn [negb] in H; [|discriminate].
  bind_inv H as did Hdid.
  apply dict_get_returns in Hdid as (d & -> & Hdid).
  bind_inv H as document Hdoc.
  destruct (truthy document) eqn:Ht; cbn [negb] in H;
    [|bind_inv H as u Hu; discriminate].
  bind_inv H as valid Hvalid.
  destruct valid; cbn [negb] in H; [|bind_inv H as u Hu; discriminate].
  bind_inv H as content Hcontent.
  apply dict_get_returns in Hcontent as (d' & Hd & Hcontent).
  inversion Hd; subst d'; clear Hd.
  bind_inv H as signature_hex Hhex.
  apply dict_get_returns in Hhex as (d' & Hd & Hhex).
  inversion Hd; subst d'; clear Hd.
  bind_inv H as signature Hsig.
  bind_inv H as ok Hok.
  destruct ok; cbn [negb] in H; [|bind_inv H as u Hu; discriminate].
  destruct signature_hex as [| | | hex | |]; try discriminate.
  exists d, document, hex, signature.
  split; [reflexivity|].
  split.
  { apply required_fields_present.
    pose proof (check_fields_dict "Transaction" required_transaction_fields d) as Hc.
    unfold _check_required_transaction_fields in Hcomplete.
    rewrite Hcomplete in Hc. now injection Hc as Hc. }
  cbn [field_or]. rewrite <- Hdid, <- Hcontent, <- Hhex.
  rewrite Hdoc, Hvalid, Hok.
  repeat split; try reflexivity; try exact Ht.
  unfold fromhex in Hsig. now injection Hsig as Hsig _.
Qed.

Lemma validate_transaction_accepts_only_verified_witness :
  exists d document hex signature,
    VDict transaction_complete = VDict d /\
    (forall f, In f required_transaction_fields -> In f (map fst d)) /\
    returned (get_did_document lenient_service
                (field_or "signer" VNone (VDict transaction_complete)))
      = Ret document /\
    truthy document = true /\
    returned (validate_did_document lenient_service document) = Ret true /\
    field_or "signature" VNone (VDict transaction_complete) = VStr hex /\
    bytes_fromhex lenient_service hex = Ret signature /\
    returned (federation_verify_signature lenient_service
                (_serialize_for_verification
                   (field_or "content" (VDict []) (VDict transaction_complete)))
                signature document) = Ret true.
Proof.
  exact (validate_transaction_accepts_only_verified lenient_service
           (VDict transaction_complete) [] eq_refl).
Defined.

(** X10.  A block that [validate_block] accepts is a dict with the five
    required keys, and every element of its [transactions] is accepted by
    [validate_transaction]. *)
Theorem validate_block_accepts_only_valid_transactions
        (self : ValidationService) (block : value) (l : list logrec) :
  validate_block self block = (Ret true, l) ->
  exists d transactions,
    block = VDict d /\
    (forall f, In f required_block_fields -> In f (map fst d)) /\
    returned (py_iter (field_or "transactions" (VList []) block)) = Ret transactions /\
    forall tx, In tx transactions ->
               returned (validate_transaction self tx) = Ret true.
Proof.
  intros H. unfold validate_block in H.
  apply try_except_true in H; [|intros e l'; apply log_and_false_not_true].
  bind_inv H as complete Hcomplete.
  destruct complete; cbn [negb] in H; [|discriminate].
  bind_inv H as did Hdid.
  apply dict_get_returns in Hdid as (d & -> & Hdid).
  bind_inv H as document Hdoc.
  destruct (truthy document) eqn:Ht; cbn [negb] in H;
    [|bind_inv H as u Hu; discriminate].
  bind_inv H as valid Hvalid.
  destruct valid; cbn [negb] in H; [|bind_inv H as u Hu; discriminate].
  bind_inv H as items Hitems.
  bind_inv H as signature_hex Hhex.
  bind_inv H as signature Hsig.
  bind_inv H as ok Hok.
  destruct ok; cbn [negb] in H; [|bind_inv H as u Hu; discriminate].
  bind_inv H as tv Htv.
  apply dict_get_returns in Htv as (d' & Hd & Htv).
  inversion Hd; subst d'; clear Hd.
  bind_inv H as transactions Hiter.
  bind_inv H as r Hr.
  exists d, transactions.
  split; [reflexivity|].
  split.
  { apply required_fields_present.
    pose proof (check_fields_dict "Block" required_block_fields d) as Hc.
    unfold _check_required_block_fields in Hcomplete.
    rewrite Hcomplete in Hc. now injection Hc as Hc. }
  cbn [field_or]. rewrite <- Htv, Hiter.
  split; [reflexivity|].
  assert (Hrej : rejecting (fun tx : value =>
            tx_id <- dict_get tx "id" (VStr "unknown") ;;
            logger ERROR "Invalid transaction in block: {tx.get('id', 'unknown')}"
                   [PData tx_id] ;;;
            ret (Some false))).
  { intros x l'. split; intros Hx; bind_inv Hx as i Hi; bind_inv Hx as u Hu;
      discriminate. }
  destruct r as [b|].
  - exfalso. inversion H; subst.
    eapply (nested_loop_never_returns_true (validate_transaction self)), Hr.
    exact Hrej.
  - eapply (nested_loop_completes (validate_transaction self)), Hr. exact Hrej.
Qed.

Lemma validate_block_accepts_only_valid_transactions_witness :
  let block :=
    VDict [ ("id", VStr "block1"); ("producer", VStr "did:icn:test123");
            ("timestamp", VInt 1700000000);
            ("transactions", VList [VDict transaction_complete]);
            ("signature", VStr "00ff") ] in
  exists d transactions,
    block = VDict d /\
    (forall f, In f required_block_fields -> In f (map fst d)) /\
    returned (py_iter (field_or "transactions" (VList []) block)) = Ret transactions /\
    forall tx, In tx transactions ->
               returned (validate_transaction lenient_service tx) = Ret true.
Proof.
  intros block.
  exact (validate_block_accepts_only_valid_transactions lenient_service block []
           eq_refl).
Defined.

End ValidationServiceFacts.

(* ================================================================== *)
(** * Part X.  The credentials, the federation and the key store *)
(* ================================================================== *)

(** ** [identity/service.py]: credentials *)

Section CredentialFacts.

Import Identity Credentials.
Local Open Scope string_scope.

Lemma try_except_false (body : M bool) (text : string) :
  (forall l, body <> (Ret true, l)) ->
  exists l, try_except body (fun _ => logger ERROR text [] ;;; ret false) = (Ret false, l).
Proof.
  intros H. unfold try_except. destruct body as [[[|]|e] l]; cbn; eauto.
  exfalso. now apply (H l).
Qed.

Lemma try_except_true_iff (body : M bool) (handler : exn -> M bool) :
  (forall e l', handler e <> (Ret true, l')) ->
  returned (try_except body handler) = Ret true <-> returned body = Ret true.
Proof.
  intros Hh. unfold try_except, returned. destruct body as [[b|e] l]; cbn; [tauto|].
  destruct (handler e) as [r l'] eqn:E. cbn. split; [|discriminate].
  intros ->. exfalso. exact (Hh e l' E).
Qed.

(** X11.  [verify_credential] returns false on every credential, whatever
    [parse_credential], [get_message_to_verify] and [resolve_did] a
    deployment supplies: the signature check at its end is
    [IdentityService.verify_signature], which never returns true, and every
    exception is caught. *)
Theorem verify_credential_never_accepts
        (self : CredentialService) (credential : pyobj) :
  exists l, verify_credential self credential = (Ret false, l).
Proof.
  unfold verify_credential. apply try_except_false. intros l H.
  bind_inv H as credential_data Hp.
  bind_inv H as complete Hc.
  destruct complete; cbn [negb] in H; [|bind_inv H as u Hu; discriminate].
  bind_inv H as issuer Hi.
  bind_inv H as known Hk.
  destruct known; cbn [negb] in H.
  2:{ bind_inv H as issuer' Hi'. bind_inv H as u Hu. discriminate. }
  bind_inv H as message Hm.
  bind_inv H as proof Hpr.
  bind_inv H as signature Hs.
  destruct (truthy signature); cbn [negb] in H; [|bind_inv H as u Hu; discriminate].
  bind_inv H as issuer' Hi'.
  now apply verify_signature_never_true in H.
Qed.

End CredentialFacts.

(** ** [federation/signature.py] and [federation/federation.py] *)

Section FederationSignatureFacts.

Import IdentitySignature FederationSignature.
Local Open Scope string_scope.

Lemma federation_handler_returns (e : exn) :
  exists l,
    match e with
    | InvalidSignature =>
        logger WARNING "Invalid signature detected" [] ;;; ret false
    | _ =>
        logger ERROR "Error verifying signature: {e}" [] ;;; ret false
    end = (Ret false, l).
Proof. destruct e; cbn; eauto. Qed.

Lemma federation_verify_returns (lib : Library) (message signature public_key : blob) :
  exists b l, verify_signature lib message signature public_key = (Ret b, l).
Proof.
  unfold verify_signature. apply try_except_returns.
  intros e. destruct (federation_handler_returns e) as (l & ->). eauto.
Qed.

(** X12.  [SignatureVerifier.verify_signature] returns a boolean on every
    message, signature and key; the boolean is true exactly when the
    signature and the key decode, the key loads and the ECDSA check of the
    signature over the SHA-256 digest of the message passes; and
    [Federation.verify_signature] returns and logs the same: its handler is
    never entered. *)
Theorem federation_verify_signature_true_iff_ecdsa_passes
        (lib : Library) (message signature public_key : blob) :
  (exists b l, verify_signature lib message signature public_key = (Ret b, l)) /\
  (returned (verify_signature lib message signature public_key) = Ret true
   <-> ecdsa_passes lib message signature public_key) /\
  federation_verify_signature lib message signature public_key
  = verify_signature lib message signature public_key.
Proof.
  split; [apply federation_verify_returns|]. split.
  - unfold verify_signature.
    rewrite try_except_true_iff
      by (intros e l' H; destruct e; cbn in H; discriminate).
    unfold ecdsa_passes, returned, lift.
    destruct (decode_signature lib signature) as [[signature'|e1] l1]; cbn.
    2:{ split; [discriminate | intros (s' & k' & o & H & _); discriminate]. }
    destruct (decode_public_key lib public_key) as [[public_key'|e2] l2]; cbn.
    2:{ split; [discriminate | intros (s' & k' & o & _ & H & _); discriminate]. }
    destruct (load_der_public_key lib public_key') as [pub_key_obj|e3] eqn:Hload; cbn.
    2:{ split; [discriminate|].
        intros (s' & k' & o & _ & H & Hl & _). injection H as <-. congruence. }
    destruct (ecdsa_verify_prehashed lib pub_key_obj signature'
                (digest_sha256 lib (as_message message))) as [[]|e4] eqn:Hv; cbn.
    + split; [|reflexivity].
      intros _. exists signature', public_key', pub_key_obj. auto.
    + split; [discriminate|].
      intros (s' & k' & o & Hs' & Hk' & Hl & Hc).
      injection Hs' as <-. injection Hk' as <-.
      rewrite Hload in Hl. injection Hl as <-. congruence.
  - unfold federation_verify_signature.
    destruct (federation_verify_returns lib message signature public_key)
      as (b & l & ->).
    reflexivity.
Qed.

Lemma startswith_z_prefixed (key : string) : startswith_z (String "z" key) = true.
Proof. unfold startswith_z. destruct key; reflexivity. Qed.

(** X13.  The multibase prefix is optional: a str key without a leading
    ['z'] verifies as the same key behind a ['z']. *)
Theorem verify_signature_multibase_prefix_optional
        (lib : Library) (message signature : blob) (key : string) :
  startswith_z key = false ->
  verify_signature lib message signature (Str (String "z" key))
  = verify_signature lib message signature (Str key).
Proof.
  intros Hz. unfold verify_signature, decode_public_key.
  rewrite Hz, startswith_z_prefixed. reflexivity.
Qed.

Lemma verify_signature_multibase_prefix_optional_witness :
  startswith_z "3yZe7d" = false /\
  verify_signature plain_ecdsa (Str "payload") (Str "payload") (Str "z3yZe7d")
  = verify_signature plain_ecdsa (Str "payload") (Str "payload") (Str "3yZe7d").
Proof.
  split; [reflexivity|].
  exact (verify_signature_multibase_prefix_optional plain_ecdsa
           (Str "payload") (Str "payload") "3yZe7d" eq_refl).
Defined.

End FederationSignatureFacts.

(** ** [src/federation/federation.py] *)

Section IcnFederationFacts.

Import Icn.
Local Open Scope string_scope.

Lemma getitem_returns (v : value) (k : string) (x : value) (l : list logrec) :
  getitem v k = (Ret x, l) -> exists d, v = VDict d /\ assoc k d = Some x.
Proof.
  destruct v; try discriminate. cbn.
  destruct (assoc k items) as [y|] eqn:E; [|discriminate].
  intros H. injection H as <- _. eauto.
Qed.

Lemma first_item_returns (v x : value) (l : list logrec) :
  first_item v = (Ret x, l) ->
  (exists rest, v = VList (x :: rest)) \/
  (exists c rest, v = VStr (String c rest) /\ x = VStr (String c EmptyString)).
Proof.
  destruct v as [| | |s|xs|d]; try discriminate.
  - destruct s as [|c rest]; [discriminate|].
    intros H. injection H as <- _. right. eauto.
  - destruct xs as [|y rest]; [discriminate|].
    intros H. injection H as <- _. left. eauto.
Qed.

Lemma icn_verify_returns (lib : Crypto) (message signature : string) (document : value) :
  exists b l, verify_signature lib message signature document = (Ret b, l).
Proof.
  unfold verify_signature. apply try_except_returns. intros e. cbn. eauto.
Qed.

(** What [verify_signature] returns and logs on a document whose first key
    parses. *)
Lemma icn_verify_with_first_key
      (lib : Crypto) (message signature : string) (document : value)
      (public_key : string) :
  first_public_key lib document public_key ->
  verify_signature lib message signature document
  = try_except
      (IdentitySignature.lift (signatures_verify lib message signature public_key))
      (fun e => logger ERROR "Signature verification failed: {str(e)}" [] ;;; ret false).
Proof.
  intros (d & fields & rest & hex & -> & Hk & Hhex & Hpk).
  unfold verify_signature, py_or. cbn [str_in getitem first_item].
  unfold has_key. rewrite Hk. cbn [truthy negb]. rewrite !bind_ret_l.
  cbn [truthy negb first_item]. rewrite !bind_ret_l.
  cbn [str_in getitem]. unfold has_key. rewrite Hhex. rewrite !bind_ret_l.
  cbn [negb].
  unfold IdentitySignature.lift at 1. rewrite Hpk.
  change (@pair (result string) (list logrec) (Ret public_key) []) with (ret public_key).
  now rewrite bind_ret_l.
Qed.

(** X14.  [Federation.verify_signature] returns a boolean on every message,
    signature and document.  The boolean is true exactly when the document
    is a dict whose [publicKey] is a list, the first entry of the list is a
    dict whose [publicKeyHex] the library parses, and [signatures.verify]
    returns true with that key: the other entries of [publicKey] are never
    read. *)
Theorem icn_verify_signature_true_iff_first_key_verifies
        (lib : Crypto) (message signature : string) (document : value) :
  (exists b l, verify_signature lib message signature document = (Ret b, l)) /\
  (returned (verify_signature lib message signature document) = Ret true
   <-> exists public_key,
         first_public_key lib document public_key /\
         signatures_verify lib message signature public_key = Ret true).
Proof.
  split; [apply icn_verify_returns|]. split.
  - unfold verify_signature.
    rewrite try_except_true_iff by (intros e l' H; cbn in H; discriminate).
    match goal with |- returned ?b = _ -> _ => destruct b as [r l] eqn:H end.
    unfold returned. cbn [fst]. intros ->.
    bind_inv H as missing Hm.
    destruct missing; [bind_inv H as u Hu; discriminate|].
    bind_inv H as public_keys Hkeys.
    apply getitem_returns in Hkeys as (d & -> & Hkeys).
    bind_inv H as info Hinfo.
    bind_inv H as present Hpresent.
    destruct present; cbn [negb] in H; [|bind_inv H as u Hu; discriminate].
    bind_inv H as hex Hhex.
    apply getitem_returns in Hhex as (fields & -> & Hhex).
    bind_inv H as public_key Hpk.
    unfold IdentitySignature.lift in Hpk, H.
    injection Hpk as Hpk _. injection H as H _.
    apply first_item_returns in Hinfo as [(rest & ->)|(c & rest & _ & Hx)];
      [|discriminate].
    exists public_key. split; [|exact H].
    now exists d, fields, rest, hex.
  - intros (public_key & Hfirst & Hv).
    rewrite (icn_verify_with_first_key lib message signature document public_key Hfirst).
    unfold IdentitySignature.lift. now rewrite Hv.
Qed.

End IcnFederationFacts.

(** ** [src/identity/identity_service.py]: documents *)

Section IcnDocumentFacts.

Import Icn.
Local Open Scope string_scope.

Lemma py_or_false (a b : M bool) (l : list logrec) :
  py_or a b = (Ret false, l) ->
  (exists l1, a = (Ret false, l1)) /\ (exists l2, b = (Ret false, l2)).
Proof.
  unfold py_or. intros H. bind_inv H as x Hx.
  destruct x; [discriminate|]. eauto.
Qed.

Lemma absent_false (k : string) (v : value) (l : list logrec) :
  (present <- str_in k v ;; ret (negb present)) = (Ret false, l) ->
  exists l', str_in k v = (Ret true, l').
Proof.
  intros H. bind_inv H as present Hp.
  destruct present; [eauto | discriminate].
Qed.

Lemma icn_validate_returns (lib : Crypto) (document : value) :
  exists b l, validate_did_document lib document = (Ret b, l).
Proof.
  unfold validate_did_document. apply try_except_returns. intros e. cbn. eauto.
Qed.

(** On an [icn_document] the validator returns true and logs nothing. *)
Lemma icn_validate_accepts (lib : Crypto) (document : value) :
  icn_document lib document -> validate_did_document lib document = ret true.
Proof.
  intros (d & did & keys & -> & Hid & Hprefix & Hkeys & Hne & Hall).
  unfold validate_did_document, py_or.
  cbn [for_each str_in getitem]. unfold has_key. rewrite Hid, Hkeys.
  rewrite !bind_ret_l. cbn [negb]. rewrite !bind_ret_l.
  cbn [startswith_did_icn]. rewrite !bind_ret_l, Hprefix. cbn [negb].
  assert (Ht : truthy (VList keys) = true) by (destruct keys; [congruence | reflexivity]).
  rewrite Ht. cbn [negb is_list py_iter]. rewrite !bind_ret_l.
  rewrite for_each_all_continue; [reflexivity|].
  intros key Hkey. rewrite Forall_forall in Hall.
  destruct (Hall key Hkey) as (fields & hex & public_key & -> & Hi & Hc & Hhex & Hpk).
  cbn [str_in getitem]. rewrite Hi, Hc. unfold has_key. rewrite Hhex.
  rewrite !bind_ret_l. cbn [negb]. rewrite ?bind_ret_l. cbn [negb].
  rewrite ?bind_ret_l. unfold IdentitySignature.lift. rewrite Hpk. reflexivity.
Qed.

(** X15.  [validate_did_document] returns a boolean on every document.  The
    boolean is true exactly when the document is a dict whose [id] is a str
    that starts with [did:icn:] and whose [publicKey] is a non-empty list of
    dicts that carry [id] and [controller] and a [publicKeyHex] that the
    library parses; nothing is logged then. *)
Theorem icn_validate_did_document_true_iff_icn_document
        (lib : Crypto) (document : value) :
  (exists b l, validate_did_document lib document = (Ret b, l)) /\
  (returned (validate_did_document lib document) = Ret true
   <-> icn_document lib document) /\
  (returned (validate_did_document lib document) = Ret true
   <-> validate_did_document lib document = (Ret true, [])).
Proof.
  split; [apply icn_validate_returns|].
  assert (Hif : returned (validate_did_document lib document) = Ret true ->
                icn_document lib document).
  { unfold validate_did_document.
    rewrite try_except_true_iff by (intros e l' H; cbn in H; discriminate).
    match goal with |- returned ?b = _ -> _ => destruct b as [r l] eqn:H end.
    unfold returned. cbn [fst]. intros ->.
    bind_inv H as r Hr.
    destruct r as [b|].
    { injection H as -> _.
      apply for_each_returns_some in Hr as (field & l' & _ & Hf).
      bind_inv Hf as present Hp.
      destruct present; cbn [negb] in Hf; [discriminate|].
      bind_inv Hf as u Hu. discriminate. }
    clear Hr.
    bind_inv H as did Hdid.
    apply getitem_returns in Hdid as (d & -> & Hdid).
    bind_inv H as starts Hstarts.
    destruct did as [| | |did| |]; try discriminate.
    injection Hstarts as Hstarts _.
    destruct starts; cbn [negb] in H; [|bind_inv H as u Hu; discriminate].
    bind_inv H as malformed Hmal.
    destruct malformed; [bind_inv H as u Hu; discriminate|].
    apply py_or_false in Hmal as ((la & Ha) & (lb & Hb)).
    bind_inv Ha as public_keys Hkeys.
    apply getitem_returns in Hkeys as (d' & Hd & Hkeys).
    injection Hd as <-.
    injection Ha as Ha _.
    bind_inv Hb as public_keys' Hkeys'.
    cbn [getitem] in Hkeys'. rewrite Hkeys in Hkeys'. injection Hkeys' as <- _.
    injection Hb as Hb _.
    destruct public_keys as [| | | |keys|]; try discriminate.
    bind_inv H as public_keys' Hkeys'.
    cbn [getitem] in Hkeys'. rewrite Hkeys in Hkeys'. injection Hkeys' as <- _.
    bind_inv H as keys' Hiter. injection Hiter as <- _.
    bind_inv H as r Hr.
    destruct r as [b|].
    { injection H as -> _.
      apply for_each_returns_some in Hr as (key & l' & _ & Hf).
      bind_inv Hf as incomplete Hi.
      destruct incomplete; [bind_inv Hf as u Hu; discriminate|].
      unfold try_except in Hf.
      match type of Hf with
      | match ?b with _ => _ end = _ => destruct b as [[o|e] lk] eqn:Hk
      end; [|discriminate].
      injection Hf as -> _.
      bind_inv Hk as hex Hhex. bind_inv Hk as pk Hpk. discriminate. }
    exists d, did, keys. repeat split; auto.
    { intros ->. discriminate. }
    rewrite Forall_forall. intros key Hkey.
    destruct (for_each_completes _ _ _ Hr key Hkey) as (l' & Hf).
    bind_inv Hf as incomplete Hi.
    destruct incomplete; [bind_inv Hf as u Hu; discriminate|].
    apply py_or_false in Hi as ((k1 & Hid) & (k2 & Hrest)).
    apply py_or_false in Hrest as ((k3 & Hhexkey) & (k4 & Hcontroller)).
    apply absent_false in Hid as (k5 & Hid).
    apply absent_false in Hcontroller as (k6 & Hcontroller).
    unfold try_except in Hf.
    match type of Hf with
    | match ?b with _ => _ end = _ => destruct b as [[o|e] lk] eqn:Hk
    end; [|discriminate].
    clear Hf.
    bind_inv Hk as hex Hhex.
    apply getitem_returns in Hhex as (fields & -> & Hhex).
    bind_inv Hk as pk Hpk. unfold IdentitySignature.lift in Hpk.
    injection Hpk as Hpk _.
    cbn [str_in] in Hid, Hcontroller.
    injection Hid as Hid _. injection Hcontroller as Hcontroller _.
    now exists fields, hex, pk. }
  split; split.
  - exact Hif.
  - intros Hdoc. now rewrite (icn_validate_accepts lib document Hdoc).
  - intros H. exact (icn_validate_accepts lib document (Hif H)).
  - intros ->. reflexivity.
Qed.

End IcnDocumentFacts.

(** ** [src/identity/identity_service.py]: identities and their keys *)

Section IcnIdentityFacts.

Import Icn.
Local Open Scope string_scope.

Lemma prefix_append (s t : string) : String.prefix s (s ++ t) = true.
Proof.
  induction s as [|a s IH]; [destruct t; reflexivity|].
  change (String.prefix (String a s) (String a s ++ t))
    with (if ascii_dec a a then String.prefix s (s ++ t) else false).
  destruct (ascii_dec a a); [exact IH | congruence].
Qed.

(** The document [create_identity] returns, by what the checks read. *)
Lemma create_identity_document (self : IdentityService) (fresh : Fresh)
      (alias : value) (fs : files) :
  exists d l,
    fst (create_identity self fresh alias fs) = (Ret (VDict d), l) /\
    assoc "id" d = Some (VStr ("did:icn:" ++ uuid_hex fresh)) /\
    assoc "verificationMethod" d = None /\
    assoc "publicKey" d
    = Some (VList [ VDict [ ("id", VStr (("did:icn:" ++ uuid_hex fresh) ++ "#keys-1"));
                            ("type", VStr "Ed25519VerificationKey2018");
                            ("controller", VStr ("did:icn:" ++ uuid_hex fresh));
                            ("publicKeyHex", VStr (public_key_hex fresh)) ] ]).
Proof.
  unfold create_identity, _store_key. cbn.
  eexists _, _. split; [reflexivity|]. repeat split.
Qed.

(** X16.  The document that [create_identity] returns is accepted by
    [validate_did_document] of the same service, nothing being logged, and a
    signature verifies against it with [Federation.verify_signature] exactly
    when [signatures.verify] returns true with the key the library parses
    from the public key of the fresh pair. *)
Theorem created_identity_validates_and_verifies
        (lib : Crypto) (self : IdentityService) (fresh : Fresh) (alias : value)
        (fs : files) (public_key : string) :
  public_key_from_hex lib (VStr (public_key_hex fresh)) = Ret public_key ->
  exists document,
    returned (fst (create_identity self fresh alias fs)) = Ret document /\
    validate_did_document lib document = (Ret true, []) /\
    forall message signature,
      returned (verify_signature lib message signature document)
      = Ret (library_accepts lib message signature public_key).
Proof.
  intros Hpk.
  destruct (create_identity_document self fresh alias fs)
    as (d & l & Hcreate & Hid & _ & Hkeys).
  exists (VDict d). split; [now rewrite Hcreate|]. split.
  - apply icn_validate_accepts.
    eexists d, ("did:icn:" ++ uuid_hex fresh), _.
    split; [reflexivity|]. split; [exact Hid|]. split; [apply prefix_append|].
    split; [exact Hkeys|]. split; [discriminate|].
    apply Forall_cons; [|apply Forall_nil].
    eexists _, _, public_key.
    split; [reflexivity|]. split; [reflexivity|]. split; [reflexivity|].
    split; [reflexivity | exact Hpk].
  - intros message signature.
    rewrite (icn_verify_with_first_key lib message signature (VDict d) public_key).
    + unfold library_accepts, IdentitySignature.lift.
      destruct (signatures_verify lib message signature public_key); reflexivity.
    + eexists d, _, _, _.
      split; [reflexivity|]. split; [exact Hkeys|]. split; [reflexivity | exact Hpk].
Qed.

Lemma created_identity_validates_and_verifies_witness :
  public_key_from_hex plain_crypto (VStr (public_key_hex fresh_example)) = Ret "a1b2" /\
  exists document,
    returned (fst (create_identity store_example fresh_example VNone [])) = Ret document /\
    validate_did_document plain_crypto document = (Ret true, []) /\
    forall message signature,
      returned (verify_signature plain_crypto message signature document)
      = Ret (library_accepts plain_crypto message signature "a1b2").
Proof.
  split; [reflexivity|].
  exact (created_identity_validates_and_verifies plain_crypto store_example
           fresh_example VNone [] "a1b2" eq_refl).
Defined.

(** X17.  The two identity services do not share a document format: the
    document that [create_identity] returns carries [publicKey] and no
    [verificationMethod], so [validate_did_document] of [identity/service.py]
    rejects it, and a service of that class that resolves a DID to it finds
    no public key and verifies no signature. *)
Theorem created_identity_rejected_by_identity_service
        (self : IdentityService) (fresh : Fresh) (alias : value) (fs : files)
        (document : value)
        (service : Identity.IdentityService) (did_id message signature : pyobj) :
  returned (fst (create_identity self fresh alias fs)) = Ret document ->
  Identity.resolve_did service did_id = document ->
  returned (Identity.validate_did_document document) = Ret false /\
  returned (Identity.verify_did service did_id) = Ret false /\
  returned (Identity.get_public_key service did_id) = Ret VNone /\
  returned (Identity.verify_signature service did_id message signature) = Ret false.
Proof.
  destruct (create_identity_document self fresh alias fs)
    as (d & l & Hcreate & Hid & Hvm & _).
  rewrite Hcreate. cbn [returned fst]. intros Hdocument Hresolve.
  injection Hdocument as <-.
  assert (Hvalidate : Identity.validate_did_document (VDict d)
                      = (Ret false, [Log ERROR "DID document has no verification methods" []])).
  { unfold Identity.validate_did_document. cbn [dict_get]. rewrite Hid, Hvm.
    reflexivity. }
  assert (Hkey : Identity.get_public_key service did_id
                 = (Ret VNone, [Log ERROR "DID document has no verification methods" []])).
  { unfold Identity.get_public_key. rewrite Hresolve.
    destruct d as [|item d]; [discriminate|]. cbn [truthy negb].
    rewrite Hvalidate. reflexivity. }
  repeat split.
  - now rewrite Hvalidate.
  - unfold Identity.verify_did. rewrite Hresolve, Hvalidate. reflexivity.
  - now rewrite Hkey.
  - unfold Identity.verify_signature. rewrite Hkey. reflexivity.
Qed.

Lemma created_identity_rejected_by_identity_service_witness :
  exists document,
    let service := resolver_of "did:icn:0123456789abcdef0123456789abcdef" document in
    let did_id := str "did:icn:0123456789abcdef0123456789abcdef" in
    returned (fst (create_identity store_example fresh_example VNone [])) = Ret document /\
    Identity.resolve_did service did_id = document /\
    returned (Identity.validate_did_document document) = Ret false /\
    returned (Identity.verify_did service did_id) = Ret false /\
    returned (Identity.get_public_key service did_id) = Ret VNone /\
    returned (Identity.verify_signature service did_id (str "payload") (str "c2ln"))
    = Ret false.
Proof.
  eexists. intros service did_id.
  split; [reflexivity|]. split; [reflexivity|].
  exact (created_identity_rejected_by_identity_service store_example fresh_example
           VNone [] _ service did_id (str "payload") (str "c2ln") eq_refl eq_refl).
Defined.

(** ** The key store *)

Lemma assoc_write_file_same (path : string) (document : value) (fs : files) :
  assoc path (write_file path document fs) = Some document.
Proof. unfold write_file. cbn [assoc]. now rewrite String.eqb_refl. Qed.



Lemma get_private_key_of_file (self : IdentityService) (did : string) (fs : files)
      (items : list (string * value)) :
  assoc (key_file self did) fs = Some (VDict items) ->
  get_private_key self did fs
  = (Ret (match assoc "privateKeyHex" items with Some key => key | None => VNone end),
     [Log INFO "Retrieved key for identity: {did}" [PData (VStr did)]]).
Proof.
  intros H. unfold get_private_key, read_file, has_key. rewrite H. reflexivity.
Qed.

(** X18.  The private key of an identity is retrieved by its DID: after
    [create_identity], [get_private_key] on the DID of the returned document
    returns the private key of the fresh pair, whatever the key directory
    held before. *)
Theorem created_identity_key_is_retrieved
        (self : IdentityService) (fresh : Fresh) (alias : value) (fs : files) :
  exists d did,
    returned (fst (create_identity self fresh alias fs)) = Ret (VDict d) /\
    assoc "id" d = Some (VStr did) /\
    returned (get_private_key self did (snd (create_identity self fresh alias fs)))
    = Ret (VStr (private_key_hex fresh)).
Proof.
  destruct (create_identity_document self fresh alias fs)
    as (d & l & Hcreate & Hid & _).
  exists d, ("did:icn:" ++ uuid_hex fresh).
  split; [now rewrite Hcreate|]. split; [exact Hid|].
  unfold create_identity, _store_key. cbn [snd].
  erewrite get_private_key_of_file by apply assoc_write_file_same.
  reflexivity.
Qed.



End IcnIdentityFacts.

(** ** [src/blockchain/validation.py] on the services of [src/] *)

Section IcnValidationFacts.

Import Icn Blockchain.
Local Open Scope string_scope.

Lemma returned_try_except {A} (body : M A) (handler : exn -> M A) :
  returned (try_except body handler)
  = match returned body with
    | Ret a => Ret a
    | Raise e => returned (handler e)
    end.
Proof.
  unfold try_except, returned. destruct body as [[a|e] l]; [reflexivity|].
  cbn. now destruct (handler e).
Qed.

Lemma returned_bind {A B} (m : M A) (k : A -> M B) :
  returned (bind m k)
  = match returned m with
    | Ret a => returned (k a)
    | Raise e => Raise e
    end.
Proof.
  unfold bind, returned. destruct m as [[a|e] l]; [|reflexivity].
  cbn. now destruct (k a).
Qed.

Lemma icn_document_truthy (lib : Crypto) (document : value) :
  icn_document lib document -> truthy document = true.
Proof.
  intros (d & did & keys & -> & Hid & _). destruct d; [discriminate | reflexivity].
Qed.

(** X20.  The validation service on the federation and the identity service
    of [src/], the identity service being given a [get_did_document]: a
    transaction with the four required fields, whose signer is looked up to
    a document that the identity service accepts and whose signature is
    hexadecimal, is accepted exactly when [signatures.verify] returns true
    on the canonical JSON of its content, the decoded signature and the
    first public key of the document. *)
Theorem validate_transaction_on_icn_services
        (lib : Crypto) (hex : string -> result string) (lookup : value -> M value)
        (d : list (string * value)) (document : value)
        (signature_hex signature public_key : string) :
  (forall f, In f required_transaction_fields -> In f (map fst d)) ->
  returned (lookup (field_or "signer" VNone (VDict d))) = Ret document ->
  icn_document lib document ->
  first_public_key lib document public_key ->
  assoc "signature" d = Some (VStr signature_hex) ->
  hex signature_hex = Ret signature ->
  returned (validate_transaction (service_with lib hex lookup) (VDict d))
  = Ret (library_accepts lib
           (_serialize_for_verification (field_or "content" (VDict []) (VDict d)))
           signature public_key).
Proof.
  intros Hfields Hlookup Hdocument Hfirst Hsignature Hhex.
  unfold validate_transaction, _check_required_transaction_fields.
  rewrite returned_try_except.
  rewrite check_fields_dict_complete by now apply required_fields_present.
  rewrite bind_ret_l. cbn [negb dict_get]. rewrite bind_ret_l.
  rewrite returned_bind.
  change (get_did_document (service_with lib hex lookup)
            match assoc "signer" d with Some x => x | None => VNone end)
    with (lookup (field_or "signer" VNone (VDict d))).
  rewrite Hlookup, (icn_document_truthy lib document Hdocument).
  cbn [negb validate_did_document service_with].
  rewrite (icn_validate_accepts lib document Hdocument), !bind_ret_l.
  cbn [negb]. rewrite ?bind_ret_l, Hsignature.
  unfold fromhex. cbn [bytes_fromhex service_with]. rewrite Hhex.
  change (@pair (result string) (list logrec) (Ret signature) []) with (ret signature).
  rewrite bind_ret_l. cbn [federation_verify_signature service_with].
  rewrite (icn_verify_with_first_key lib _ signature document public_key Hfirst).
  unfold library_accepts, IdentitySignature.lift, field_or, _serialize_for_verification.
  destruct (signatures_verify lib _ signature public_key) as [[|]|e]; reflexivity.
Qed.

Lemma validate_transaction_on_icn_services_witness :
  let d := [ ("id", VStr "tx123"); ("signer", VStr "did:icn:test123");
             ("content", payload); ("signature", VStr "00ff") ] in
  let lookup := fun _ : value => ret document_test123 in
  (forall f, In f required_transaction_fields -> In f (map fst d)) /\
  returned (lookup (field_or "signer" VNone (VDict d))) = Ret document_test123 /\
  icn_document plain_crypto document_test123 /\
  first_public_key plain_crypto document_test123 "a1b2" /\
  assoc "signature" d = Some (VStr "00ff") /\
  returned (validate_transaction (service_with plain_crypto (fun s => Ret s) lookup)
              (VDict d))
  = Ret (library_accepts plain_crypto
           (_serialize_for_verification (field_or "content" (VDict []) (VDict d)))
           "00ff" "a1b2").
Proof.
  intros d lookup.
  assert (Hfields : forall f, In f required_transaction_fields -> In f (map fst d)).
  { intros f Hf. apply has_key_In.
    destruct Hf as [<-|[<-|[<-|[<-|[]]]]]; reflexivity. }
  assert (Hdocument : icn_document plain_crypto document_test123).
  { eexists _, _, _.
    split; [reflexivity|]. split; [reflexivity|]. split; [reflexivity|].
    split; [reflexivity|]. split; [discriminate|].
    apply Forall_cons; [|apply Forall_nil].
    eexists _, _, _.
    split; [reflexivity|]. split; [reflexivity|]. split; [reflexivity|].
    split; reflexivity. }
  assert (Hfirst : first_public_key plain_crypto document_test123 "a1b2").
  { eexists _, _, _, _.
    split; [reflexivity|]. split; [reflexivity|]. split; reflexivity. }
  split; [exact Hfields|]. split; [reflexivity|].
  split; [exact Hdocument|]. split; [exact Hfirst|]. split; [reflexivity|].
  exact (validate_transaction_on_icn_services plain_crypto (fun s => Ret s) lookup
           d document_test123 "00ff" "00ff" "a1b2"
           Hfields eq_refl Hdocument Hfirst eq_refl eq_refl).
Defined.

(** X21.  [IdentityService] of [src/identity/identity_service.py] defines no
    [get_did_document].  A validation service built on it as the class
    stands accepts nothing: every call of its three validators returns
    false, the [AttributeError] of the lookup being caught when the required
    fields are there. *)
Theorem validation_service_on_repository_identity_accepts_nothing
        (lib : Crypto) (hex : string -> result string) (entity : value) :
  (exists l, validate_transaction (service_with lib hex missing_get_did_document) entity
             = (Ret false, l)) /\
  (exists l, validate_block (service_with lib hex missing_get_did_document) entity
             = (Ret false, l)) /\
  (exists l, validate_proposal (service_with lib hex missing_get_did_document) entity
             = (Ret false, l)).
Proof.
  repeat split.
  - unfold validate_transaction. apply try_except_false. intros l H.
    bind_inv H as complete Hc.
    destruct complete; cbn [negb] in H; [|discriminate].
    bind_inv H as did Hd. bind_inv H as document Hdoc. discriminate.
  - unfold validate_block. apply try_except_false. intros l H.
    bind_inv H as complete Hc.
    destruct complete; cbn [negb] in H; [|discriminate].
    bind_inv H as did Hd. bind_inv H as document Hdoc. discriminate.
  - unfold validate_proposal. apply try_except_false. intros l H.
    bind_inv H as complete Hc.
    destruct complete; cbn [negb] in H; [|bind_inv H as u Hu; discriminate].
    bind_inv H as did Hd. bind_inv H as document Hdoc. discriminate.
Qed.

End IcnValidationFacts.

(* ================================================================== *)
(** * Part XI.  The documentation tools *)
(* ================================================================== *)

Section FileNameFacts.

Import DocTools.
Local Open Scope string_scope.

Ltac each_ascii c :=
  destruct c as [[|] [|] [|] [|] [|] [|] [|] [|]]; vm_compute; auto.

(** A character that survives the first substitution, after lower-casing,
    is white space or a character of a slug. *)
Lemma kept_lower_char (c : ascii) :
  is_kept (lower_latin1 c) = true ->
  is_space (lower_latin1 c) = true \/
  (is_space (lower_latin1 c) = false /\ slug_char (lower_latin1 c) = true).
Proof. each_ascii c. Qed.


Lemma hyphenate_is_slug (title : string) (in_run : bool) :
  is_slug (hyphenate in_run (remove_other (str_lower title))) = true.
Proof.
  revert in_run. induction title as [|c title IH]; intros in_run; [reflexivity|].
  cbn [str_lower remove_other].
  destruct (is_kept (lower_latin1 c)) eqn:Hkept; [|apply IH].
  cbn [hyphenate].
  destruct (kept_lower_char c Hkept) as [Hs|[Hs Hc]]; rewrite Hs.
  - destruct in_run; [apply IH|]. cbn [is_slug]. now rewrite IH.
  - cbn [is_slug]. now rewrite Hc, IH.
Qed.


Lemma append_assoc (a b c : string) : (a ++ b) ++ c = a ++ b ++ c.
Proof. induction a as [|x a IH]; [reflexivity|]. cbn. now rewrite IH. Qed.

(** X22.  A generated file name is a slug followed by [.md], behind the date
    and a hyphen for a specification or a plan: the slug depends on the
    title only and holds nothing but small ASCII letters, digits and
    hyphens, so no separator of paths and no dot. *)
Theorem generate_filename_is_slug (title : string) :
  exists stem,
    is_slug stem = true /\
    forall today doc_type,
      generate_filename today title doc_type
      = date_prefix today doc_type ++ stem ++ ".md".
Proof.
  exists (hyphenate false (remove_other (str_lower title))).
  split; [apply hyphenate_is_slug|].
  intros today doc_type. unfold generate_filename, date_prefix.
  destruct (versioned doc_type); [|reflexivity].
  now rewrite append_assoc.
Qed.



End FileNameFacts.

Section DocumentTextFacts.

Import DocTools.
Local Open Scope string_scope.

Lemma prefix_cons (a b : ascii) (s t : string) :
  String.prefix (String a s) (String b t)
  = if ascii_dec a b then String.prefix s t else false.
Proof. reflexivity. Qed.

Lemma prefix_empty (s : string) : String.prefix "" s = true.
Proof. destruct s; reflexivity. Qed.

Lemma skip_append (s t : string) : skip (String.length s) (s ++ t) = t.
Proof. induction s as [|c s IH]; [destruct t; reflexivity | exact IH]. Qed.

Lemma partition_at_start (sep rest : string) :
  partition sep (sep ++ rest) = Some ("", rest).
Proof.
  destruct sep as [|c sep].
  - destruct rest; reflexivity.
  - cbn [partition]. change (String c sep ++ rest) with (String c (sep ++ rest)).
    cbn [partition].
    change (String c (sep ++ rest)) with (String c sep ++ rest).
    now rewrite prefix_append, skip_append.
Qed.

(** A pattern that ends with its only newline, when it is no prefix of a
    text that ends with a newline, is no prefix of the text continued. *)
Lemma prefix_of_line (dashes text more : string) :
  is_substring newline dashes = false ->
  String.prefix (dashes ++ newline) (text ++ newline) = false ->
  String.prefix (dashes ++ newline) (text ++ newline ++ more) = false.
Proof.
  unfold newline.
  revert text. induction dashes as [|a dashes IH]; intros text Hd H.
  - destruct text as [|c text]; cbn [append] in H |- *.
    + discriminate.
    + rewrite prefix_cons in H |- *.
      destruct (ascii_dec (ascii_of_N 10) c); [|reflexivity].
      now rewrite prefix_empty in H.
  - assert (Ha : a <> ascii_of_N 10 /\
                 is_substring (String (ascii_of_N 10) "") dashes = false).
    { cbn [is_substring] in Hd. apply orb_false_elim in Hd as [Hp Hrest].
      split; [|exact Hrest]. intros ->.
      rewrite prefix_cons, prefix_empty in Hp.
      destruct (ascii_dec (ascii_of_N 10) (ascii_of_N 10)); congruence. }
    destruct Ha as [Ha Hrest].
    destruct text as [|c text]; cbn [append] in H |- *.
    + rewrite prefix_cons.
      destruct (ascii_dec a (ascii_of_N 10)); [congruence | reflexivity].
    + rewrite prefix_cons in H |- *.
      destruct (ascii_dec a c); [|reflexivity].
      now apply IH.
Qed.

Lemma partition_after_line (text rest : string) :
  is_substring separator (text ++ newline) = false ->
  partition separator (text ++ newline ++ separator ++ rest)
  = Some (text ++ newline, rest).
Proof.
  induction text as [|c text IH]; intros H.
  - change ("" ++ newline ++ separator ++ rest)
      with (String (ascii_of_N 10) (separator ++ rest)).
    cbn [partition].
    change (String.prefix separator (String (ascii_of_N 10) (separator ++ rest)))
      with false.
    now rewrite partition_at_start.
  - change (String c text ++ newline) with (String c (text ++ newline)) in H.
    cbn [is_substring] in H. apply orb_false_elim in H as [Hp Hrest].
    change (String c text ++ newline ++ separator ++ rest)
      with (String c (text ++ newline ++ separator ++ rest)).
    cbn [partition].
    change (String c (text ++ newline ++ separator ++ rest))
      with (String c text ++ newline ++ separator ++ rest).
    pose proof (prefix_of_line "---" (String c text) (separator ++ rest) eq_refl Hp)
      as Hq.
    change ("---" ++ newline) with separator in Hq.
    rewrite Hq. now rewrite (IH Hrest).
Qed.

(** The three parts of a formatted document. *)
Lemma split2_formatted (yaml_metadata content : string) :
  is_substring separator (yaml_metadata ++ newline) = false ->
  split2 separator (format_text yaml_metadata content)
  = [""; yaml_metadata ++ newline; newline ++ content ++ newline].
Proof.
  intros H. unfold split2, format_text.
  now rewrite partition_at_start, (partition_after_line _ _ H).
Qed.






End DocumentTextFacts.

Section ListingFacts.

Import DocTools.
Local Open Scope string_scope.




(** X27.  A document that [format_document] wrote is listed under the
    metadata that load from the dumped ones: when its name ends with [.md]
    and does not start with a dot, the dumped metadata hold no separator
    line and load, and no type is asked for, [list_documents] on the file
    alone returns it with the loaded metadata. *)
Theorem formatted_document_is_listed
        (yaml : Yaml) (f : file) (yaml_metadata content : string) (metadata : value) :
  text f = format_text yaml_metadata content ->
  ends_with ".md" (name f) = true ->
  String.prefix "." (name f) = false ->
  is_substring separator (yaml_metadata ++ newline) = false ->
  safe_load yaml (yaml_metadata ++ newline) = Ret metadata ->
  list_documents yaml None [f] = [(f, metadata)].
Proof.
  intros Htext Hmd Hdot Hsep Hload.
  unfold list_documents, listed. cbn [flat_map].
  rewrite Hmd, Hdot, Htext, (split2_formatted _ _ Hsep), Hload. reflexivity.
Qed.

Lemma formatted_document_is_listed_witness :
  let f := {| directory := "development/guides"; name := "notes.md";
              text := format_text ("title: Notes" ++ newline) "Body" |} in
  text f = format_text ("title: Notes" ++ newline) "Body" /\
  ends_with ".md" (name f) = true /\
  String.prefix "." (name f) = false /\
  is_substring separator (("title: Notes" ++ newline) ++ newline) = false /\
  safe_load plain_yaml (("title: Notes" ++ newline) ++ newline)
  = Ret (VDict [("title", VStr "Notes")]) /\
  list_documents plain_yaml None [f] = [(f, VDict [("title", VStr "Notes")])].
Proof.
  intros f.
  split; [reflexivity|]. split; [reflexivity|]. split; [reflexivity|].
  split; [reflexivity|]. split; [reflexivity|].
  exact (formatted_document_is_listed plain_yaml f ("title: Notes" ++ newline) "Body"
           (VDict [("title", VStr "Notes")]) eq_refl eq_refl eq_refl eq_refl eq_refl).
Defined.

End ListingFacts.

Section RelatedDocumentFacts.

Import DocTools SpecGen.
Local Open Scope string_scope.

Lemma filter_length_le {A} (p : A -> bool) (xs : list A) :
  (length (filter p xs) <= length xs)%nat.
Proof.
  induction xs as [|x xs IH]; [apply le_n|].
  cbn [filter]. destruct (p x); cbn [length]; lia.
Qed.

Lemma related_among_few_words (words : list string) (docs : list (file * value))
      (related : list string) (l : list logrec) :
  (length (nodup string_dec words) < 2)%nat ->
  related_among words docs = (Ret related, l) ->
  related = [].
Proof.
  intros Hfew. revert related l.
  induction docs as [|[f metadata] docs IH]; intros related l H.
  - now injection H as <- _.
  - cbn [related_among] in H.
    bind_inv H as doc_title Ht. bind_inv H as lowered Hlow. bind_inv H as rest Hr.
    apply IH in Hr. subst rest.
    assert (Hc : (2 <=? common_words words (split_words lowered))%nat = false).
    { apply Nat.leb_gt. unfold common_words.
      eapply Nat.le_lt_trans; [apply filter_length_le | exact Hfew]. }
    rewrite Hc in H. now injection H as <- _.
Qed.

(** X28.  A title with fewer than two distinct words, the empty title among
    them, has no related document: whatever the documents are,
    [find_related_docs] returns the empty list, unless it raises on the
    metadata of a document. *)
Theorem find_related_docs_needs_two_words
        (yaml : Yaml) (title : string) (files : list file) :
  (length (nodup string_dec (split_words (str_lower title))) < 2)%nat ->
  returned (find_related_docs yaml title files) = Ret [] \/
  exists e, returned (find_related_docs yaml title files) = Raise e.
Proof.
  intros Hfew. unfold find_related_docs.
  destruct (related_among _ _) as [[related|e] l] eqn:E; [left | right; now exists e].
  now rewrite (related_among_few_words _ _ _ _ Hfew E).
Qed.

Lemma find_related_docs_needs_two_words_witness :
  let f := {| directory := "development/guides"; name := "notes.md";
              text := format_text ("title: Notes" ++ newline) "Body" |} in
  (length (nodup string_dec (split_words (str_lower "Notes  notes"))) < 2)%nat /\
  (returned (find_related_docs plain_yaml "Notes  notes" [f]) = Ret [] \/
   exists e, returned (find_related_docs plain_yaml "Notes  notes" [f]) = Raise e).
Proof.
  intros f.
  assert (Hfew : (length (nodup string_dec (split_words (str_lower "Notes  notes"))) < 2)%nat)
    by (vm_compute; lia).
  split; [exact Hfew|].
  exact (find_related_docs_needs_two_words plain_yaml "Notes  notes" [f] Hfew).
Defined.

End RelatedDocumentFacts.
